(** * Authentication and access-control core of the academic records backend

    A shallow embedding of
      - [src/constants/roles.js]               (ROLES),
      - [src/utils/errorResponse.js]           (ErrorResponse),
      - [src/middlewares/rbac.middleware.js]   (role and permission gates),
      - [src/models/Admin.model.js]            (permission normalisation hooks),
      - [src/models/Student.model.js]          (student and teacher schemas,
                                                their number generators),
      - [src/models/Token.model.js],
      - [src/services/authService.js]          (AuthService),
      - [src/middlewares/auth.middleware.js]   (protect, authorize),
      - [src/utils/asyncHandler.js], [src/middlewares/errorHandler.js],
      - [src/controllers/auth.controller.js], [src/controllers/admin.controller.js]
                                               (deleteUser),
      - [src/utils/routeProtection.js],
    followed by the properties of section 8 of the specification and
    further properties of the same code.  What Mongoose does around the
    schemas is part of the embedding: ObjectId casts, [pre] hooks in the
    order of their declaration, validators, unique indexes.

    JavaScript strings are modelled by [string] (sequences of bytes); case
    mapping and white space cover the ASCII range.  JavaScript numbers are
    integers, exact below 2^53.  The store is explicit
    state: an operation takes the database and returns its result with the
    database it leaves.  bcryptjs, jsonwebtoken and the SHA-256 digest are
    an interface ([Crypto]) with the laws the service relies on
    ([CryptoLaws]). *)

From Stdlib Require Import ZArith String Ascii List Bool Lia DecimalString.
From stdpp Require Import base option list strings gmap.

Local Open Scope string_scope.
Local Open Scope Z_scope.
Local Set Warnings "-register-all".

(* ===================================================================== *)
(** ** JavaScript values, strings and plain objects                       *)
(* ===================================================================== *)

Module Js.

(** The values that flow through the request context and the permission
    arrays.  [VId] is a database ObjectId, given by its hexadecimal text;
    [VNative k] is the member [k] that every plain object inherits from
    [Object.prototype]. *)
Inductive value : Type :=
| VUndefined
| VNull
| VBool (b : bool)
| VStr (s : string)
| VId (hex : string)
| VArr (l : list value)
| VNative (k : string).

(** Result of evaluating an expression that may throw a [TypeError]. *)
Inductive completion (A : Type) : Type :=
| Normal (a : A)
| TypeError.
Arguments Normal {A} a.
Arguments TypeError {A}.

(** [obj[k]] on an object literal with own properties [own]. *)
Inductive lookup (A : Type) : Type :=
| Own (a : A)
| Inherited (k : string)
| Absent.
Arguments Own {A} a.
Arguments Inherited {A} k.
Arguments Absent {A}.

Definition object_prototype_keys : list string :=
  [ "constructor"; "__defineGetter__"; "__defineSetter__"; "hasOwnProperty";
    "__lookupGetter__"; "__lookupSetter__"; "isPrototypeOf";
    "propertyIsEnumerable"; "toString"; "valueOf"; "__proto__";
    "toLocaleString" ].

Definition get_prop {A : Type} (own : gmap string A) (k : string) : lookup A :=
  match own !! k with
  | Some a => Own a
  | None => if bool_decide (k ∈ object_prototype_keys) then Inherited k else Absent
  end.

(** [!!v] *)
Definition truthy (v : value) : bool :=
  match v with
  | VUndefined | VNull => false
  | VBool b => b
  | VStr s => negb (String.eqb s "")
  | VId _ | VArr _ | VNative _ => true
  end.

Fixpoint join (sep : string) (l : list string) : string :=
  match l with
  | [] => ""
  | [s] => s
  | s :: r => s ++ sep ++ join sep r
  end.

Definition native_to_string (k : string) : string :=
  if String.eqb k "__proto__" then "[object Object]"
  else "function " ++ (if String.eqb k "constructor" then "Object" else k)
       ++ "() { [native code] }".

(** [String(v)], also the conversion of [v] to a property key and the
    interpolation of [v] in a template literal. *)
Fixpoint to_string (v : value) : string :=
  match v with
  | VUndefined => "undefined"
  | VNull => "null"
  | VBool b => if b then "true" else "false"
  | VStr s => s
  | VId hex => hex
  | VArr l =>
      join "," (List.map (fun x => match x with
                                   | VUndefined | VNull => ""
                                   | _ => to_string x
                                   end) l)
  | VNative k => native_to_string k
  end.

(** [v === s] for a string literal [s]. *)
Definition strict_eq_str (v : value) (s : string) : bool :=
  match v with
  | VStr s' => String.eqb s' s
  | _ => false
  end.

(** [Array.prototype.includes] with a string argument. *)
Definition array_includes (l : list value) (s : string) : bool :=
  existsb (fun x => strict_eq_str x s) l.

(** [String.prototype.includes] *)
Definition string_includes (s sub : string) : bool :=
  match String.index 0 sub s with
  | Some _ => true
  | None => false
  end.

(** [v?.includes(s)] *)
Definition optional_includes (v : value) (s : string) : completion value :=
  match v with
  | VUndefined | VNull => Normal VUndefined
  | VArr l => Normal (VBool (array_includes l s))
  | VStr str => Normal (VBool (string_includes str s))
  | VBool _ | VId _ | VNative _ => TypeError
  end.

(** [l.some(f)] *)
Fixpoint some {A : Type} (f : A -> completion value) (l : list A)
  : completion bool :=
  match l with
  | [] => Normal false
  | x :: r =>
      match f x with
      | TypeError => TypeError
      | Normal v => if truthy v then Normal true else some f r
      end
  end.

(** [a < b] on the results of two property reads of a table of numbers.
    An own member is a number and [undefined] converts to [NaN].  An
    inherited member is a function or [Object.prototype] and converts to
    its text: two texts are compared as strings, code unit by code unit,
    and a text compared with a number converts to [NaN].  Every comparison
    with [NaN] is false. *)
Definition less_than (a b : lookup Z) : bool :=
  match a, b with
  | Own x, Own y => x <? y
  | Inherited k, Inherited k' =>
      String.ltb (native_to_string k) (native_to_string k')
  | _, _ => false
  end.

Definition is_upper (c : ascii) : bool :=
  let n := nat_of_ascii c in (65 <=? n)%nat && (n <=? 90)%nat.

Definition lower_ascii (c : ascii) : ascii :=
  if is_upper c then ascii_of_nat (nat_of_ascii c + 32) else c.

(** [s.toLowerCase()] *)
Fixpoint toLowerCase (s : string) : string :=
  match s with
  | EmptyString => EmptyString
  | String c r => String (lower_ascii c) (toLowerCase r)
  end.

(** White space as seen by [\s] and [trim]: TAB, LF, VT, FF, CR, SPACE. *)
Definition is_space (c : ascii) : bool :=
  let n := nat_of_ascii c in
  ((9 <=? n)%nat && (n <=? 13)%nat) || (n =? 32)%nat.

Fixpoint trimStart (s : string) : string :=
  match s with
  | EmptyString => EmptyString
  | String c r => if is_space c then trimStart r else s
  end.

Fixpoint trimEnd (s : string) : string :=
  match s with
  | EmptyString => EmptyString
  | String c r =>
      match trimEnd r with
      | EmptyString => if is_space c then EmptyString else String c EmptyString
      | r' => String c r'
      end
  end.

(** [s.trim()] *)
Definition trim (s : string) : string := trimEnd (trimStart s).

(** [l.every(f)] *)
Fixpoint every {A : Type} (f : A -> completion value) (l : list A)
  : completion bool :=
  match l with
  | [] => Normal true
  | x :: r =>
      match f x with
      | TypeError => TypeError
      | Normal v => if truthy v then every f r else Normal false
      end
  end.

(** [s.split(c)] for a one-character separator *)
Fixpoint split (sep : ascii) (s : string) : list string :=
  match s with
  | EmptyString => [EmptyString]
  | String c r =>
      if Ascii.eqb c sep then EmptyString :: split sep r
      else match split sep r with
           | h :: t => String c h :: t
           | [] => [String c EmptyString]
           end
  end.

(** [n.toString()] for an integer [n] that a number holds exactly *)
Definition decimal (n : Z) : string := NilZero.string_of_int (Z.to_int n).

(** The integers a JavaScript number holds exactly, with their successor. *)
Definition safe_integer (n : Z) : bool := Z.abs n <? 2 ^ 53.

(** [s.slice(-2)] *)
Definition slice_last2 (s : string) : string :=
  String.substring (String.length s - 2) 2 s.

Fixpoint zeros (n : nat) : string :=
  match n with
  | O => EmptyString
  | S n' => String "0" (zeros n')
  end.

(** [s.padStart(n, '0')] *)
Definition padStart (n : nat) (s : string) : string :=
  zeros (n - String.length s) ++ s.

(** The value of the digit [c] in a radix of 10 or 16, when it is one. *)
Definition digit_value (radix : Z) (c : ascii) : option Z :=
  let n := Z.of_nat (nat_of_ascii c) in
  let v := if (48 <=? n) && (n <=? 57) then Some (n - 48)
           else if (97 <=? n) && (n <=? 122) then Some (n - 87)
           else if (65 <=? n) && (n <=? 90) then Some (n - 55)
           else None in
  match v with
  | Some d => if d <? radix then Some d else None
  | None => None
  end.

(** The value of the longest prefix of [s] made of digits; [read] tells
    whether a digit was read already. *)
Fixpoint digits_prefix (radix : Z) (s : string) (acc : Z) (read : bool)
  : option Z :=
  match s with
  | EmptyString => if read then Some acc else None
  | String c r =>
      match digit_value radix c with
      | Some d => digits_prefix radix r (acc * radix + d) true
      | None => if read then Some acc else None
      end
  end.

(** [parseInt(s)], as an exact integer; [None] is [NaN].  Leading white
    space, a sign, the prefix [0x] of a hexadecimal number, then the longest
    run of digits. *)
Definition parseInt (s : string) : option Z :=
  let s := trimStart s in
  let signed := match s with
                | String "-" r => (true, r)
                | String "+" r => (false, r)
                | _ => (false, s)
                end in
  let based := match snd signed with
               | String "0" (String x r) =>
                   if Ascii.eqb x "x" || Ascii.eqb x "X" then (16, r)
                   else (10, snd signed)
               | _ => (10, snd signed)
               end in
  option_map (fun n => if fst signed then - n else n)
    (digits_prefix (fst based) (snd based) 0 false).

Definition is_lower (c : ascii) : bool :=
  let n := nat_of_ascii c in (97 <=? n)%nat && (n <=? 122)%nat.

Definition upper_ascii (c : ascii) : ascii :=
  if is_lower c then ascii_of_nat (nat_of_ascii c - 32) else c.

(** [s.charAt(0).toUpperCase() + s.slice(1)] *)
Definition capitalize (s : string) : string :=
  match s with
  | EmptyString => EmptyString
  | String c r => String (upper_ascii c) r
  end.

End Js.

(* ===================================================================== *)
(** ** ObjectIds                                                          *)
(* ===================================================================== *)

(** A database ObjectId is twelve bytes; it is held here by the text
    [toString()] gives, 24 hexadecimal digits in lower case.  [cast] is the
    cast of a string to an ObjectId, as [Model.findById] and the queries on
    [_id] make it: 24 hexadecimal digits, in either case; any other string
    raises a [CastError]. *)
Module ObjectId.
Import Js.

Definition is_hex_digit (c : ascii) : bool :=
  let n := nat_of_ascii c in
  ((48 <=? n)%nat && (n <=? 57)%nat) || ((97 <=? n)%nat && (n <=? 102)%nat).

Fixpoint all_hex (s : string) : bool :=
  match s with
  | EmptyString => true
  | String c r => is_hex_digit c && all_hex r
  end.

Definition well_formed (s : string) : bool :=
  (String.length s =? 24)%nat && all_hex s.

Record t : Type := mk {
  hex : string;
  valid : Is_true (well_formed hex)
}.

Definition cast (s : string) : option t :=
  match well_formed (toLowerCase s) as b return (Is_true b -> t) -> option t with
  | true => fun k => Some (k I)
  | false => fun _ => None
  end (mk (toLowerCase s)).

End ObjectId.

Coercion ObjectId.hex : ObjectId.t >-> string.

(* ===================================================================== *)
(** ** src/utils/errorResponse.js                                         *)
(* ===================================================================== *)

Record ErrorResponse : Type := mkError {
  message : string;
  statusCode : Z
}.

(* ===================================================================== *)
(** ** src/constants/roles.js                                             *)
(* ===================================================================== *)

Module ROLES.
Definition ADMIN : string := "admin".
Definition TEACHER : string := "teacher".
Definition STUDENT : string := "student".
End ROLES.

(* ===================================================================== *)
(** ** src/middlewares/rbac.middleware.js                                 *)
(* ===================================================================== *)

Module Rbac.
Import Js.

(** [ROLES] is the object of src/constants/roles.js, which this module
    names through the controller module. *)

(** What a gate does with the request: [next()], [next(err)], or an
    uncaught exception. *)
Inductive outcome : Type :=
| Next
| NextErr (e : ErrorResponse)
| Throws.

(** [req.user]: [None] when absent, otherwise the object's own properties. *)
Definition user_context : Type := option (gmap string value).

(** [user.k] *)
Definition field (u : gmap string value) (k : string) : value :=
  default VUndefined (u !! k).

Definition ROLE_HIERARCHY : gmap string Z :=
  {[ ROLES.ADMIN := 3; ROLES.TEACHER := 2; ROLES.STUDENT := 1 ]}.

Definition requireRole (roles : list string) (user : user_context) : outcome :=
  match user with
  | None => NextErr (mkError "Authentication required" 401)
  | Some u =>
      if negb (existsb (strict_eq_str (field u "role")) roles)
      then NextErr (mkError ("Role '" ++ to_string (field u "role")
                             ++ "' is not authorized to access this route") 403)
      else Next
  end.

Definition requireMinRole (minRole : string) (user : user_context) : outcome :=
  match user with
  | None => NextErr (mkError "Authentication required" 401)
  | Some u =>
      let userRoleLevel := get_prop ROLE_HIERARCHY (to_string (field u "role")) in
      let requiredRoleLevel := get_prop ROLE_HIERARCHY minRole in
      if less_than userRoleLevel requiredRoleLevel
      then NextErr (mkError ("Role '" ++ to_string (field u "role")
                             ++ "' does not have sufficient privileges") 403)
      else Next
  end.

(** [req.user.role === ROLES.ADMIN && req.user.roleType === 'super_admin'] *)
Definition is_super_admin (u : gmap string value) : bool :=
  strict_eq_str (field u "role") ROLES.ADMIN
  && strict_eq_str (field u "roleType") "super_admin".

Definition requirePermission (permission : string) (user : user_context)
  : outcome :=
  match user with
  | None => NextErr (mkError "Authentication required" 401)
  | Some u =>
      if is_super_admin u then Next
      else
        match optional_includes (field u "permissions") permission with
        | TypeError => Throws
        | Normal v =>
            if negb (truthy v)
            then NextErr (mkError ("Insufficient permissions. Required: "
                                   ++ permission) 403)
            else Next
        end
  end.

Definition requireAnyPermission (permissions : list string)
    (user : user_context) : outcome :=
  match user with
  | None => NextErr (mkError "Authentication required" 401)
  | Some u =>
      if is_super_admin u then Next
      else
        match some (fun permission =>
                      optional_includes (field u "permissions") permission)
                   permissions with
        | TypeError => Throws
        | Normal hasPermission =>
            if negb hasPermission
            then NextErr (mkError ("Insufficient permissions. Required one of: "
                                   ++ join ", " permissions) 403)
            else Next
        end
  end.

End Rbac.

(* ===================================================================== *)
(** ** src/models/Admin.model.js: permission scopes and their aliases     *)
(* ===================================================================== *)

Module AdminModel.
Import Js.

(** The entries of the object literal, in declaration order. *)
Definition ADMIN_PERMISSIONS : list (string * string) :=
  [ ("MANAGE_USERS", "manage_users");
    ("MANAGE_ROLES", "manage_roles");
    ("MANAGE_COURSES", "manage_courses");
    ("MANAGE_SUBJECTS", "manage_subjects");
    ("MANAGE_GRADES", "manage_grades");
    ("MANAGE_SETTINGS", "manage_settings");
    ("VIEW_AUDIT_LOGS", "view_audit_logs");
    ("MANAGE_ANNOUNCEMENTS", "manage_announcements");
    ("MANAGE_RESOURCES", "manage_resources") ].

(** [Object.values(ADMIN_PERMISSIONS)] *)
Definition permission_values : list string := List.map snd ADMIN_PERMISSIONS.

Definition alias_entries : list (string * string) :=
  [ ("system_settings", "manage_settings");
    ("settings", "manage_settings");
    ("audit_logs", "view_audit_logs");
    ("users", "manage_users");
    ("roles", "manage_roles");
    ("courses", "manage_courses");
    ("subjects", "manage_subjects");
    ("grades", "manage_grades");
    ("announcements", "manage_announcements");
    ("resources", "manage_resources") ].

Definition PERMISSION_ALIASES : gmap string string := list_to_map alias_entries.

(** The value read by [PERMISSION_ALIASES[key]]. *)
Definition alias_value (r : lookup string) : value :=
  match r with
  | Own canonical => VStr canonical
  | Inherited k => VNative k
  | Absent => VUndefined
  end.

Definition normalizePermission (v : value) : value :=
  if negb (truthy v) then v
  else
    let key := toLowerCase (to_string v) in
    if existsb (String.eqb key) permission_values then VStr key
    else
      let aliased := alias_value (get_prop PERMISSION_ALIASES key) in
      if truthy aliased then aliased else v.

(** [arr.map(normalizePermission).filter(Boolean)] *)
Definition normalize_all (arr : list value) : list value :=
  List.filter truthy (List.map normalizePermission arr).

Definition DEFAULT_ADMIN_PERMISSIONS : list string :=
  [ "manage_users"; "manage_courses"; "manage_grades"; "manage_settings" ].

Definition roleType_enum : list string :=
  [ "super_admin"; "academic_admin"; "support_admin"; "custom" ].

(** The [enum] validator of the elements of [permissions]. *)
Definition permission_valid (p : string) : bool :=
  existsb (String.eqb p) permission_values.

(** The cast of an element to the string path of [permissions]: a function
    is cast to its text; [Object.prototype], whose [toString] is that of
    plain objects, is not cast and raises a [CastError]. *)
Definition castable (v : value) : bool :=
  match v with
  | VNative k => negb (String.eqb k "__proto__")
  | _ => true
  end.

(** [pre('validate')]: the document's [permissions] is an array of strings;
    the normalised array is assigned back to the string-array path, which
    stores each element as its string.  When an element cannot be cast the
    assignment is refused: the array stays as it was and the path is marked
    invalid, which the element that is no enumerated permission makes it
    anyway. *)
Definition pre_validate_permissions (permissions : list string) : list string :=
  let normalized := normalize_all (List.map VStr permissions) in
  if forallb castable normalized then List.map to_string normalized
  else permissions.

(** The update document handed to [findOneAndUpdate]: the fields under
    [$set] when that operator is present, and the top-level fields. *)
Record update : Type := mkUpdate {
  dollar_set : option (gmap string value);
  top_level : gmap string value
}.

(** The hook that Mongoose itself installs for [timestamps: true].  It is
    installed with the schema, so it runs before the hooks of the
    repository, and it puts [updatedAt] under [$set], which it creates when
    the update has none.  [updatedAt] is no path of the documents modelled
    here: what is kept of the hook is that [$set] is there afterwards. *)
Definition timestamps_hook (upd : update) : update :=
  mkUpdate (Some (default ∅ (dollar_set upd))) (top_level upd).

(** [pre('findOneAndUpdate')] *)
Definition pre_findOneAndUpdate (upd : update) : update :=
  let target := match dollar_set upd with
                | Some s => s
                | None => top_level upd
                end in
  let permissions := default VUndefined (target !! "permissions") in
  if truthy permissions then
    let normalized := match permissions with
                      | VArr arr => VArr (normalize_all arr)
                      | other => other
                      end in
    match dollar_set upd with
    | Some s => mkUpdate (Some (<["permissions" := normalized]> s)) (top_level upd)
    | None => mkUpdate None (<["permissions" := normalized]> (top_level upd))
    end
  else upd.

End AdminModel.

(* ===================================================================== *)
(** ** External libraries: bcryptjs, jsonwebtoken, crypto                 *)
(* ===================================================================== *)

(** The claims of a session token: [{ id, role }] plus the [iat] and [exp]
    that [jwt.sign] adds (seconds since the epoch). *)
Record Payload : Type := mkPayload {
  p_id : string;
  p_role : string;
  iat : Z;
  exp : Z
}.

(** [/^\$2[aby]\$/] *)
Definition looks_hashed (s : string) : bool :=
  match s with
  | String "$" (String "2" (String c (String "$" _))) =>
      Ascii.eqb c "a" || Ascii.eqb c "b" || Ascii.eqb c "y"
  | _ => false
  end.

Class Crypto : Type := {
  (** [bcrypt.hash(password, salt)] *)
  bcrypt_hash : string -> string -> string;
  (** [bcrypt.compare(password, hash)] *)
  bcrypt_compare : string -> string -> bool;
  (** [crypto.createHash('sha256').update(s).digest('hex')] *)
  sha256_hex : string -> string;
  (** the compact serialisation [jwt.sign] makes of a payload under a secret *)
  jwt_encode : Payload -> string -> string;
  (** [jwt.sign] of a payload whose [id] is [undefined], which JSON leaves
      out: the role, [iat] and [exp], under a secret *)
  jwt_encode_no_id : string -> Z -> Z -> string -> string;
  (** signature check and parsing of [jwt.verify] under a secret *)
  jwt_decode : string -> string -> option Payload
}.

(** What the service relies on from these libraries. *)
Class CryptoLaws (C : Crypto) : Prop := {
  bcrypt_compare_hash :
    forall pw salt, bcrypt_compare pw (bcrypt_hash pw salt) = true;
  bcrypt_hash_format :
    forall pw salt, looks_hashed (bcrypt_hash pw salt) = true;
  bcrypt_hash_length :
    forall pw salt, String.length (bcrypt_hash pw salt) = 60%nat;
  jwt_decode_encode :
    forall p secret, jwt_decode (jwt_encode p secret) secret = Some p
}.

(* ===================================================================== *)
(** ** The document store and the three identity schemas                  *)
(* ===================================================================== *)

Inductive Model : Type := Admin | Teacher | Student.

(** A document of one of the identity collections.  [roleType] and
    [permissions] are paths of the Admin schema only, [studentId] of the
    Student schema and [employeeId] of the Teacher schema; [None] is a path
    the document does not have. *)
Module Identity.
Record t : Type := mk {
  _id : ObjectId.t;
  email : string;
  password : string;
  firstName : string;
  lastName : string;
  roleType : option string;
  permissions : list string;
  studentId : option string;
  employeeId : option string
}.
End Identity.

(** src/models/Token.model.js *)
Module Token.
Record t : Type := mk {
  _id : ObjectId.t;
  user : ObjectId.t;
  userModel : string;
  token : string;
  type : string;
  expiresAt : Z;
  used : bool;
  ipAddress : string;
  userAgent : string
}.

(** [tokenSchema.methods.isValid], at clock reading [now] *)
Definition isValid (now : Z) (d : t) : bool :=
  negb (used d) && (now <? expiresAt d).

(** [Token.findOne({ token, type, expiresAt: { $gt: now } })] *)
Definition findOne (tokens : list t) (hash ty : string) (now : Z) : option t :=
  List.find (fun d => String.eqb (token d) hash && String.eqb (type d) ty
                      && (now <? expiresAt d)) tokens.

(** [Token.findOne({ token, type, used: false, expiresAt: { $gt: now } })] *)
Definition findOne_unused (tokens : list t) (hash ty : string) (now : Z)
  : option t :=
  List.find (fun d => String.eqb (token d) hash && String.eqb (type d) ty
                      && negb (used d) && (now <? expiresAt d)) tokens.

(** [Token.deleteOne({ _id })] *)
Fixpoint deleteOne (tokens : list t) (id : ObjectId.t) : list t :=
  match tokens with
  | [] => []
  | d :: rest => if String.eqb (_id d) id then rest else d :: deleteOne rest id
  end.
End Token.

Record Db : Type := mkDb {
  admins : list Identity.t;
  teachers : list Identity.t;
  students : list Identity.t;
  tokens : list Token.t
}.

Definition collection (m : Model) (db : Db) : list Identity.t :=
  match m with
  | Admin => admins db
  | Teacher => teachers db
  | Student => students db
  end.

Definition set_collection (m : Model) (c : list Identity.t) (db : Db) : Db :=
  match m with
  | Admin => mkDb c (teachers db) (students db) (tokens db)
  | Teacher => mkDb (admins db) c (students db) (tokens db)
  | Student => mkDb (admins db) (teachers db) c (tokens db)
  end.

Definition set_tokens (ts : list Token.t) (db : Db) : Db :=
  mkDb (admins db) (teachers db) (students db) ts.

(** What an operation on the store can raise besides an [ErrorResponse]. *)
Inductive failure : Type :=
| ValidationError
| CastError
| DuplicateKey
| NotAFunction.

Inductive result (A : Type) : Type :=
| Ok (a : A)
| Fail (e : ErrorResponse)
| Crash (x : failure).
Arguments Ok {A} a.
Arguments Fail {A} e.
Arguments Crash {A} x.

(** [process.env]: the signing secret and the session lifetime, in seconds
    ([None] when [JWT_EXPIRE] is not set). *)
Record Config : Type := mkConfig {
  JWT_SECRET : string;
  JWT_EXPIRE : option Z
}.

(** What one call reads from its surroundings: the clock ([Date.now()],
    milliseconds), the salts [bcrypt.genSalt(10)] returns in the service and
    in the [pre('save')] hook, the ObjectId given to a new document, the
    year [new Date().getFullYear()] gives, and the text [toString()] gives
    for a number beyond the integers that numbers hold exactly. *)
Record Env : Type := mkEnv {
  now : Z;
  salt : string;
  hookSalt : string;
  newId : ObjectId.t;
  year : Z;
  bigNumberText : string
}.

Module Schema.
Import Js.

Fixpoint no_space (s : string) : bool :=
  match s with
  | EmptyString => true
  | String c r => negb (is_space c) && no_space r
  end.

(** The text after the first occurrence of [c]. *)
Fixpoint after_first (c : ascii) (s : string) : option string :=
  match s with
  | EmptyString => None
  | String c' r => if Ascii.eqb c' c then Some r else after_first c r
  end.

(** [/^\S+@\S+\.\S+$/]: no white space, a character, ['@'], a character,
    and later a ['.'] followed by a character. *)
Definition email_match (s : string) : bool :=
  no_space s &&
  match s with
  | EmptyString => false
  | String _ r =>
      match after_first "@" r with
      | Some (String _ domain) =>
          match after_first "." domain with
          | Some (String _ _) => true
          | _ => false
          end
      | _ => false
      end
  end.

(** The setters of the [email] path ([trim], [lowercase]); they apply to
    the value written and to the value queried. *)
Definition cast_email (s : string) : string := trim (toLowerCase s).

Definition minlength (m : Model) : nat :=
  match m with
  | Admin => 8
  | Teacher | Student => 6
  end.

Definition nonempty (s : string) : bool := negb (String.eqb s "").

(** The validators of the schema of [m]. *)
Definition validate (m : Model) (d : Identity.t) : bool :=
  nonempty (Identity.email d) && email_match (Identity.email d)
  && nonempty (Identity.password d)
  && (minlength m <=? String.length (Identity.password d))%nat
  && nonempty (Identity.firstName d)
  && nonempty (Identity.lastName d)
  && match m with
     | Admin =>
         match Identity.roleType d with
         | Some rt => existsb (String.eqb rt) AdminModel.roleType_enum
         | None => true
         end
         && forallb AdminModel.permission_valid (Identity.permissions d)
     | Teacher | Student => true
     end.

(** What the validators of [m] ask of the arguments of [Model.create]
    other than the password: the written form of each path must pass. *)
Definition valid_input (m : Model) (email first last : string)
    (rt : option string) (perms : option (list string)) : bool :=
  email_match (cast_email email)
  && nonempty (trim first)
  && nonempty (trim last)
  && match m with
     | Admin =>
         match rt with
         | Some x => existsb (String.eqb x) AdminModel.roleType_enum
         | None => true
         end
         && forallb AdminModel.permission_valid
              (AdminModel.pre_validate_permissions (default [] perms))
     | Teacher | Student => true
     end.

Definition set_permissions (d : Identity.t) (perms : list string) : Identity.t :=
  Identity.mk (Identity._id d) (Identity.email d) (Identity.password d)
    (Identity.firstName d) (Identity.lastName d) (Identity.roleType d) perms
    (Identity.studentId d) (Identity.employeeId d).

(** The [pre('validate')] hooks of the schema of [m]. *)
Definition pre_validate (m : Model) (d : Identity.t) : Identity.t :=
  match m with
  | Admin =>
      set_permissions d
        (AdminModel.pre_validate_permissions (Identity.permissions d))
  | Teacher | Student => d
  end.

Definition set_password (d : Identity.t) (pw : string) : Identity.t :=
  Identity.mk (Identity._id d) (Identity.email d) pw
    (Identity.firstName d) (Identity.lastName d) (Identity.roleType d)
    (Identity.permissions d) (Identity.studentId d) (Identity.employeeId d).

Definition set_studentId (d : Identity.t) (sid : option string) : Identity.t :=
  Identity.mk (Identity._id d) (Identity.email d) (Identity.password d)
    (Identity.firstName d) (Identity.lastName d) (Identity.roleType d)
    (Identity.permissions d) sid (Identity.employeeId d).

Definition set_employeeId (d : Identity.t) (eid : option string) : Identity.t :=
  Identity.mk (Identity._id d) (Identity.email d) (Identity.password d)
    (Identity.firstName d) (Identity.lastName d) (Identity.roleType d)
    (Identity.permissions d) (Identity.studentId d) eid.

(** [!s] for a path that holds a string or nothing *)
Definition falsy (s : option string) : bool :=
  match s with
  | None => true
  | Some x => String.eqb x ""
  end.

(** The first document of [find(...).sort({ k: -1 })], by the text of [k]:
    the greatest text, code unit by code unit. *)
Fixpoint greatest (l : list string) : option string :=
  match l with
  | [] => None
  | x :: r =>
      match greatest r with
      | Some y => if String.ltb x y then Some y else Some x
      | None => Some x
      end
  end.

(** The texts of [number] among the documents of [c] that match
    [new RegExp('^' + prefix)]; [prefix] is made of digits, letters and
    ['-']. *)
Definition numbers_with (prefix : string) (number : Identity.t -> option string)
    (c : list Identity.t) : list string :=
  List.filter (String.prefix prefix) (omap number c).

(** [nextNumber.toString()], where [nextNumber] is [start] unless a last
    document was found whose number, the part of index [part] between the
    ['-'], parses: then it is that number plus one. *)
Definition next_number_text (env : Env) (start : Z) (part : nat)
    (last : option string) : string :=
  match last with
  | None => decimal start
  | Some text =>
      if falsy (Some text) then decimal start
      else
        match parseInt (default "undefined" (nth_error (split "-" text) part)) with
        | None => decimal start
        | Some lastNumber =>
            if safe_integer lastNumber then decimal (lastNumber + 1)
            else bigNumberText env
        end
  end.

(** [currentYear.toString().slice(-2)] *)
Definition yearSuffix (env : Env) : string := slice_last2 (decimal (year env)).

(** [generateStudentId()], on the Student collection [c] *)
Definition generateStudentId (env : Env) (c : list Identity.t) : string :=
  let prefix := yearSuffix env ++ "-" in
  prefix ++ padStart 6
    (next_number_text env 100001 1
       (greatest (numbers_with prefix Identity.studentId c))).

(** [generateEmployeeId()], on the Teacher collection [c] *)
Definition generateEmployeeId (env : Env) (c : list Identity.t) : string :=
  let prefix := "EMP-" ++ yearSuffix env ++ "-" in
  prefix ++ padStart 5
    (next_number_text env 10001 2
       (greatest (numbers_with prefix Identity.employeeId c))).

(** The [pre('save')] hooks that number students and teachers: a document
    without a number is given the next one of the year. *)
Definition pre_save_number (m : Model) (env : Env) (db : Db) (d : Identity.t)
  : Identity.t :=
  match m with
  | Student =>
      if falsy (Identity.studentId d)
      then set_studentId d (Some (generateStudentId env (students db)))
      else d
  | Teacher =>
      if falsy (Identity.employeeId d)
      then set_employeeId d (Some (generateEmployeeId env (teachers db)))
      else d
  | Admin => d
  end.

(** The number of a document of [m]. *)
Definition number_of (m : Model) (d : Identity.t) : option string :=
  match m with
  | Student => Identity.studentId d
  | Teacher => Identity.employeeId d
  | Admin => None
  end.

(** The number a new document of [m] is inserted with: the one given for
    it, or the one the hook generates. *)
Definition number_on_insert (m : Model) (env : Env) (db : Db)
    (sid eid : option string) : option string :=
  match m with
  | Student =>
      if falsy sid then Some (generateStudentId env (students db)) else sid
  | Teacher =>
      if falsy eid then Some (generateEmployeeId env (teachers db)) else eid
  | Admin => None
  end.

(** Whether the document has the number its schema gives it. *)
Definition numbered (m : Model) (d : Identity.t) : bool :=
  match m with
  | Student => negb (falsy (Identity.studentId d))
  | Teacher => negb (falsy (Identity.employeeId d))
  | Admin => true
  end.

(** The password hook of [pre('save')], the same in the three schemas;
    [modified] is [this.isModified('password')]. *)
Definition pre_save_password `{Crypto} (salt : string) (modified : bool)
    (d : Identity.t) : Identity.t :=
  if negb modified then d
  else if nonempty (Identity.password d) && looks_hashed (Identity.password d)
  then d
  else set_password d (bcrypt_hash (Identity.password d) salt).

(** [Model.findOne({ email })] *)
Definition findOne_email (c : list Identity.t) (email : string)
  : option Identity.t :=
  List.find (fun d => String.eqb (Identity.email d) (cast_email email)) c.

(** [Model.findOne({ _id: id })] for an ObjectId.  The query leaves
    [password] out ([select: false]); no caller below reads it unless it
    has assigned it. *)
Definition findOne_id (c : list Identity.t) (id : ObjectId.t)
  : option Identity.t :=
  List.find (fun d => String.eqb (Identity._id d) id) c.

(** [Model.findById(id)]: the argument is cast to an ObjectId first, and a
    string that is none raises a [CastError]. *)
Definition findById (c : list Identity.t) (id : string)
  : result (option Identity.t) :=
  match ObjectId.cast id with
  | None => Crash CastError
  | Some oid => Ok (findOne_id c oid)
  end.

Definition same_text (a b : option string) : bool :=
  match a, b with
  | Some x, Some y => String.eqb x y
  | None, None => true
  | _, _ => false
  end.

(** The unique index on the number of the schema of [m]: [studentId] for
    students, [employeeId] for teachers.  A document without the path is
    indexed under [null]. *)
Definition same_number (m : Model) (d' d : Identity.t) : bool :=
  match m with
  | Student => same_text (Identity.studentId d') (Identity.studentId d)
  | Teacher => same_text (Identity.employeeId d') (Identity.employeeId d)
  | Admin => false
  end.

(** The unique indexes of the collection of [m], on an insert: [_id],
    [email] and the number. *)
Definition duplicate (m : Model) (c : list Identity.t) (d : Identity.t) : bool :=
  existsb (fun d' => String.eqb (Identity._id d') (Identity._id d)
                     || String.eqb (Identity.email d') (Identity.email d)
                     || same_number m d' d) c.

(** No document of the collection of [m] has the number a new document
    would be inserted with. *)
Definition number_free (m : Model) (env : Env) (db : Db)
    (sid eid : option string) : bool :=
  match m with
  | Admin => true
  | Teacher | Student =>
      forallb (fun d' => negb (same_text (number_of m d')
                                 (number_on_insert m env db sid eid)))
        (collection m db)
  end.

(** The unique index on the number, on an update of [d] that writes it:
    another document has the number. *)
Definition number_taken (m : Model) (c : list Identity.t) (d : Identity.t)
  : bool :=
  existsb (fun d' => negb (String.eqb (Identity._id d') (Identity._id d))
                     && same_number m d' d) c.

(** The update of the stored document that has the [_id] of [d]. *)
Fixpoint replace (c : list Identity.t) (d : Identity.t) : list Identity.t :=
  match c with
  | [] => []
  | d' :: rest =>
      if String.eqb (Identity._id d') (Identity._id d) then d :: rest
      else d' :: replace rest d
  end.

(** [Model.create(userData)]: the document is built (setters, defaults,
    fresh [_id]; a path that the schema of [m] does not have is dropped),
    validated after the [pre('validate')] hooks, passed to the [pre('save')]
    hooks, in the order the schema declares them, and inserted. *)
Definition create `{Crypto} (m : Model) (env : Env) (db : Db)
    (email pw first last : string) (rt : option string)
    (perms : option (list string)) (sid eid : option string)
  : result Identity.t * Db :=
  let doc :=
    Identity.mk (newId env) (cast_email email) pw (trim first) (trim last)
      (match m with
       | Admin => Some (default "academic_admin" rt)
       | Teacher | Student => None
       end)
      (match m with
       | Admin => default [] perms
       | Teacher | Student => []
       end)
      (match m with
       | Student => sid
       | Admin | Teacher => None
       end)
      (match m with
       | Teacher => eid
       | Admin | Student => None
       end) in
  let doc := pre_validate m doc in
  if negb (validate m doc) then (Crash ValidationError, db)
  else
    let doc := pre_save_number m env db doc in
    let doc := pre_save_password (hookSalt env) true doc in
    if duplicate m (collection m db) doc then (Crash DuplicateKey, db)
    else (Ok doc, set_collection m (collection m db ++ [doc]) db).

(** [user.save()] on a loaded document whose [password] was assigned.  The
    update writes the paths that changed: the unique index on the number is
    tested when the hook has just given the document one. *)
Definition save `{Crypto} (m : Model) (env : Env) (db : Db) (doc : Identity.t)
  : result Identity.t * Db :=
  let doc := pre_validate m doc in
  if negb (validate m doc) then (Crash ValidationError, db)
  else
    let generated := negb (numbered m doc) in
    let doc := pre_save_number m env db doc in
    let doc := pre_save_password (hookSalt env) true doc in
    if generated && number_taken m (collection m db) doc
    then (Crash DuplicateKey, db)
    else (Ok doc, set_collection m (replace (collection m db) doc) db).

(** [Model.findByIdAndDelete(id)], on the collection *)
Fixpoint findByIdAndDelete (c : list Identity.t) (id : ObjectId.t)
  : list Identity.t :=
  match c with
  | [] => []
  | d :: rest =>
      if String.eqb (Identity._id d) id then rest
      else d :: findByIdAndDelete rest id
  end.

(** The [permissions] of an update document, written to an array of
    strings: an array of strings as it is, a single string as a one-element
    array. *)
Definition cast_permissions (v : value) : option (list string) :=
  match v with
  | VArr arr =>
      mapM (fun x => match x with VStr s => Some s | _ => None end) arr
  | VStr s => Some [s]
  | _ => None
  end.

(** [Admin.findOneAndUpdate({ _id: id }, upd, { runValidators })], for an
    update of [permissions]: the hook of the timestamps runs, then the
    [pre('findOneAndUpdate')] hook of the repository; then the update is
    cast, which moves the top-level fields under [$set] (over a field of
    that name already there), validated when [runValidators] is set, and
    written. *)
Definition findOneAndUpdate (runValidators : bool) (db : Db) (id : string)
    (upd : AdminModel.update) : result (option Identity.t) * Db :=
  let upd := AdminModel.pre_findOneAndUpdate (AdminModel.timestamps_hook upd) in
  let fields := match AdminModel.dollar_set upd with
                | Some s => AdminModel.top_level upd ∪ s
                | None => AdminModel.top_level upd
                end in
  match findById (admins db) id with
  | Fail e => (Fail e, db)
  | Crash x => (Crash x, db)
  | Ok None => (Ok None, db)
  | Ok (Some d) =>
      match fields !! "permissions" with
      | None => (Ok (Some d), db)
      | Some v =>
          match cast_permissions v with
          | None => (Crash ValidationError, db)
          | Some perms =>
              if runValidators && negb (forallb AdminModel.permission_valid perms)
              then (Crash ValidationError, db)
              else
                let d' := set_permissions d perms in
                (Ok (Some d'), set_collection Admin (replace (admins db) d') db)
          end
      end
  end.

End Schema.

(** The validators, the [pre('save')] hook and the unique indexes of
    src/models/Token.model.js, as [tokenDoc.save()] runs them on a new
    document. *)
Module TokenSchema.

Definition userModel_enum : list string := [ "Admin"; "Teacher"; "Student" ].

Definition type_enum : list string := [ "password-reset"; "email-verification" ].

(** [user] and [expiresAt] are required too; an ObjectId and a date are
    always there. *)
Definition validate (d : Token.t) : bool :=
  Schema.nonempty (Token.userModel d)
  && existsb (String.eqb (Token.userModel d)) userModel_enum
  && Schema.nonempty (Token.token d)
  && Schema.nonempty (Token.type d)
  && existsb (String.eqb (Token.type d)) type_enum
  && Schema.nonempty (Token.ipAddress d).

(** [pre('save')]: the token is replaced by its digest when it was
    modified. *)
Definition pre_save `{Crypto} (modified : bool) (d : Token.t) : Token.t :=
  if modified
  then Token.mk (Token._id d) (Token.user d) (Token.userModel d)
         (sha256_hex (Token.token d)) (Token.type d) (Token.expiresAt d)
         (Token.used d) (Token.ipAddress d) (Token.userAgent d)
  else d.

Definition duplicate (ts : list Token.t) (d : Token.t) : bool :=
  existsb (fun d' => String.eqb (Token._id d') (Token._id d)
                     || String.eqb (Token.token d') (Token.token d)) ts.

(** [new Token(d).save()] *)
Definition create `{Crypto} (ts : list Token.t) (d : Token.t)
  : result Token.t * list Token.t :=
  if negb (validate d) then (Crash ValidationError, ts)
  else
    let d := pre_save true d in
    if duplicate ts d then (Crash DuplicateKey, ts)
    else (Ok d, (ts ++ [d])%list).

End TokenSchema.

(* ===================================================================== *)
(** ** src/services/authService.js                                        *)
(* ===================================================================== *)

(** The [user] object that [register], [login] and [refreshToken] return. *)
Module UserView.
Record t : Type := mk {
  id : string;
  email : string;
  firstName : string;
  lastName : string;
  role : string
}.
End UserView.

Record AuthData : Type := mkAuthData {
  user : UserView.t;
  token : string
}.

(** What [register] resolves to: the data of the document created, or, for
    the role ['constructor'], whose "model" is [Object], the members of an
    object that was never stored and has no [id]. *)
Inductive Registered : Type :=
| Created (a : AuthData)
| Detached (email firstName lastName : string) (token : string).

(** The arguments of [register]; [roleType], [permissions], [studentId] and
    [employeeId] are the members of [additionalData] that a path of a schema
    above receives. *)
Record Registration : Type := mkRegistration {
  r_email : string;
  r_password : string;
  r_firstName : string;
  r_lastName : string;
  r_role : string;
  r_roleType : option string;
  r_permissions : option (list string);
  r_studentId : option string;
  r_employeeId : option string
}.

Module AuthService.
Import Js.

Section WithCrypto.
Context `{Crypto}.
Variable cfg : Config.

(** The entries of [userModels], in the order [Object.entries] lists them. *)
Definition userModels_entries : list (string * Model) :=
  [ (ROLES.ADMIN, Admin); (ROLES.TEACHER, Teacher); (ROLES.STUDENT, Student) ].

Definition userModels : gmap string Model := list_to_map userModels_entries.

(** [process.env.JWT_EXPIRE || '7d'], in seconds *)
Definition expiresIn : Z := default (7 * 24 * 60 * 60) (JWT_EXPIRE cfg).

Definition generateToken (clock : Z) (userId role : string) : string :=
  let issued := clock / 1000 in
  jwt_encode (mkPayload userId role issued (issued + expiresIn)) (JWT_SECRET cfg).

Fixpoint findUserByEmail_from (entries : list (string * Model)) (db : Db)
    (email : string) : option (Identity.t * string) :=
  match entries with
  | [] => None
  | (role, m) :: rest =>
      match Schema.findOne_email (collection m db) email with
      | Some u => Some (u, role)
      | None => findUserByEmail_from rest db email
      end
  end.

Definition findUserByEmail (db : Db) (email : string)
  : option (Identity.t * string) :=
  findUserByEmail_from userModels_entries db email.

(** A loaded document knows the model it was read from; it is returned
    with it.  For a [role] that names an inherited member of the
    [userModels] object, [Model.findById] is not a function. *)
Definition findUserById (db : Db) (id role : string)
  : result (option (Identity.t * Model)) :=
  match get_prop userModels role with
  | Absent => Ok None
  | Inherited _ => Crash NotAFunction
  | Own m =>
      match Schema.findById (collection m db) id with
      | Ok found => Ok (option_map (fun u => (u, m)) found)
      | Fail e => Fail e
      | Crash x => Crash x
      end
  end.

Definition view (u : Identity.t) (role : string) : UserView.t :=
  UserView.mk (Identity._id u) (Identity.email u) (Identity.firstName u)
    (Identity.lastName u) role.

(** [generateToken(undefined, role)] *)
Definition generateToken_no_id (clock : Z) (role : string) : string :=
  let issued := clock / 1000 in
  jwt_encode_no_id role issued (issued + expiresIn) (JWT_SECRET cfg).

(** For a [role] that names an inherited member of [userModels] the
    "model" is that member: [Object] for ['constructor'], whose [create] is
    [Object.create] and gives an object that inherits the user data; any
    other member has no [create]. *)
Definition register (env : Env) (db : Db) (r : Registration)
  : result Registered * Db :=
  match findUserByEmail db (r_email r) with
  | Some _ => (Fail (mkError "User already exists with this email" 400), db)
  | None =>
      match get_prop userModels (r_role r) with
      | Absent => (Fail (mkError "Invalid role specified" 400), db)
      | Inherited k =>
          if String.eqb k "constructor"
          then (Ok (Detached (r_email r) (r_firstName r) (r_lastName r)
                      (generateToken_no_id (now env) (r_role r))), db)
          else (Crash NotAFunction, db)
      | Own m =>
          let hashedPassword := bcrypt_hash (r_password r) (salt env) in
          (* [userData.fullName] is assigned for admin and student, but
             [fullName] is a virtual without a setter: nothing is stored. *)
          match Schema.create m env db (r_email r) hashedPassword (r_firstName r)
                  (r_lastName r) (r_roleType r) (r_permissions r)
                  (r_studentId r) (r_employeeId r) with
          | (Ok u, db') =>
              (Ok (Created
                     (mkAuthData (view u (r_role r))
                        (generateToken (now env) (Identity._id u) (r_role r)))),
               db')
          | (Fail e, db') => (Fail e, db')
          | (Crash x, db') => (Crash x, db')
          end
      end
  end.

Definition login (env : Env) (db : Db) (email pw : string) : result AuthData :=
  match findUserByEmail db email with
  | None => Fail (mkError "Account not found" 404)
  | Some (u, role) =>
      if negb (bcrypt_compare pw (Identity.password u))
      then Fail (mkError "Incorrect password" 401)
      else Ok (mkAuthData (view u role)
                 (generateToken (now env) (Identity._id u) role))
  end.

(** [jwt.verify] raises on a bad signature and on [exp] reached; both are
    turned into the same [ErrorResponse]. *)
Definition verifyToken (clock : Z) (tok : string) : result Payload :=
  match jwt_decode tok (JWT_SECRET cfg) with
  | None => Fail (mkError "Invalid token" 401)
  | Some p =>
      if exp p <=? clock / 1000 then Fail (mkError "Invalid token" 401)
      else Ok p
  end.

Definition resetPassword (env : Env) (db : Db) (tok newPassword : string)
  : result string * Db :=
  let resetTokenHash := sha256_hex tok in
  match Token.findOne (tokens db) resetTokenHash "password-reset" (now env) with
  | None => (Fail (mkError "Invalid or expired reset token" 400), db)
  | Some tokenDoc =>
      let roleFromModel := toLowerCase (Token.userModel tokenDoc) in
      match findUserById db (Token.user tokenDoc) roleFromModel with
      | Crash x => (Crash x, db)
      | Fail e => (Fail e, db)
      | Ok None => (Fail (mkError "User not found" 404), db)
      | Ok (Some (u, m)) =>
          let hashedPassword := bcrypt_hash newPassword (salt env) in
          match Schema.save m env db (Schema.set_password u hashedPassword) with
          | (Ok _, db') =>
              (Ok "Password reset successful",
               set_tokens (Token.deleteOne (tokens db') (Token._id tokenDoc)) db')
          | (Fail e, db') => (Fail e, db')
          | (Crash x, db') => (Crash x, db')
          end
      end
  end.

Definition refreshToken (env : Env) (db : Db) (tok : string) : result AuthData :=
  match verifyToken (now env) tok with
  | Fail e => Fail e
  | Crash x => Crash x
  | Ok decoded =>
      match findUserById db (p_id decoded) (p_role decoded) with
      | Fail e => Fail e
      | Crash x => Crash x
      | Ok None => Fail (mkError "User not found" 404)
      | Ok (Some (u, _)) =>
          Ok (mkAuthData (view u (p_role decoded))
                (generateToken (now env) (Identity._id u) (p_role decoded)))
      end
  end.

(** [Model.modelName] *)
Definition modelName (m : Model) : string :=
  match m with
  | Admin => "Admin"
  | Teacher => "Teacher"
  | Student => "Student"
  end.

(** [user?.constructor?.modelName || (role ? capitalised role : 'User')],
    for a document found under the key [role] of [userModels]. *)
Definition ownerModelName (role : string) : string :=
  match get_prop userModels role with
  | Own m => modelName m
  | Inherited _ | Absent =>
      if Schema.nonempty role then capitalize role else "User"
  end.

(** [forgotPassword]; [resetToken] is the text of
    [crypto.randomBytes(20).toString('hex')], and [mailError] the message of
    the error the mail transport raised, if it raised one. *)
Definition forgotPassword (env : Env) (db : Db)
    (email ipAddress userAgent resetToken : string) (mailError : option string)
  : result string * Db :=
  match findUserByEmail db email with
  | None => (Fail (mkError "No user found with this email" 404), db)
  | Some (u, role) =>
      let tokenDoc :=
        Token.mk (newId env) (Identity._id u) (ownerModelName role) resetToken
          "password-reset" (now env + 60 * 60 * 1000) false ipAddress userAgent in
      match TokenSchema.create (tokens db) tokenDoc with
      | (Ok _, ts) =>
          match mailError with
          | Some msg =>
              (Fail (mkError ("Failed to send email: " ++ msg) 500),
               set_tokens ts db)
          | None => (Ok "Password reset email sent", set_tokens ts db)
          end
      | (Fail e, _) => (Fail e, db)
      | (Crash x, _) => (Crash x, db)
      end
  end.

End WithCrypto.
End AuthService.


(* ===================================================================== *)
(** ** src/middlewares/auth.middleware.js                                 *)
(* ===================================================================== *)

Module AuthMiddleware.
Import Js.

(** [s.split(' ')] *)
Fixpoint split_space (s : string) : list string :=
  match s with
  | EmptyString => [EmptyString]
  | String c r =>
      if Ascii.eqb c " " then EmptyString :: split_space r
      else match split_space r with
           | h :: t => String c h :: t
           | [] => [String c EmptyString]
           end
  end.

(** The bearer token of the [Authorization] header, when there is one. *)
Definition bearer (authorization : option string) : option string :=
  match authorization with
  | Some h =>
      if Schema.nonempty h && String.prefix "Bearer" h
      then nth_error (split_space h) 1
      else None
  | None => None
  end.

(** The [catch] block, on an [ErrorResponse]. *)
Definition on_error (e : ErrorResponse) : ErrorResponse :=
  if String.eqb (message e) "Invalid token"
  then mkError "Not authorized to access this route - invalid token" 401
  else if string_includes (message e) "ECONNRESET"
  then mkError "Authentication service temporarily unavailable. Please try again." 503
  else e.

(** The [catch] block, on another exception: a duplicate-key error is named
    after the database driver; the message of a [CastError] quotes the
    [value] that was not cast, and is searched for ['ECONNRESET'] like any
    other; the others reach the fallback. *)
Definition on_crash (value : string) (x : failure) : ErrorResponse :=
  match x with
  | DuplicateKey =>
      mkError "Authentication service temporarily unavailable. Please try again." 503
  | CastError =>
      if string_includes value "ECONNRESET"
      then mkError
             "Authentication service temporarily unavailable. Please try again." 503
      else mkError "Not authorized to access this route" 401
  | ValidationError | NotAFunction =>
      mkError "Not authorized to access this route" 401
  end.

(** [protect]: what is passed to [next] and the [req.user] it leaves. *)
Definition protect `{Crypto} (cfg : Config) (clock : Z) (db : Db)
    (authorization : option string) : Rbac.outcome * Rbac.user_context :=
  match bearer authorization with
  | None | Some EmptyString =>
      (Rbac.NextErr
         (mkError "Not authorized to access this route - no token found" 401),
       None)
  | Some tok =>
      match AuthService.verifyToken cfg clock tok with
      | Fail e => (Rbac.NextErr (on_error e), None)
      | Crash x => (Rbac.NextErr (on_crash tok x), None)
      | Ok decoded =>
          match AuthService.findUserById db (p_id decoded) (p_role decoded) with
          | Fail e => (Rbac.NextErr (on_error e), None)
          | Crash x => (Rbac.NextErr (on_crash (p_id decoded) x), None)
          | Ok None =>
              (Rbac.NextErr
                 (mkError "Not authorized to access this route - user not found" 401),
               None)
          | Ok (Some (u, _)) =>
              (Rbac.Next,
               Some {[ "id" := VId (Identity._id u);
                       "email" := VStr (Identity.email u);
                       "firstName" := VStr (Identity.firstName u);
                       "lastName" := VStr (Identity.lastName u);
                       "role" := VStr (p_role decoded) ]})
          end
      end
  end.

Definition authorize (roles : list string) (user : Rbac.user_context)
  : Rbac.outcome :=
  match user with
  | None => Rbac.NextErr (mkError "Authentication required" 401)
  | Some u =>
      if negb (existsb (strict_eq_str (Rbac.field u "role")) roles)
      then Rbac.NextErr
             (mkError ("User role " ++ to_string (Rbac.field u "role")
                       ++ " is not authorized to access this route") 403)
      else Rbac.Next
  end.

End AuthMiddleware.

(* ===================================================================== *)
(** ** src/utils/asyncHandler.js and src/middlewares/errorHandler.js      *)
(* ===================================================================== *)

Module ErrorPipeline.

(** An exception that is no [ErrorResponse], by the kinds the two handlers
    tell apart. *)
Inductive exception : Type :=
| MongooseValidation                (** [name === 'ValidationError'], with [errors] *)
| MongooseCast                      (** [name === 'CastError'] *)
| DuplicateKeyError                 (** [code === 11000], with [keyValue] *)
| JsonWebTokenError                 (** of jsonwebtoken *)
| TokenExpiredError                 (** of jsonwebtoken; it extends the former *)
| CelebrateError                    (** [isCelebrateError(err)] *)
| MongoError                        (** [name === 'MongoError'] *)
| OtherError (status : option Z).   (** any other, with its [statusCode] *)

(** The exceptions the store raises, as the handlers see them; a
    [TypeError] has no [statusCode]. *)
Definition exception_of (x : failure) : exception :=
  match x with
  | ValidationError => MongooseValidation
  | CastError => MongooseCast
  | DuplicateKey => DuplicateKeyError
  | NotAFunction => OtherError None
  end.

(** What reaches [next]: an [ErrorResponse], or another exception. *)
Inductive thrown : Type :=
| Operational (e : ErrorResponse)
| Raw (x : exception).

(** The [catch] of [asyncHandler]: what it passes to [next]. *)
Definition asyncHandler (t : thrown) : ErrorResponse :=
  match t with
  | Operational e => e
  | Raw MongooseValidation => mkError "Validation failed" 400
  | Raw MongooseCast => mkError "Invalid ID format" 400
  | Raw JsonWebTokenError => mkError "Invalid token" 401
  | Raw TokenExpiredError => mkError "Token expired" 401
  | Raw DuplicateKeyError | Raw CelebrateError | Raw MongoError
  | Raw (OtherError _) =>
      mkError "An unexpected error occurred" 500
  end.

(** The status [errorHandler] answers with. *)
Definition errorHandler (t : thrown) : Z :=
  match t with
  | Raw MongooseCast => 404
  | Raw DuplicateKeyError => 409
  | Raw MongooseValidation => 422
  | Raw CelebrateError => 400
  | Raw JsonWebTokenError | Raw TokenExpiredError => 401
  | Raw MongoError => 500
  | Raw (OtherError None) => 500
  | Raw (OtherError (Some c)) => if c =? 0 then 500 else c
  | Operational e => if statusCode e =? 0 then 500 else statusCode e
  end.

(** The status of the response of a handler wrapped in [asyncHandler] that
    answers [success] when it returns. *)
Definition respond {A : Type} (success : Z) (r : result A) : Z :=
  match r with
  | Ok _ => success
  | Fail e => errorHandler (Operational (asyncHandler (Operational e)))
  | Crash x => errorHandler (Operational (asyncHandler (Raw (exception_of x))))
  end.

End ErrorPipeline.

(* ===================================================================== *)
(** ** src/controllers/auth.controller.js                                 *)
(* ===================================================================== *)

Module AuthController.
Import Js.

Definition ALLOWED_ROLES : list string :=
  [ ROLES.ADMIN; ROLES.TEACHER; ROLES.STUDENT ].

(** [register]; [errors] are the messages of [validationResult(req)]. *)
Definition register `{Crypto} (cfg : Config) (errors : list string) (env : Env)
    (db : Db) (r : Registration) : result Registered * Db :=
  match errors with
  | _ :: _ => (Fail (mkError (join ", " errors) 400), db)
  | [] =>
      if negb (existsb (String.eqb (r_role r)) ALLOWED_ROLES)
      then (Fail (mkError "Invalid role specified" 400), db)
      else if String.eqb (r_role r) ROLES.ADMIN
              && (2 <=? length (admins db))%nat
      then (Fail (mkError
                    "Admin registration limit reached. Only two admins are allowed."
                    403), db)
      else AuthService.register cfg env db r
  end.

Definition login `{Crypto} (cfg : Config) (env : Env) (db : Db)
    (email pw : string) : result AuthData :=
  if negb (Schema.nonempty email) || negb (Schema.nonempty pw)
  then Fail (mkError "Please provide email and password" 400)
  else AuthService.login cfg env db email pw.

(** [resetPassword], with [tok] the value of [req.params.token ||
    req.body.token]. *)
Definition resetPassword `{Crypto} (env : Env) (db : Db) (tok pw : string)
  : result string * Db :=
  if negb (Schema.nonempty tok) || negb (Schema.nonempty pw)
  then (Fail (mkError "Please provide token and new password" 400), db)
  else AuthService.resetPassword env db tok pw.

(** The model registered under a name, for [populate] through [refPath]. *)
Definition model_named (name : string) : option Model :=
  if String.eqb name "Admin" then Some Admin
  else if String.eqb name "Teacher" then Some Teacher
  else if String.eqb name "Student" then Some Student
  else None.

(** What [verifyResetToken] does: it answers 200 with the [email] of the
    response data ([None] for [null]), raises an [ErrorResponse], or fails
    in [populate] on a model name that is not registered. *)
Inductive reset_check : Type :=
| ValidToken (email : option string)
| Refused (e : ErrorResponse)
| MissingSchema.

Definition verifyResetToken `{Crypto} (clock : Z) (db : Db) (tok : string)
  : reset_check :=
  if negb (Schema.nonempty tok) then Refused (mkError "Token is required" 400)
  else
    match Token.findOne_unused (tokens db) (sha256_hex tok) "password-reset"
            clock with
    | None => Refused (mkError "Invalid or expired token" 400)
    | Some tokenDoc =>
        match model_named (Token.userModel tokenDoc) with
        | None => MissingSchema
        | Some m =>
            match Schema.findOne_id (collection m db) (Token.user tokenDoc) with
            | Some u =>
                ValidToken (if Schema.nonempty (Identity.email u)
                            then Some (Identity.email u) else None)
            | None => ValidToken None
            end
        end
    end.

End AuthController.

(* ===================================================================== *)
(** ** src/controllers/admin.controller.js: deleteUser                    *)
(* ===================================================================== *)

Module AdminController.

(** [deleteUser]: the id is looked up in the three collections, and the
    document is deleted from the first that holds it.  The status of the
    response and the store it leaves; an exception of a lookup is answered
    500 by the [catch] of the handler.  The tokens are left as they are. *)
Definition deleteUser (db : Db) (userId : string) : Z * Db :=
  match ObjectId.cast userId with
  | None => (500, db)
  | Some oid =>
      match Schema.findOne_id (admins db) oid,
            Schema.findOne_id (teachers db) oid,
            Schema.findOne_id (students db) oid with
      | Some _, _, _ =>
          (200, set_collection Admin (Schema.findByIdAndDelete (admins db) oid) db)
      | None, Some _, _ =>
          (200, set_collection Teacher
                  (Schema.findByIdAndDelete (teachers db) oid) db)
      | None, None, Some _ =>
          (200, set_collection Student
                  (Schema.findByIdAndDelete (students db) oid) db)
      | None, None, None => (404, db)
      end
  end.

End AdminController.

(* ===================================================================== *)
(** ** src/utils/routeProtection.js                                       *)
(* ===================================================================== *)

Module RouteProtection.
Import Js.

Record routeConfig : Type := mkRoute {
  roles : list string;
  permissions : list string
}.

(** The entries of [ROUTE_PERMISSIONS], in declaration order. *)
Definition ROUTE_PERMISSIONS : list (string * routeConfig) :=
  [ ("/api/admin/users", mkRoute ["admin"] ["manage_users"]);
    ("/api/admin/courses", mkRoute ["admin"; "teacher"] ["manage_courses"]);
    ("/api/admin/grades", mkRoute ["admin"; "teacher"] ["manage_grades"]);
    ("/api/admin/settings", mkRoute ["admin"] ["manage_settings"]);
    ("/api/teacher/courses", mkRoute ["teacher"] []);
    ("/api/teacher/students", mkRoute ["teacher"] []);
    ("/api/student/courses", mkRoute ["student"] []);
    ("/api/student/grades", mkRoute ["student"] []) ].

Definition publicRoutes : list string :=
  [ "/api/auth/login"; "/api/auth/register" ].

(** [Object.entries(ROUTE_PERMISSIONS).find(([route]) =>
    path.startsWith(route))?.[1]] *)
Definition route_of (path : string) : option routeConfig :=
  option_map snd
    (List.find (fun entry => String.prefix (fst entry) path) ROUTE_PERMISSIONS).

Definition hasRouteAccess (path : string) (user : gmap string value)
  : completion bool :=
  if existsb (String.eqb path) publicRoutes then Normal true
  else
    match route_of path with
    | None => Normal false
    | Some routeConfig =>
        if negb (existsb (strict_eq_str (Rbac.field user "role"))
                   (roles routeConfig))
        then Normal false
        else if strict_eq_str (Rbac.field user "role") "admin"
                && (0 <? length (permissions routeConfig))%nat
        then
          if strict_eq_str (Rbac.field user "roleType") "super_admin"
          then Normal true
          else every (fun perm =>
                        optional_includes (Rbac.field user "permissions") perm)
                     (permissions routeConfig)
        else Normal true
    end.

(** What [checkRouteAccess] does: it answers itself with a status, calls
    [next()], or lets an exception escape. *)
Inductive answer : Type :=
| Responds (status : Z)
| Continues
| Escapes.

Definition checkRouteAccess (path : string) (user : Rbac.user_context) : answer :=
  match user with
  | None => Responds 401
  | Some u =>
      match hasRouteAccess path u with
      | TypeError => Escapes
      | Normal hasAccess => if negb hasAccess then Responds 403 else Continues
      end
  end.

End RouteProtection.

(* ===================================================================== *)
(** ** A reference instance of the library interface, and sample data     *)
(* ===================================================================== *)

Module Reference.

Fixpoint pad_to (n : nat) (s : string) : string :=
  match n with
  | O => EmptyString
  | S n' =>
      match s with
      | EmptyString => String "." (pad_to n' EmptyString)
      | String c r => String c (pad_to n' r)
      end
  end.

Definition hash (pw salt : string) : string := "$2a$10$" ++ pad_to 53 pw.

Definition compare (pw h : string) : bool := String.eqb h (hash pw "").

Definition digest (s : string) : string := "sha256:" ++ s.

Fixpoint bits_of_pos (p : positive) : string :=
  match p with
  | xH => EmptyString
  | xO q => String "0" (bits_of_pos q)
  | xI q => String "1" (bits_of_pos q)
  end.

Fixpoint pos_of_bits (s : string) : positive :=
  match s with
  | EmptyString => xH
  | String c r => if Ascii.eqb c "1" then xI (pos_of_bits r) else xO (pos_of_bits r)
  end.

Definition sign (p : Payload) (secret : string) : string :=
  bits_of_pos (encode (secret, p_id p, p_role p, iat p, exp p)).

Definition unsign (tok secret : string) : option Payload :=
  match decode (pos_of_bits tok) with
  | Some (secret', id, role, issued, expires) =>
      if String.eqb secret' secret then Some (mkPayload id role issued expires)
      else None
  | None => None
  end.

Definition sign_no_id (role : string) (issued expires : Z) (secret : string)
  : string :=
  String "." (bits_of_pos (encode (secret, role, issued, expires))).

Definition crypto : Crypto := {|
  bcrypt_hash := hash;
  bcrypt_compare := compare;
  sha256_hex := digest;
  jwt_encode := sign;
  jwt_encode_no_id := sign_no_id;
  jwt_decode := unsign
|}.

Definition cfg : Config := mkConfig "s3cret" None.

Definition zero_id : ObjectId.t := ObjectId.mk "000000000000000000000000" I.

(** The ObjectId written [s]. *)
Definition oid (s : string) : ObjectId.t := default zero_id (ObjectId.cast s).

Definition env (clock : Z) (id : string) : Env :=
  mkEnv clock "salt1" "salt2" (oid id) 2026 "".

Definition empty : Db := mkDb [] [] [] [].

(** The registration of the duplicate-registration scenario. *)
Definition student_ab : Registration :=
  mkRegistration "a@x.com" "secret123" "A" "B" "student" None None None None.

Definition admin_settings : Registration :=
  mkRegistration "Root@X.com" "secret123" "R" "T" "admin" (Some "super_admin")
    (Some ["settings"]) None None.

(** A store with one student and one reset token of that student, issued
    for the raw secret ["raw"], expiring at clock reading 2000. *)
Definition student1 : Identity.t :=
  Identity.mk (oid "64b000000000000000000001") "a@x.com" (hash "secret123" "")
    "A" "B" None [] (Some "26-100001") None.

Definition reset_token (isUsed : bool) : Token.t :=
  Token.mk (oid "64c000000000000000000001") (oid "64b000000000000000000001") "Student"
    (digest "raw") "password-reset" 2000 isUsed "127.0.0.1" "agent".

Definition store (isUsed : bool) : Db :=
  mkDb [] [] [student1] [reset_token isUsed].

(** A store with a super administrator. *)
Definition root : Identity.t :=
  Identity.mk (oid "64a000000000000000000001") "root@x.com" (hash "secret123" "")
    "R" "T" (Some "super_admin") AdminModel.permission_values None None.

Definition store_root : Db := mkDb [root] [] [] [].

Definition root_token : string :=
  sign (mkPayload "64a000000000000000000001" "admin" 10 604810) "s3cret".

(** A store with two administrators. *)
Definition root2 : Identity.t :=
  Identity.mk (oid "64a000000000000000000002") "root2@x.com" (hash "secret123" "")
    "R" "U" (Some "admin") [] None None.

Definition store_two_roots : Db := mkDb [root; root2] [] [] [].

(** A store in which a student has the email of the administrator. *)
Definition shadowed : Identity.t :=
  Identity.mk (oid "64b000000000000000000002") "root@x.com" (hash "other456" "")
    "S" "T" None [] (Some "26-100002") None.

Definition store_shared : Db := mkDb [root] [] [shadowed] [].

(** Three registrations of students in the year 2026: the first carries a
    [studentId] of its own, the others are plain. *)
Definition student_numbered : Registration :=
  mkRegistration "n@x.com" "secret123" "N" "O" "student" None None
    (Some "26-9") None.

Definition student_cd : Registration :=
  mkRegistration "c@x.com" "secret456" "C" "D" "student" None None None None.

Definition after_numbered : Db :=
  snd (AuthService.register (H := crypto) cfg
         (env 1000 "64b000000000000000000011") empty student_numbered).

Definition after_plain : Db :=
  snd (AuthService.register (H := crypto) cfg
         (env 2000 "64b000000000000000000012") after_numbered student_ab).


(** A document whose password is still in the clear. *)
Definition unsaved : Identity.t :=
  Identity.mk (oid "64b000000000000000000003") "c@x.com" "secret123" "C" "D" None []
    None None.

End Reference.

(* ===================================================================== *)
(** * Properties                                                          *)
(* ===================================================================== *)

Import Js.

(** ** ObjectIds *)

Section ObjectIds.

Lemma hex_digit_lower (c : ascii) :
  ObjectId.is_hex_digit c = true -> lower_ascii c = c.
Proof.
  unfold ObjectId.is_hex_digit, lower_ascii, is_upper. intros H.
  destruct ((65 <=? nat_of_ascii c)%nat && (nat_of_ascii c <=? 90)%nat) eqn:E;
    [| reflexivity].
  exfalso. apply andb_prop in E as [E1 E2].
  apply Nat.leb_le in E1, E2.
  apply orb_prop in H as [H | H]; apply andb_prop in H as [H1 H2];
    apply Nat.leb_le in H1, H2; lia.
Qed.

Lemma all_hex_lower (s : string) :
  ObjectId.all_hex s = true -> toLowerCase s = s.
Proof.
  induction s as [| c s IH]; [reflexivity |].
  cbn [ObjectId.all_hex toLowerCase]. intros H.
  apply andb_prop in H as [Hc Hs].
  now rewrite (hex_digit_lower c Hc), (IH Hs).
Qed.

Lemma hex_well_formed (o : ObjectId.t) :
  ObjectId.well_formed (ObjectId.hex o) = true.
Proof.
  destruct o as [h v]. cbn [ObjectId.hex].
  destruct (ObjectId.well_formed h); [reflexivity | destruct v].
Qed.

(** An ObjectId is its text. *)
Lemma oid_eq (a b : ObjectId.t) : ObjectId.hex a = ObjectId.hex b -> a = b.
Proof.
  destruct a as [h v], b as [h' v']. cbn [ObjectId.hex]. intros ->.
  f_equal. revert v v'. destruct (ObjectId.well_formed h'); intros [] []; reflexivity.
Qed.

Lemma oid_eqb_eq (a b : ObjectId.t) :
  String.eqb (ObjectId.hex a) (ObjectId.hex b) = true <-> a = b.
Proof.
  rewrite String.eqb_eq. split; [apply oid_eq | now intros ->].
Qed.

Lemma oid_eqb_refl (a : ObjectId.t) :
  String.eqb (ObjectId.hex a) (ObjectId.hex a) = true.
Proof. apply String.eqb_refl. Qed.

Lemma oid_eqb_neq (a b : ObjectId.t) :
  a <> b -> String.eqb (ObjectId.hex a) (ObjectId.hex b) = false.
Proof.
  intros Hne. apply String.eqb_neq. intros E. now apply Hne, oid_eq.
Qed.

(** The text of an ObjectId casts back to it. *)
Lemma cast_hex (o : ObjectId.t) : ObjectId.cast (ObjectId.hex o) = Some o.
Proof.
  pose proof (hex_well_formed o) as Hw.
  destruct o as [h v]. cbn [ObjectId.hex] in *. unfold ObjectId.cast.
  assert (Hl : toLowerCase h = h).
  { apply all_hex_lower. unfold ObjectId.well_formed in Hw.
    now apply andb_prop in Hw as [_ Hw]. }
  rewrite Hl. revert v. generalize (ObjectId.mk h).
  destruct (ObjectId.well_formed h); intros k []. reflexivity.
Qed.

(** A string that casts to no ObjectId is the text of none. *)
Lemma cast_none_hex (s : string) (o : ObjectId.t) :
  ObjectId.cast s = None -> ObjectId.hex o <> s.
Proof. intros E <-. rewrite cast_hex in E. discriminate E. Qed.

Lemma findById_hex (c : list Identity.t) (o : ObjectId.t) :
  Schema.findById c (ObjectId.hex o) = Ok (Schema.findOne_id c o).
Proof. unfold Schema.findById. now rewrite cast_hex. Qed.

End ObjectIds.

(** ** The role and permission gates *)

Section Gates.
Import Rbac.

Lemma field_lookup (u : gmap string value) (k : string) (v : value) :
  u !! k = Some v -> field u k = v.
Proof. intros E. unfold field. now rewrite E. Qed.

Lemma hierarchy_admin : get_prop ROLE_HIERARCHY "admin" = Own 3.
Proof. reflexivity. Qed.

Lemma hierarchy_teacher : get_prop ROLE_HIERARCHY "teacher" = Own 2.
Proof. reflexivity. Qed.

Lemma hierarchy_student : get_prop ROLE_HIERARCHY "student" = Own 1.
Proof. reflexivity. Qed.

(** A key that is none of the three role names is not an own property of
    [ROLE_HIERARCHY]. *)
Lemma hierarchy_other (k : string) :
  k <> "admin" -> k <> "teacher" -> k <> "student" ->
  ROLE_HIERARCHY !! k = None.
Proof.
  intros Ha Ht Hs. unfold ROLE_HIERARCHY, ROLES.ADMIN, ROLES.TEACHER, ROLES.STUDENT.
  rewrite lookup_insert_ne by congruence.
  rewrite lookup_insert_ne by congruence.
  rewrite lookup_singleton_ne by congruence.
  reflexivity.
Qed.

(** A key that is no own property and no name of [Object.prototype] reads
    as [undefined]. *)
Lemma hierarchy_absent (k : string) :
  ROLE_HIERARCHY !! k = None -> ~ In k object_prototype_keys ->
  get_prop ROLE_HIERARCHY k = Absent.
Proof.
  intros E Hn. unfold get_prop. rewrite E.
  rewrite bool_decide_eq_false_2; [reflexivity |].
  now rewrite list_elem_of_In.
Qed.

(** A key that is no own property and is a name of [Object.prototype] reads
    as the inherited member. *)
Lemma hierarchy_inherited (k : string) :
  ROLE_HIERARCHY !! k = None -> In k object_prototype_keys ->
  get_prop ROLE_HIERARCHY k = Inherited k.
Proof.
  intros E Hin. unfold get_prop. rewrite E.
  rewrite bool_decide_eq_true_2; [reflexivity |].
  now rewrite list_elem_of_In.
Qed.

Lemma less_than_absent_l (b : lookup Z) : less_than Absent b = false.
Proof. reflexivity. Qed.

Lemma less_than_absent_r (a : lookup Z) : less_than a Absent = false.
Proof. destruct a; reflexivity. Qed.

(** Against a number, what is no number is not less. *)
Lemma less_than_not_own (k : string) (y : Z) :
  ROLE_HIERARCHY !! k = None ->
  less_than (get_prop ROLE_HIERARCHY k) (Own y) = false.
Proof.
  intros E. unfold get_prop. rewrite E.
  destruct (bool_decide (k ∈ object_prototype_keys)); reflexivity.
Qed.

Lemma less_than_own_l (x : Z) (k : string) :
  ROLE_HIERARCHY !! k = None ->
  less_than (Own x) (get_prop ROLE_HIERARCHY k) = false.
Proof.
  intros E. unfold get_prop. rewrite E.
  destruct (bool_decide (k ∈ object_prototype_keys)); reflexivity.
Qed.

Lemma In_dec_keys (k : string) :
  {In k object_prototype_keys} + {~ In k object_prototype_keys}.
Proof. apply (List.in_dec String.string_dec). Qed.

(** The gate when neither level is a number: it refuses exactly when both
    keys name members of [Object.prototype] and the text of the first
    precedes the text of the second. *)
Lemma requireMinRole_no_rank (minRole : string) (u : gmap string value) :
  ROLE_HIERARCHY !! to_string (field u "role") = None ->
  ROLE_HIERARCHY !! minRole = None ->
  (~ In (to_string (field u "role")) object_prototype_keys \/
   ~ In minRole object_prototype_keys ->
   requireMinRole minRole (Some u) = Next) /\
  (In (to_string (field u "role")) object_prototype_keys ->
   In minRole object_prototype_keys ->
   requireMinRole minRole (Some u)
   = if String.ltb (native_to_string (to_string (field u "role")))
                   (native_to_string minRole)
     then NextErr (mkError ("Role '" ++ to_string (field u "role")
                            ++ "' does not have sufficient privileges") 403)
     else Next).
Proof.
  intros Er Em. unfold requireMinRole. split.
  - intros [Hn | Hn].
    + now rewrite (hierarchy_absent _ Er Hn).
    + now rewrite (hierarchy_absent _ Em Hn), less_than_absent_r.
  - intros Hr Hm.
    now rewrite (hierarchy_inherited _ Er Hr), (hierarchy_inherited _ Em Hm).
Qed.

Lemma super_admin_bypass (u : gmap string value) :
  u !! "role" = Some (VStr "admin") ->
  u !! "roleType" = Some (VStr "super_admin") ->
  is_super_admin u = true.
Proof.
  intros Hr Ht. unfold is_super_admin.
  rewrite (field_lookup _ _ _ Hr), (field_lookup _ _ _ Ht). reflexivity.
Qed.

(** C5. An admin context whose [roleType] is ['super_admin'] passes
    [requirePermission(p)] and [requireAnyPermission(...ps)] for every [p]
    and [ps], whatever its [permissions] member holds. *)
Theorem super_admin_passes_permission_gates (u : gmap string value) :
  u !! "role" = Some (VStr "admin") ->
  u !! "roleType" = Some (VStr "super_admin") ->
  (forall p, requirePermission p (Some u) = Next) /\
  (forall ps, requireAnyPermission ps (Some u) = Next).
Proof.
  intros Hr Ht. pose proof (super_admin_bypass u Hr Ht) as B.
  split; intros; cbn [requirePermission requireAnyPermission]; now rewrite B.
Qed.

Lemma super_admin_passes_permission_gates_witness :
  let u : gmap string value :=
    {[ "role" := VStr "admin"; "roleType" := VStr "super_admin";
       "permissions" := VArr [] ]} in
  (forall p, requirePermission p (Some u) = Next) /\
  (forall ps, requireAnyPermission ps (Some u) = Next).
Proof.
  intros u. apply (super_admin_passes_permission_gates u); reflexivity.
Defined.

(** C6. With the ranks admin = 3, teacher = 2, student = 1, the gate
    [requireMinRole(r)] on a request of role [s] calls [next()] exactly when
    rank(s) >= rank(r), and otherwise answers 403. *)
Theorem requireMinRole_hierarchy (r s : string) (u : gmap string value) :
  In r [ROLES.ADMIN; ROLES.TEACHER; ROLES.STUDENT] ->
  In s [ROLES.ADMIN; ROLES.TEACHER; ROLES.STUDENT] ->
  u !! "role" = Some (VStr s) ->
  ROLE_HIERARCHY !! ROLES.ADMIN = Some 3 /\
  ROLE_HIERARCHY !! ROLES.TEACHER = Some 2 /\
  ROLE_HIERARCHY !! ROLES.STUDENT = Some 1 /\
  exists rank_r rank_s,
    ROLE_HIERARCHY !! r = Some rank_r /\
    ROLE_HIERARCHY !! s = Some rank_s /\
    (requireMinRole r (Some u) = Next <-> rank_s >= rank_r) /\
    (rank_s < rank_r ->
     requireMinRole r (Some u) =
       NextErr (mkError ("Role '" ++ s ++ "' does not have sufficient privileges")
                  403)).
Proof.
  intros Hr Hs Hu.
  do 3 (split; [reflexivity |]).
  unfold requireMinRole. rewrite (field_lookup _ _ _ Hu). cbn [to_string].
  cbn [In] in Hr, Hs.
  destruct Hr as [<- | [<- | [<- | []]]]; destruct Hs as [<- | [<- | [<- | []]]];
    unfold ROLES.ADMIN, ROLES.TEACHER, ROLES.STUDENT;
    rewrite ?hierarchy_admin, ?hierarchy_teacher, ?hierarchy_student;
    cbn [less_than];
    match goal with
    | |- context [Z.ltb ?a ?b] =>
        exists b, a; split; [reflexivity |]; split; [reflexivity |];
        let c := eval vm_compute in (Z.ltb a b) in
        change (Z.ltb a b) with c; cbv iota
    end;
    (split; [split; [intros E; first [discriminate E | lia]
                    | intros; first [reflexivity | lia]]
            | intros; first [reflexivity | lia]]).
Qed.

Lemma requireMinRole_hierarchy_witness :
  let u : gmap string value := {[ "role" := VStr "student" ]} in
  requireMinRole "teacher" (Some u) =
    NextErr (mkError "Role 'student' does not have sufficient privileges" 403).
Proof.
  intros u.
  destruct (requireMinRole_hierarchy "teacher" "student" u)
    as (_ & _ & _ & rr & rs & Hr & Hs & _ & Hlt).
  - cbn; auto.
  - cbn; auto.
  - reflexivity.
  - apply Hlt.
    assert (rr = 2) by (vm_compute in Hr; congruence).
    assert (rs = 1) by (vm_compute in Hs; congruence).
    lia.
Defined.

(** C10, as stated, fails: the role ['__proto__'] is none of admin,
    teacher, student, and [requireMinRole('constructor')] answers 403 for
    it.  Both keys read a member of [Object.prototype], and the text of
    [Object.prototype] precedes the text of the function [Object]. *)
Lemma requireMinRole_unranked_role_counterexample :
  ~ (forall (minRole : string) (u : gmap string value),
       to_string (field u "role") <> ROLES.ADMIN ->
       to_string (field u "role") <> ROLES.TEACHER ->
       to_string (field u "role") <> ROLES.STUDENT ->
       requireMinRole minRole (Some u) = Next).
Proof.
  intros Hall.
  specialize (Hall "constructor" {[ "role" := VStr "__proto__" ]}).
  assert (E : requireMinRole "constructor" (Some {[ "role" := VStr "__proto__" ]})
              = NextErr (mkError
                           "Role '__proto__' does not have sufficient privileges"
                           403)) by reflexivity.
  rewrite E in Hall.
  assert (Hne : forall s : string, (s = "__proto__")%type -> s <> ROLES.ADMIN /\
                s <> ROLES.TEACHER /\ s <> ROLES.STUDENT).
  { intros s ->. repeat split; discriminate. }
  destruct (Hne _ eq_refl) as (Ha & Ht & Hs).
  specialize (Hall Ha Ht Hs). discriminate Hall.
Qed.

(** C10 (amended).  When the role of the request is none of admin, teacher,
    student, it has no rank.  [requireMinRole(minRole)] then calls [next()]
    for every [minRole] when the role does not name a member of
    [Object.prototype] (its level is [undefined]), and for every [minRole]
    that does not name one either (the three ranked roles among them); when
    both name such a member the gate compares their texts, and answers 403
    exactly when the text of the role's member precedes the other. *)
Theorem requireMinRole_unranked_role_passes (minRole : string)
    (u : gmap string value) :
  to_string (field u "role") <> ROLES.ADMIN ->
  to_string (field u "role") <> ROLES.TEACHER ->
  to_string (field u "role") <> ROLES.STUDENT ->
  ROLE_HIERARCHY !! to_string (field u "role") = None /\
  (~ In (to_string (field u "role")) object_prototype_keys ->
   get_prop ROLE_HIERARCHY (to_string (field u "role")) = Absent /\
   requireMinRole minRole (Some u) = Next) /\
  (~ In minRole object_prototype_keys ->
   requireMinRole minRole (Some u) = Next) /\
  (In (to_string (field u "role")) object_prototype_keys ->
   In minRole object_prototype_keys ->
   (requireMinRole minRole (Some u) = Next <->
    String.ltb (native_to_string (to_string (field u "role")))
               (native_to_string minRole) = false)).
Proof.
  intros Ha Ht Hs.
  pose proof (hierarchy_other _ Ha Ht Hs) as E.
  split; [exact E |]. split; [| split].
  - intros Hn. split; [now apply hierarchy_absent |].
    unfold requireMinRole. now rewrite (hierarchy_absent _ E Hn).
  - intros Hn. unfold requireMinRole.
    destruct (ROLE_HIERARCHY !! minRole) as [y |] eqn:Em.
    + unfold get_prop at 2. rewrite Em. now rewrite (less_than_not_own _ _ E).
    + now rewrite (hierarchy_absent _ Em Hn), less_than_absent_r.
  - intros Hr Hm.
    assert (Em : ROLE_HIERARCHY !! minRole = None).
    { apply hierarchy_other; intros ->; cbn in Hm;
        repeat (destruct Hm as [Hm | Hm]; [discriminate Hm |]); exact Hm. }
    rewrite (proj2 (requireMinRole_no_rank minRole u E Em) Hr Hm).
    destruct (String.ltb _ _); split; intros H; first [reflexivity | discriminate H].
Qed.

Lemma requireMinRole_unranked_role_passes_witness :
  let u : gmap string value := {[ "role" := VStr "guest" ]} in
  requireMinRole "admin" (Some u) = Next /\
  requireMinRole "constructor" (Some u) = Next.
Proof.
  intros u.
  destruct (requireMinRole_unranked_role_passes "admin" u)
    as (_ & _ & Hm & _); try (vm_compute; discriminate).
  destruct (requireMinRole_unranked_role_passes "constructor" u)
    as (_ & Hr & _); try (vm_compute; discriminate).
  split.
  - apply Hm. cbn. intros H; repeat (destruct H as [H | H]; [discriminate H |]);
      exact H.
  - apply Hr. cbn. intros H; repeat (destruct H as [H | H]; [discriminate H |]);
      exact H.
Defined.

End Gates.

(** ** Permission normalisation (src/models/Admin.model.js) *)

Section Normalisation.
Import AdminModel.

Lemma existsb_eqb_In (key : string) (l : list string) :
  existsb (String.eqb key) l = true <-> In key l.
Proof.
  rewrite existsb_exists. split.
  - intros (x & Hx & E). apply String.eqb_eq in E. now subst.
  - intros Hin. exists key. split; [exact Hin | apply String.eqb_refl].
Qed.

Lemma existsb_eqb_not_In (key : string) (l : list string) :
  ~ In key l -> existsb (String.eqb key) l = false.
Proof.
  intros Hn. destruct (existsb (String.eqb key) l) eqn:E; [| reflexivity].
  apply existsb_eqb_In in E. contradiction.
Qed.

Lemma alias_lookup_none (key : string) :
  ~ In key (List.map fst alias_entries) -> PERMISSION_ALIASES !! key = None.
Proof.
  intros Hn. unfold PERMISSION_ALIASES.
  apply not_elem_of_list_to_map_1. rewrite list_elem_of_In. exact Hn.
Qed.

Lemma get_prop_absent {A : Type} (own : gmap string A) (key : string) :
  own !! key = None -> ~ In key object_prototype_keys ->
  get_prop own key = Absent.
Proof.
  intros E Hn. unfold get_prop. rewrite E.
  rewrite bool_decide_eq_false_2; [reflexivity |].
  rewrite list_elem_of_In. exact Hn.
Qed.

(** Every alias is mapped to its canonical value, one of the enumerated
    permissions. *)
Lemma normalizePermission_alias (alias canonical : string) :
  In (alias, canonical) alias_entries ->
  normalizePermission (VStr alias) = VStr canonical /\
  In canonical permission_values.
Proof.
  intros Hin. cbn [alias_entries In] in Hin.
  repeat (destruct Hin as [Hin | Hin];
          [injection Hin as <- <-; split; [reflexivity | cbn; tauto] |]).
  destruct Hin.
Qed.

(** A canonical value is kept. *)
Lemma normalizePermission_canonical (p : string) :
  In p permission_values -> normalizePermission (VStr p) = VStr p.
Proof.
  intros Hin. cbn in Hin.
  repeat (destruct Hin as [<- | Hin]; [reflexivity |]).
  destruct Hin.
Qed.

(** A string whose lower-case form is neither an enumerated permission, nor
    an alias, nor the name of a member inherited from [Object.prototype],
    is returned as it is. *)
Lemma normalizePermission_unrecognised (s : string) :
  ~ In (toLowerCase s) permission_values ->
  ~ In (toLowerCase s) (List.map fst alias_entries) ->
  ~ In (toLowerCase s) object_prototype_keys ->
  normalizePermission (VStr s) = VStr s.
Proof.
  intros Hc Ha Hp. unfold normalizePermission. cbn [truthy to_string].
  destruct (negb (negb (s =? "")%string)); [reflexivity |].
  rewrite (existsb_eqb_not_In _ _ Hc).
  rewrite (get_prop_absent _ _ (alias_lookup_none _ Ha) Hp).
  reflexivity.
Qed.

Lemma castable_strings (l : list string) :
  forallb castable (List.map VStr l) = true.
Proof. induction l as [| x l IH]; [reflexivity | exact IH]. Qed.

Lemma to_string_strings (l : list string) :
  List.map to_string (List.map VStr l) = l.
Proof. induction l as [| x l IH]; [reflexivity |]. cbn. now rewrite IH. Qed.

Lemma normalize_all_valid (perms : list string) :
  forallb permission_valid perms = true ->
  normalize_all (List.map VStr perms) = List.map VStr perms.
Proof.
  unfold normalize_all.
  induction perms as [| p perms IH]; [reflexivity |].
  cbn [forallb]. intros Hv. apply andb_prop in Hv as [Hp Hv].
  apply existsb_eqb_In in Hp.
  cbn [List.map]. rewrite (normalizePermission_canonical p Hp).
  assert (Ht : truthy (VStr p) = true).
  { cbn in Hp. repeat (destruct Hp as [<- | Hp]; [reflexivity |]). destruct Hp. }
  cbn [List.filter]. rewrite Ht. f_equal. apply IH, Hv.
Qed.

Lemma pre_validate_permissions_valid (perms : list string) :
  forallb permission_valid perms = true ->
  pre_validate_permissions perms = perms.
Proof.
  intros Hv. unfold pre_validate_permissions.
  rewrite (normalize_all_valid perms Hv), castable_strings.
  apply to_string_strings.
Qed.

Lemma pre_save_password_permissions `{Crypto} (sl : string) (b : bool)
    (d : Identity.t) :
  Identity.permissions (Schema.pre_save_password sl b d) = Identity.permissions d.
Proof.
  unfold Schema.pre_save_password.
  destruct (negb b); [reflexivity |].
  destruct (_ && _); reflexivity.
Qed.

Lemma validate_admin_permissions (d : Identity.t) :
  Schema.validate Admin d = true ->
  forallb permission_valid (Identity.permissions d) = true.
Proof.
  unfold Schema.validate. intros Hv.
  apply andb_prop in Hv as [_ Hv]. apply andb_prop in Hv as [_ Hv]. exact Hv.
Qed.

Lemma pre_save_number_admin (env : Env) (db : Db) (d : Identity.t) :
  Schema.pre_save_number Admin env db d = d.
Proof. reflexivity. Qed.

(** Create path: the document that [Admin.create] validates and stores
    carries the normalised permissions. *)
Lemma create_normalises `{Crypto} (env : Env) (db db' : Db)
    (email pw first last : string) (rt : option string)
    (perms : option (list string)) (sid eid : option string) (doc : Identity.t) :
  Schema.create Admin env db email pw first last rt perms sid eid = (Ok doc, db') ->
  Identity.permissions doc = pre_validate_permissions (default [] perms) /\
  forallb permission_valid (Identity.permissions doc) = true /\
  admins db' = (admins db ++ [doc])%list.
Proof.
  unfold Schema.create. cbv zeta.
  destruct (negb (Schema.validate Admin _)) eqn:Hv; [discriminate |].
  apply negb_false_iff in Hv.
  destruct (Schema.duplicate _ _ _); [discriminate |].
  intros E. injection E as <- <-.
  rewrite pre_save_password_permissions. cbn [Schema.pre_save_number].
  split; [reflexivity |]. split; [| reflexivity].
  apply validate_admin_permissions in Hv. exact Hv.
Qed.

Lemma cast_permissions_array (arr : list value) (perms : list string) :
  Schema.cast_permissions (VArr arr) = Some perms -> List.map VStr perms = arr.
Proof.
  cbn [Schema.cast_permissions]. revert perms.
  induction arr as [| x arr IH]; intros perms E.
  - cbn in E. injection E as <-. reflexivity.
  - cbn in E. destruct x; try discriminate.
    destruct (mapM _ arr) as [l |] eqn:El; [| discriminate].
    cbn in E. injection E as <-. cbn. f_equal. now apply IH.
Qed.

Lemma findOneAndUpdate_fields (db db' : Db) (id : string)
    (fields : gmap string value) (arr : list value) (doc : Identity.t) :
  fields !! "permissions" = Some (VArr (normalize_all arr)) ->
  match Schema.findById (admins db) id with
  | Fail e => (Fail e, db)
  | Crash x => (Crash x, db)
  | Ok None => (Ok None, db)
  | Ok (Some d) =>
      match fields !! "permissions" with
      | None => (Ok (Some d), db)
      | Some v =>
          match Schema.cast_permissions v with
          | None => (Crash ValidationError, db)
          | Some perms =>
              if true && negb (forallb permission_valid perms)
              then (Crash ValidationError, db)
              else
                (Ok (Some (Schema.set_permissions d perms)),
                 set_collection Admin
                   (Schema.replace (admins db) (Schema.set_permissions d perms)) db)
          end
      end
  end = (Ok (Some doc), db') ->
  List.map VStr (Identity.permissions doc) = normalize_all arr /\
  forallb permission_valid (Identity.permissions doc) = true.
Proof.
  intros -> E.
  destruct (Schema.findById _ _) as [[d |] | e | x]; try discriminate.
  destruct (Schema.cast_permissions _) as [perms |] eqn:Ec; [| discriminate].
  cbn [andb] in E.
  destruct (forallb permission_valid perms) eqn:Hv; cbn [negb] in E;
    [| discriminate].
  injection E as <- <-. cbn. split; [| exact Hv].
  now apply cast_permissions_array.
Qed.

(** Update path: with validators on, the array given for [permissions]
    under [$set] is stored normalised. *)
Lemma findOneAndUpdate_normalises (db db' : Db) (id : string)
    (set rest : gmap string value) (arr : list value) (doc : Identity.t) :
  rest !! "permissions" = None ->
  Schema.findOneAndUpdate true db id
    (mkUpdate (Some (<["permissions" := VArr arr]> set)) rest)
  = (Ok (Some doc), db') ->
  List.map VStr (Identity.permissions doc) = normalize_all arr /\
  forallb permission_valid (Identity.permissions doc) = true.
Proof.
  intros Hrest. unfold Schema.findOneAndUpdate, pre_findOneAndUpdate, timestamps_hook.
  cbn [dollar_set top_level default]. unfold Datatypes.id.
  rewrite lookup_insert_eq. cbn [default truthy dollar_set top_level].
  apply findOneAndUpdate_fields.
  rewrite lookup_union_r by exact Hrest.
  rewrite insert_insert_eq. apply lookup_insert_eq.
Qed.

End Normalisation.

(** ** Permission normalisation: the claim *)

Section NormalisationClaim.
Import AdminModel.

(** C8, as stated, fails: ["SETTINGS"] is neither an enumerated permission
    nor a key of the alias table, and it is not left unchanged. *)
Lemma normalizePermission_exact_match_counterexample :
  ~ (forall s : string,
       ~ In s permission_values ->
       ~ In s (List.map fst alias_entries) ->
       normalizePermission (VStr s) = VStr s).
Proof.
  intros Hall. specialize (Hall "SETTINGS").
  assert (E : normalizePermission (VStr "SETTINGS") = VStr "manage_settings")
    by reflexivity.
  rewrite E in Hall.
  assert (Hne : VStr "manage_settings" <> VStr "SETTINGS") by discriminate.
  apply Hne, Hall; cbn; intros H; repeat (destruct H as [H | H]; [discriminate |]);
    exact H.
Qed.

(** C8 (amended).  [normalizePermission] maps every alias to its canonical
    value; it compares the lower-case form of its argument, and returns
    unchanged a string whose lower-case form is neither canonical, nor an
    alias, nor a name inherited from [Object.prototype].  The hooks apply it
    to the elements of an array of permissions and drop the falsy results
    before validation: on the create path, and on the update path for the
    permissions given under [$set].  What is validated and stored is the
    normalised array, and [["settings"]] is stored as [["manage_settings"]]
    on both.  (Permissions given at the top level of the update are left
    out: the hook of the timestamps has put a [$set] there before the hook
    of the repository looks for one, so they are never normalised, and
    [["settings"]] is not stored as [["manage_settings"]], validated or
    not.) *)
Theorem permission_normalisation :
  (forall alias canonical : string,
     In (alias, canonical) alias_entries ->
     normalizePermission (VStr alias) = VStr canonical /\
     In canonical permission_values) /\
  (forall s : string,
     ~ In (toLowerCase s) permission_values ->
     ~ In (toLowerCase s) (List.map fst alias_entries) ->
     ~ In (toLowerCase s) object_prototype_keys ->
     normalizePermission (VStr s) = VStr s) /\
  (forall (C : Crypto) (env : Env) (db db' : Db)
          (email pw first last : string) (rt : option string)
          (perms : option (list string)) (sid eid : option string)
          (doc : Identity.t),
     Schema.create Admin env db email pw first last rt perms sid eid
     = (Ok doc, db') ->
     Identity.permissions doc = pre_validate_permissions (default [] perms) /\
     forallb permission_valid (Identity.permissions doc) = true /\
     admins db' = (admins db ++ [doc])%list) /\
  (forall (db db' : Db) (id : string) (set rest : gmap string value)
          (arr : list value) (doc : Identity.t),
     rest !! "permissions" = None ->
     Schema.findOneAndUpdate true db id
       (mkUpdate (Some (<["permissions" := VArr arr]> set)) rest)
     = (Ok (Some doc), db') ->
     List.map VStr (Identity.permissions doc) = normalize_all arr /\
     forallb permission_valid (Identity.permissions doc) = true) /\
  forallb permission_valid ["settings"] = false /\
  pre_validate_permissions ["settings"; ""; "reports"]
  = ["manage_settings"; "reports"] /\
  List.map Identity.permissions
    (admins (snd (AuthService.register (H := Reference.crypto) Reference.cfg
                    (Reference.env 1000 "64a000000000000000000001")
                    Reference.empty Reference.admin_settings)))
  = [["manage_settings"]] /\
  List.map Identity.permissions
    (admins (snd (Schema.findOneAndUpdate true Reference.store_root
                    "64a000000000000000000001"
                    (mkUpdate (Some {[ "permissions" := VArr [VStr "settings"] ]})
                       ∅))))
  = [["manage_settings"]] /\
  (forall runValidators : bool,
     List.map Identity.permissions
       (admins (snd (Schema.findOneAndUpdate runValidators Reference.store_root
                       "64a000000000000000000001"
                       (mkUpdate None {[ "permissions" := VArr [VStr "settings"] ]}))))
     <> [["manage_settings"]]).
Proof.
  split; [exact normalizePermission_alias |].
  split; [exact normalizePermission_unrecognised |].
  split; [intros C; exact (create_normalises (H := C)) |].
  split; [exact findOneAndUpdate_normalises |].
  split; [reflexivity |].
  split; [reflexivity |].
  split; [vm_compute; reflexivity |].
  split; [vm_compute; reflexivity |].
  intros [|]; vm_compute; intros E; discriminate E.
Qed.

End NormalisationClaim.

(** ** The authentication service *)

Section Lists.
Context {A B : Type}.

Lemma find_none_all (f : A -> bool) (l : list A) :
  (forall x, In x l -> f x = false) -> List.find f l = None.
Proof.
  induction l as [| a l IH]; intros Hall; [reflexivity |].
  cbn. rewrite (Hall a (or_introl eq_refl)). apply IH.
  intros x Hx. apply Hall. now right.
Qed.

Lemma find_none_inv (f : A -> bool) (l : list A) (x : A) :
  List.find f l = None -> In x l -> f x = false.
Proof. intros E Hin. exact (List.find_none f l E x Hin). Qed.

Lemma find_snoc (f : A -> bool) (l : list A) (x : A) :
  List.find f l = None -> f x = true -> List.find f (l ++ [x]) = Some x.
Proof.
  induction l as [| a l IH]; cbn; intros E Hx.
  - now rewrite Hx.
  - destruct (f a); [discriminate |]. now apply IH.
Qed.

Lemma existsb_false_all (f : A -> bool) (l : list A) :
  (forall x, In x l -> f x = false) -> existsb f l = false.
Proof.
  induction l as [| a l IH]; intros Hall; [reflexivity |].
  cbn. rewrite (Hall a (or_introl eq_refl)). apply IH.
  intros x Hx. apply Hall. now right.
Qed.

(** Under a unique index on [key], the first document that satisfies a
    predicate which fixes the key is the document one has in mind. *)
Lemma find_unique (key : A -> B) (f : A -> bool) (l : list A) (x : A) :
  List.NoDup (List.map key l) -> In x l -> f x = true ->
  (forall y, f y = true -> key y = key x) ->
  List.find f l = Some x.
Proof.
  intros Hnd Hin Hx Hkey.
  induction l as [| a l IH]; [destruct Hin |].
  cbn in Hnd. apply List.NoDup_cons_iff in Hnd as [Hna Hnd].
  cbn. destruct (f a) eqn:Ha.
  - destruct Hin as [-> | Hin]; [reflexivity |].
    exfalso. apply Hna. rewrite (Hkey a Ha). now apply in_map.
  - destruct Hin as [-> | Hin]; [congruence |]. now apply IH.
Qed.

End Lists.

Section Store.

Lemma tokens_set_collection (m : Model) (c : list Identity.t) (db : Db) :
  tokens (set_collection m c db) = tokens db.
Proof. destruct m; reflexivity. Qed.

Lemma collection_set_collection (m : Model) (c : list Identity.t) (db : Db) :
  collection m (set_collection m c db) = c.
Proof. destruct m; reflexivity. Qed.


Lemma collection_set_tokens (m : Model) (ts : list Token.t) (db : Db) :
  collection m (set_tokens ts db) = collection m db.
Proof. destruct m; reflexivity. Qed.

Lemma findById_replace (c : list Identity.t) (d u : Identity.t)
    (id : ObjectId.t) :
  Schema.findOne_id c id = Some u -> Identity._id d = id ->
  Schema.findOne_id (Schema.replace c d) id = Some d.
Proof.
  unfold Schema.findOne_id. intros E <-.
  induction c as [| a c IH]; [discriminate |].
  cbn in E |- *. destruct (Identity._id a =? Identity._id d)%string eqn:Ea.
  - cbn. now rewrite String.eqb_refl.
  - cbn. rewrite Ea. now apply IH.
Qed.

Lemma findById_id (c : list Identity.t) (u : Identity.t) (id : ObjectId.t) :
  Schema.findOne_id c id = Some u -> Identity._id u = id.
Proof.
  unfold Schema.findOne_id. intros E. apply List.find_some in E as [_ E].
  now apply oid_eqb_eq in E.
Qed.

(** [Model.findById] on a string: the document found has the ObjectId the
    string is the text of, in either case. *)
Lemma findById_found (c : list Identity.t) (id : string) (u : Identity.t) :
  Schema.findById c id = Ok (Some u) ->
  In u c /\ ObjectId.cast id = Some (Identity._id u).
Proof.
  unfold Schema.findById. destruct (ObjectId.cast id) as [o |]; [| discriminate].
  intros E. injection E as E. split.
  - unfold Schema.findOne_id in E. now apply List.find_some in E as [E _].
  - now rewrite (findById_id _ _ _ E).
Qed.

(** Removing the token one holds leaves no token with its digest, when
    [_id] and [token] are unique. *)
Lemma deleteOne_removes_digest (ts : list Token.t) (td d : Token.t) :
  List.NoDup (List.map Token._id ts) -> List.NoDup (List.map Token.token ts) ->
  In td ts -> In d (Token.deleteOne ts (Token._id td)) ->
  Token.token d <> Token.token td.
Proof.
  intros Hid Htk Hin.
  induction ts as [| a ts IH]; [destruct Hin |].
  cbn in Hid, Htk. apply List.NoDup_cons_iff in Hid as [Hia Hid].
  apply List.NoDup_cons_iff in Htk as [Hta Htk].
  cbn. destruct (Token._id a =? Token._id td)%string eqn:Ea.
  - apply oid_eqb_eq in Ea.
    assert (a = td) as ->.
    { destruct Hin as [-> | Hin]; [reflexivity |].
      exfalso. apply Hia. rewrite Ea. now apply in_map. }
    intros Hd E. apply Hta. rewrite <- E. now apply in_map.
  - assert (Hin' : In td ts).
    { destruct Hin as [-> | Hin]; [| exact Hin].
      rewrite String.eqb_refl in Ea. discriminate. }
    intros [<- | Hd].
    + intros E. apply Hta. rewrite E. now apply in_map.
    + now apply IH.
Qed.

End Store.

Section AuthProperties.
Context {C : Crypto} {L : CryptoLaws C}.
Variable cfg : Config.
Import AuthService.

Lemma email_match_nonempty (s : string) :
  Schema.email_match s = true -> Schema.nonempty s = true.
Proof. destruct s; [discriminate | reflexivity]. Qed.

Lemma hash_nonempty (pw sl : string) :
  Schema.nonempty (bcrypt_hash pw sl) = true.
Proof.
  pose proof (bcrypt_hash_length pw sl) as Hl.
  destruct (bcrypt_hash pw sl); [discriminate | reflexivity].
Qed.

Lemma hash_kept_by_hook (sl : string) (d : Identity.t) (pw sl' : string) :
  Identity.password d = bcrypt_hash pw sl' ->
  Schema.pre_save_password sl true d = d.
Proof.
  intros E. unfold Schema.pre_save_password. cbn [negb].
  now rewrite E, hash_nonempty, bcrypt_hash_format.
Qed.

Lemma user_model_of_role (role : string) (m : Model) :
  In (role, m) userModels_entries -> get_prop userModels role = Own m.
Proof.
  cbn [userModels_entries In].
  intros [E | [E | [E | []]]]; inversion E; subst; reflexivity.
Qed.

Lemma findUserByEmail_none (db : Db) (email : string) (m : Model) :
  findUserByEmail db email = None ->
  Schema.findOne_email (collection m db) email = None.
Proof.
  unfold findUserByEmail, userModels_entries.
  cbn [findUserByEmail_from collection].
  destruct (Schema.findOne_email (admins db) email) eqn:Ea;
    [intros E; discriminate E |].
  destruct (Schema.findOne_email (teachers db) email) eqn:Et;
    [intros E; discriminate E |].
  destruct (Schema.findOne_email (students db) email) eqn:Es;
    [intros E; discriminate E |].
  intros _. destruct m; assumption.
Qed.

Lemma findUserByEmail_all_none (db : Db) (email : string) :
  (forall m, Schema.findOne_email (collection m db) email = None) ->
  findUserByEmail db email = None.
Proof.
  intros Hall. unfold findUserByEmail, userModels_entries.
  cbn [findUserByEmail_from].
  rewrite (Hall Admin), (Hall Teacher), (Hall Student). reflexivity.
Qed.

(** A match in some collection makes the lookup succeed, with a document
    that carries the queried email. *)
Lemma findUserByEmail_some (db : Db) (email : string) (m : Model)
    (d : Identity.t) :
  In d (collection m db) -> Identity.email d = Schema.cast_email email ->
  exists u role, findUserByEmail db email = Some (u, role) /\
                 Identity.email u = Schema.cast_email email.
Proof.
  intros Hin He.
  destruct (findUserByEmail db email) as [[u role] |] eqn:E.
  - exists u, role. split; [reflexivity |].
    unfold findUserByEmail, userModels_entries in E.
    cbn [findUserByEmail_from] in E.
    repeat match type of E with
           | match ?x with _ => _ end = _ =>
               let Ex := fresh "Ex" in
               destruct x eqn:Ex;
               [ injection E as <- <-;
                 apply List.find_some in Ex as [_ Ex];
                 now apply String.eqb_eq in Ex |]
           end.
    discriminate.
  - exfalso. pose proof (findUserByEmail_none db email m E) as En.
    pose proof (find_none_inv _ _ d En Hin) as Hf. cbn in Hf.
    rewrite He, String.eqb_refl in Hf. discriminate.
Qed.

(** After the insertion of [doc] in the collection of [role], in a store
    where the email was unknown, the lookup returns [doc] and [role]. *)
Lemma findUserByEmail_inserted (db : Db) (email role : string) (m : Model)
    (doc : Identity.t) :
  In (role, m) userModels_entries ->
  findUserByEmail db email = None ->
  Identity.email doc = Schema.cast_email email ->
  findUserByEmail (set_collection m (collection m db ++ [doc]) db) email
  = Some (doc, role).
Proof.
  intros Hrole Hnone He.
  pose proof (findUserByEmail_none db email Admin Hnone) as Ha.
  pose proof (findUserByEmail_none db email Teacher Hnone) as Ht.
  pose proof (findUserByEmail_none db email Student Hnone) as Hs.
  assert (Hdoc : forall c, Schema.findOne_email c email = None ->
                           Schema.findOne_email (c ++ [doc]) email = Some doc).
  { intros c Hc. apply find_snoc; [exact Hc |].
    cbn. rewrite He. apply String.eqb_refl. }
  cbn [collection] in Ha, Ht, Hs. cbn [userModels_entries In] in Hrole.
  destruct Hrole as [E | [E | [E | []]]]; inversion E; subst;
    unfold findUserByEmail, userModels_entries;
    cbn [findUserByEmail_from collection set_collection admins teachers students].
  - now rewrite (Hdoc _ Ha).
  - now rewrite Ha, (Hdoc _ Ht).
  - now rewrite Ha, Ht, (Hdoc _ Hs).
Qed.

Lemma valid_input_validate (m : Model) (id : ObjectId.t)
    (email pw sl first last : string)
    (rt : option string) (perms : option (list string)) (sid eid : option string) :
  Schema.valid_input m email first last rt perms = true ->
  Schema.validate m
    (Schema.pre_validate m
       (Identity.mk id (Schema.cast_email email) (bcrypt_hash pw sl)
          (trim first) (trim last)
          match m with
          | Admin => Some (default "academic_admin" rt)
          | Teacher | Student => None
          end
          match m with
          | Admin => default [] perms
          | Teacher | Student => []
          end
          match m with
          | Student => sid
          | Admin | Teacher => None
          end
          match m with
          | Teacher => eid
          | Admin | Student => None
          end)) = true.
Proof.
  unfold Schema.valid_input. intros Hv.
  apply andb_prop in Hv as [Hv Hm]. apply andb_prop in Hv as [Hv Hl].
  apply andb_prop in Hv as [He Hf].
  assert (Hp : (Schema.minlength m <=? String.length (bcrypt_hash pw sl))%nat = true).
  { rewrite bcrypt_hash_length. now destruct m. }
  unfold Schema.validate.
  destruct m; cbn [Schema.pre_validate Schema.set_permissions
                   Identity.email Identity.password
                   Identity.firstName Identity.lastName Identity.roleType
                   Identity.permissions];
    rewrite (email_match_nonempty _ He), He, hash_nonempty, Hp, Hf, Hl;
    cbn [andb]; try reflexivity.
  apply andb_prop in Hm as [Hr Hperm]. rewrite Hperm, andb_true_r.
  destruct rt as [x |]; [exact Hr | reflexivity].
Qed.

(** The hook that numbers a document writes nothing else. *)
Lemma pre_save_number_fields (m : Model) (env : Env) (db : Db) (d : Identity.t) :
  let d' := Schema.pre_save_number m env db d in
  Identity._id d' = Identity._id d /\
  Identity.email d' = Identity.email d /\
  Identity.password d' = Identity.password d /\
  Identity.firstName d' = Identity.firstName d /\
  Identity.lastName d' = Identity.lastName d /\
  Identity.roleType d' = Identity.roleType d /\
  Identity.permissions d' = Identity.permissions d.
Proof.
  destruct m; cbn [Schema.pre_save_number];
    [tauto | destruct (Schema.falsy _) | destruct (Schema.falsy _)];
    cbn; tauto.
Qed.

Lemma pre_save_number_numbered (m : Model) (env : Env) (db : Db)
    (d : Identity.t) :
  Schema.numbered m d = true -> Schema.pre_save_number m env db d = d.
Proof.
  destruct m; cbn [Schema.numbered Schema.pre_save_number]; [reflexivity | |];
    destruct (Schema.falsy _); first [reflexivity | intros E; discriminate E].
Qed.

(** On an insert, the number of the document is the one given for it or
    the one generated. *)
Lemma pre_save_number_insert (m : Model) (env : Env) (db : Db)
    (d : Identity.t) :
  Schema.number_of m (Schema.pre_save_number m env db d)
  = Schema.number_on_insert m env db (Identity.studentId d) (Identity.employeeId d).
Proof.
  destruct m; cbn [Schema.number_of Schema.pre_save_number Schema.number_on_insert];
    [reflexivity | |]; destruct (Schema.falsy _); reflexivity.
Qed.

Lemma same_number_of (m : Model) (d' d : Identity.t) :
  Schema.same_number m d' d
  = match m with
    | Admin => false
    | Teacher | Student =>
        Schema.same_text (Schema.number_of m d') (Schema.number_of m d)
    end.
Proof. destruct m; reflexivity. Qed.

Lemma pre_save_password_number `{Crypto} (m : Model) (sl : string) (b : bool)
    (d : Identity.t) :
  Schema.number_of m (Schema.pre_save_password sl b d) = Schema.number_of m d.
Proof.
  unfold Schema.pre_save_password.
  destruct (negb b); [reflexivity |].
  destruct (_ && _); destruct m; reflexivity.
Qed.

Lemma duplicate_number (m : Model) (c : list Identity.t) (doc : Identity.t) :
  (forall d, In d c ->
     (Identity._id d =? Identity._id doc)%string = false /\
     (Identity.email d =? Identity.email doc)%string = false) ->
  Schema.duplicate m c doc
  = match m with
    | Admin => false
    | Teacher | Student =>
        negb (forallb (fun d' => negb (Schema.same_text (Schema.number_of m d')
                                         (Schema.number_of m doc))) c)
    end.
Proof.
  unfold Schema.duplicate. induction c as [| a c IH]; intros Hother.
  - now destruct m.
  - cbn [existsb forallb]. destruct (Hother a (or_introl eq_refl)) as [-> ->].
    cbn [orb]. rewrite same_number_of.
    rewrite IH by (intros d Hd; apply Hother; now right).
    destruct m; [reflexivity | |]; now destruct (Schema.same_text _ _).
Qed.

(** What [Model.create] does with a registration the schema accepts: it
    inserts the document when its [_id], its email and its number are free,
    and fails with a duplicate-key error, storing nothing, when the number
    is taken. *)
Lemma create_valid (m : Model) (env : Env) (db : Db)
    (email pw sl first last : string) (rt : option string)
    (perms : option (list string)) (sid eid : option string) :
  Schema.valid_input m email first last rt perms = true ->
  Schema.findOne_id (collection m db) (newId env) = None ->
  Schema.findOne_email (collection m db) email = None ->
  exists doc,
    Identity._id doc = newId env /\
    Identity.email doc = Schema.cast_email email /\
    Identity.password doc = bcrypt_hash pw sl /\
    Schema.number_of m doc = Schema.number_on_insert m env db sid eid /\
    Schema.create m env db email (bcrypt_hash pw sl) first last rt perms sid eid
    = if Schema.number_free m env db sid eid
      then (Ok doc, set_collection m (collection m db ++ [doc]) db)
      else (Crash DuplicateKey, db).
Proof.
  intros Hvalid Hfresh Hnew.
  unfold Schema.create. cbv zeta.
  rewrite (valid_input_validate m _ _ _ _ _ _ _ _ sid eid Hvalid). cbn [negb].
  set (doc0 := Schema.pre_validate m _).
  set (doc := Schema.pre_save_number m env db doc0).
  assert (H0 : Identity._id doc0 = newId env /\
               Identity.email doc0 = Schema.cast_email email /\
               Identity.password doc0 = bcrypt_hash pw sl /\
               Identity.studentId doc0
               = match m with Student => sid | _ => None end /\
               Identity.employeeId doc0
               = match m with Teacher => eid | _ => None end)
    by (subst doc0; destruct m; cbn; tauto).
  destruct H0 as (Hid0 & Hem0 & Hpw0 & Hs0 & He0).
  destruct (pre_save_number_fields m env db doc0) as (Hid & Hem & Hpw & _).
  fold doc in Hid, Hem, Hpw. rewrite Hid0 in Hid. rewrite Hem0 in Hem.
  rewrite Hpw0 in Hpw.
  assert (Hnum : Schema.number_of m doc = Schema.number_on_insert m env db sid eid).
  { subst doc. rewrite pre_save_number_insert, Hs0, He0. now destruct m. }
  rewrite (hash_kept_by_hook _ doc _ _ Hpw).
  exists doc. do 4 (split; [assumption |]).
  assert (Hdup : Schema.duplicate m (collection m db) doc
                 = negb (Schema.number_free m env db sid eid)).
  { assert (Hother : forall d, In d (collection m db) ->
              (Identity._id d =? Identity._id doc)%string = false /\
              (Identity.email d =? Identity.email doc)%string = false).
    { intros d Hd.
      pose proof (find_none_inv _ _ d Hfresh Hd) as H1.
      pose proof (find_none_inv _ _ d Hnew Hd) as H2.
      cbn in H1, H2. now rewrite Hid, Hem. }
    rewrite (duplicate_number m _ doc Hother), Hnum.
    unfold Schema.number_free. now destruct m. }
  rewrite Hdup. now destruct (Schema.number_free m env db sid eid).
Qed.

(** A registration with a new email, a role of the three, input that the
    schema accepts, a fresh ObjectId and a number that is free succeeds: the
    identity is stored in the collection of the role, with the hash of the
    password. *)
Lemma register_ok (env : Env) (db : Db) (r : Registration) (m : Model) :
  In (r_role r, m) userModels_entries ->
  findUserByEmail db (r_email r) = None ->
  Schema.valid_input m (r_email r) (r_firstName r) (r_lastName r)
    (r_roleType r) (r_permissions r) = true ->
  Schema.findOne_id (collection m db) (newId env) = None ->
  Schema.number_free m env db (r_studentId r) (r_employeeId r) = true ->
  exists doc,
    register cfg env db r
    = (Ok (Created
             (mkAuthData (view doc (r_role r))
                (generateToken cfg (now env) (newId env) (r_role r)))),
       set_collection m (collection m db ++ [doc]) db) /\
    Identity._id doc = newId env /\
    Identity.email doc = Schema.cast_email (r_email r) /\
    Identity.password doc = bcrypt_hash (r_password r) (salt env).
Proof.
  intros Hrole Hnew Hvalid Hfresh Hfree.
  destruct (create_valid m env db (r_email r) (r_password r) (salt env)
              (r_firstName r) (r_lastName r) (r_roleType r) (r_permissions r)
              (r_studentId r) (r_employeeId r) Hvalid Hfresh
              (findUserByEmail_none db _ m Hnew))
    as (doc & Hid & Hem & Hpw & _ & Hcreate).
  rewrite Hfree in Hcreate.
  unfold register. rewrite Hnew, (user_model_of_role _ _ Hrole). cbv zeta.
  rewrite Hcreate. exists doc. rewrite Hid. repeat split; assumption.
Qed.

(** A registration that differs from the former only in that the number is
    taken fails with the duplicate-key error of the unique index, and
    stores nothing. *)
Lemma register_number_taken (env : Env) (db : Db) (r : Registration)
    (m : Model) :
  In (r_role r, m) userModels_entries ->
  findUserByEmail db (r_email r) = None ->
  Schema.valid_input m (r_email r) (r_firstName r) (r_lastName r)
    (r_roleType r) (r_permissions r) = true ->
  Schema.findOne_id (collection m db) (newId env) = None ->
  Schema.number_free m env db (r_studentId r) (r_employeeId r) = false ->
  register cfg env db r = (Crash DuplicateKey, db).
Proof.
  intros Hrole Hnew Hvalid Hfresh Hfree.
  destruct (create_valid m env db (r_email r) (r_password r) (salt env)
              (r_firstName r) (r_lastName r) (r_roleType r) (r_permissions r)
              (r_studentId r) (r_employeeId r) Hvalid Hfresh
              (findUserByEmail_none db _ m Hnew))
    as (doc & _ & _ & _ & _ & Hcreate).
  rewrite Hfree in Hcreate.
  unfold register. rewrite Hnew, (user_model_of_role _ _ Hrole). cbv zeta.
  now rewrite Hcreate.
Qed.

(** Register, then login with the same credentials. *)
Lemma register_then_login (env1 env2 : Env) (clock : Z) (db : Db)
    (r : Registration) (m : Model) :
  In (r_role r, m) userModels_entries ->
  findUserByEmail db (r_email r) = None ->
  Schema.valid_input m (r_email r) (r_firstName r) (r_lastName r)
    (r_roleType r) (r_permissions r) = true ->
  Schema.findOne_id (collection m db) (newId env1) = None ->
  Schema.number_free m env1 db (r_studentId r) (r_employeeId r) = true ->
  clock / 1000 < now env2 / 1000 + expiresIn cfg ->
  exists (a1 : AuthData) (db' : Db) (a2 : AuthData) (claims : Payload),
    register cfg env1 db r = (Ok (Created a1), db') /\
    login cfg env2 db' (r_email r) (r_password r) = Ok a2 /\
    verifyToken cfg clock (token a2) = Ok claims /\
    p_id claims = UserView.id (user a1) /\
    p_role claims = r_role r /\
    UserView.id (user a2) = UserView.id (user a1) /\
    UserView.role (user a2) = r_role r.
Proof.
  intros Hrole Hnew Hvalid Hfresh Hfree Htime.
  destruct (register_ok env1 db r m Hrole Hnew Hvalid Hfresh Hfree)
    as (doc & Hreg & Hid & Hem & Hpw).
  eexists _, _, _, _. split; [exact Hreg |].
  unfold login.
  rewrite (findUserByEmail_inserted db _ _ m doc Hrole Hnew Hem).
  rewrite Hpw, bcrypt_compare_hash. cbn [negb].
  split; [reflexivity |].
  unfold verifyToken, generateToken. cbn [token].
  rewrite jwt_decode_encode. cbn [exp p_id p_role].
  destruct (Z.leb_spec (now env2 / 1000 + expiresIn cfg) (clock / 1000)) as [Hle | _];
    [lia |].
  cbn [user view UserView.id UserView.role]. rewrite Hid.
  repeat split; reflexivity.
Qed.

(** C4. [login] answers 404 when no identity of any collection has the
    email, and 401 when the identity found has a hash that the password
    does not verify; the two answers differ. *)
Theorem login_failures (env : Env) (db : Db) (email pw : string) :
  ((forall m d, In d (collection m db) ->
                Identity.email d <> Schema.cast_email email) ->
   login cfg env db email pw = Fail (mkError "Account not found" 404)) /\
  (forall m d, In d (collection m db) ->
               Identity.email d = Schema.cast_email email ->
   exists u role,
     findUserByEmail db email = Some (u, role) /\
     Identity.email u = Schema.cast_email email /\
     (bcrypt_compare pw (Identity.password u) = false ->
      login cfg env db email pw = Fail (mkError "Incorrect password" 401))) /\
  statusCode (mkError "Account not found" 404)
  <> statusCode (mkError "Incorrect password" 401).
Proof.
  split; [| split].
  - intros Hno. unfold login.
    rewrite findUserByEmail_all_none; [reflexivity |].
    intros m. apply find_none_all. intros d Hd. cbn.
    apply String.eqb_neq. now apply (Hno m).
  - intros m d Hin He.
    destruct (findUserByEmail_some db email m d Hin He) as (u & role & Hf & Hu).
    exists u, role. split; [exact Hf |]. split; [exact Hu |].
    intros Hpw. unfold login. now rewrite Hf, Hpw.
  - cbn. discriminate.
Qed.


(** *** Password reset *)

Lemma findUserById_inv (db : Db) (id role : string) (u : Identity.t)
    (m : Model) :
  findUserById db id role = Ok (Some (u, m)) ->
  get_prop userModels role = Own m /\
  Schema.findById (collection m db) id = Ok (Some u).
Proof.
  unfold findUserById.
  destruct (get_prop userModels role) as [m' | k |]; try discriminate.
  destruct (Schema.findById (collection m' db) id) as [[u' |] | e | x] eqn:Ef;
    cbn; intros E; inversion E; subst. now split.
Qed.

(** Looking up the ObjectId of a stored reference never fails in the cast. *)
Lemma findUserById_hex (db : Db) (o : ObjectId.t) (role : string) :
  findUserById db o role
  = match get_prop userModels role with
    | Absent => Ok None
    | Inherited _ => Crash NotAFunction
    | Own m => Ok (option_map (fun u => (u, m)) (Schema.findOne_id (collection m db) o))
    end.
Proof.
  unfold findUserById. destruct (get_prop userModels role); try reflexivity.
  now rewrite findById_hex.
Qed.

Lemma pre_validate_set_password (m : Model) (u : Identity.t) (pw : string) :
  Schema.validate m u = true ->
  Schema.pre_validate m (Schema.set_password u pw) = Schema.set_password u pw.
Proof.
  intros Hv. destruct m; [| reflexivity | reflexivity].
  apply validate_admin_permissions in Hv.
  unfold Schema.pre_validate, Schema.set_password, Schema.set_permissions.
  cbn [Identity._id Identity.email Identity.password Identity.firstName
       Identity.lastName Identity.roleType Identity.permissions
       Identity.studentId Identity.employeeId].
  now rewrite (pre_validate_permissions_valid _ Hv).
Qed.

Lemma validate_set_password (m : Model) (u : Identity.t) (pw sl : string) :
  Schema.validate m u = true ->
  Schema.validate m (Schema.set_password u (bcrypt_hash pw sl)) = true.
Proof.
  unfold Schema.validate, Schema.set_password.
  cbn [Identity._id Identity.email Identity.password Identity.firstName
       Identity.lastName Identity.roleType Identity.permissions].
  rewrite hash_nonempty, bcrypt_hash_length. intros Hv.
  apply andb_prop in Hv as [Hv Hg]. apply andb_prop in Hv as [Hv Hl].
  apply andb_prop in Hv as [Hv Hf]. apply andb_prop in Hv as [Hv _].
  apply andb_prop in Hv as [Hv _]. apply andb_prop in Hv as [He Hm].
  rewrite He, Hm, Hf, Hl, Hg. now destruct m.
Qed.

Lemma numbered_set_password (m : Model) (u : Identity.t) (pw : string) :
  Schema.numbered m (Schema.set_password u pw) = Schema.numbered m u.
Proof. destruct m; reflexivity. Qed.

(** A number that is free for an insert is free for the update that
    writes it. *)
Lemma number_free_not_taken (m : Model) (env : Env) (db : Db)
    (sid eid : option string) (doc : Identity.t) :
  Schema.number_free m env db sid eid = true ->
  Schema.number_of m doc = Schema.number_on_insert m env db sid eid ->
  Schema.number_taken m (collection m db) doc = false.
Proof.
  intros Hfree Hnum. unfold Schema.number_taken.
  apply existsb_false_all. intros d Hd.
  rewrite same_number_of, Hnum.
  destruct m; [apply andb_false_r | |]; unfold Schema.number_free in Hfree;
    rewrite forallb_forall in Hfree; specialize (Hfree d Hd);
    apply negb_true_iff in Hfree; rewrite Hfree; apply andb_false_r.
Qed.

(** The identity [user.save()] writes after its password was set to a
    fresh hash: the loaded one with that password, and with the next number
    when it had none. *)
Lemma save_password_ok (m : Model) (env : Env) (db : Db) (u : Identity.t)
    (pw : string) :
  Schema.validate m u = true ->
  Schema.numbered m u = true \/
  Schema.number_free m env db (Identity.studentId u) (Identity.employeeId u)
  = true ->
  let u' := Schema.pre_save_number m env db
              (Schema.set_password u (bcrypt_hash pw (salt env))) in
  Schema.save m env db (Schema.set_password u (bcrypt_hash pw (salt env)))
  = (Ok u', set_collection m (Schema.replace (collection m db) u') db).
Proof.
  intros Hv Hn u'. unfold Schema.save.
  rewrite (pre_validate_set_password m u _ Hv).
  rewrite (validate_set_password m u _ _ Hv). cbn [negb]. cbv zeta.
  fold u'.
  assert (Hkept : Schema.pre_save_password (hookSalt env) true u' = u').
  { apply (hash_kept_by_hook (hookSalt env) u' pw (salt env)).
    subst u'.
    now rewrite (proj1 (proj2 (proj2 (pre_save_number_fields m env db _)))). }
  rewrite Hkept.
  assert (Hfree : negb (Schema.numbered m
                          (Schema.set_password u (bcrypt_hash pw (salt env))))
                  && Schema.number_taken m (collection m db) u' = false).
  { rewrite numbered_set_password. destruct Hn as [Hn | Hn].
    - now rewrite Hn.
    - rewrite (number_free_not_taken m env db _ _ u' Hn);
        [apply andb_false_r |].
      subst u'. now rewrite pre_save_number_insert. }
  now rewrite Hfree.
Qed.

(** What [save_password_ok] writes has the id and the email of the loaded
    identity, and the hash for its password; it is the loaded identity with
    that password when it had its number. *)
Lemma saved_identity (m : Model) (env : Env) (db : Db) (u : Identity.t)
    (h : string) :
  let u' := Schema.pre_save_number m env db (Schema.set_password u h) in
  Identity._id u' = Identity._id u /\ Identity.email u' = Identity.email u /\
  Identity.password u' = h /\
  (Schema.numbered m u = true -> u' = Schema.set_password u h).
Proof.
  destruct (pre_save_number_fields m env db (Schema.set_password u h))
    as (Hid & Hem & Hpw & _).
  cbv zeta. rewrite Hid, Hem, Hpw. repeat split.
  intros Hn. apply pre_save_number_numbered. now rewrite numbered_set_password.
Qed.

(** An expired token, used or not, is refused and nothing is written. *)
Lemma resetPassword_expired (env : Env) (db : Db) (raw pw : string) :
  (forall d, In d (tokens db) -> Token.token d = sha256_hex raw ->
             Token.expiresAt d <= now env) ->
  resetPassword env db raw pw
  = (Fail (mkError "Invalid or expired reset token" 400), db).
Proof.
  intros Hexp. unfold resetPassword, Token.findOne.
  rewrite (find_none_all _ (tokens db)); [reflexivity |].
  intros d Hd. cbn beta.
  destruct (Token.token d =? sha256_hex raw)%string eqn:Et; [| reflexivity].
  apply String.eqb_eq in Et. specialize (Hexp d Hd Et).
  rewrite andb_false_iff. right. apply Z.ltb_ge. exact Hexp.
Qed.

(** C2 (amended).  A reset token that is stored and not expired, whose
    owner is still a stored identity that the schema accepts and that has
    its number, or can be given the next one: the first [resetPassword]
    with its raw secret succeeds and leaves the owner with a hash of the new
    password; every later call with the same raw secret is refused with 400
    'Invalid or expired reset token' and writes nothing. *)
Theorem reset_token_single_use (env1 : Env) (db : Db) (raw newPw : string)
    (td : Token.t) (u : Identity.t) (m : Model) :
  List.NoDup (List.map Token._id (tokens db)) ->
  List.NoDup (List.map Token.token (tokens db)) ->
  In td (tokens db) ->
  Token.token td = sha256_hex raw ->
  Token.type td = "password-reset" ->
  now env1 < Token.expiresAt td ->
  findUserById db (Token.user td) (toLowerCase (Token.userModel td))
  = Ok (Some (u, m)) ->
  Schema.validate m u = true ->
  Schema.numbered m u = true \/
  Schema.number_free m env1 db (Identity.studentId u) (Identity.employeeId u)
  = true ->
  exists db' : Db,
    resetPassword env1 db raw newPw = (Ok "Password reset successful", db') /\
    (exists u' : Identity.t,
       findUserById db' (Token.user td) (toLowerCase (Token.userModel td))
       = Ok (Some (u', m)) /\
       bcrypt_compare newPw (Identity.password u') = true) /\
    (forall (env2 : Env) (pw2 : string),
       resetPassword env2 db' raw pw2
       = (Fail (mkError "Invalid or expired reset token" 400), db')).
Proof.
  intros Hid Htk Hin Hdig Hty Hexp Hown Hvalid Hnum.
  destruct (findUserById_inv _ _ _ _ _ Hown) as [Hmodel Hfind].
  rewrite findById_hex in Hfind. injection Hfind as Hfind.
  assert (Hfound : Token.findOne (tokens db) (sha256_hex raw) "password-reset"
                     (now env1) = Some td).
  { unfold Token.findOne. apply (find_unique Token.token); try assumption.
    - rewrite Hdig, Hty, !String.eqb_refl. cbn [andb]. now apply Z.ltb_lt.
    - intros y Hy. apply andb_prop in Hy as [Hy _]. apply andb_prop in Hy as [Hy _].
      apply String.eqb_eq in Hy. congruence. }
  unfold resetPassword at 1. rewrite Hfound, Hown.
  rewrite (save_password_ok m env1 db u newPw Hvalid Hnum).
  set (u' := Schema.pre_save_number m env1 db
               (Schema.set_password u (bcrypt_hash newPw (salt env1)))).
  destruct (saved_identity m env1 db u (bcrypt_hash newPw (salt env1)))
    as (Hid' & _ & Hpw' & _). fold u' in Hid', Hpw'.
  eexists. split; [reflexivity |]. split.
  - exists u'. split.
    + rewrite findUserById_hex, Hmodel.
      rewrite collection_set_tokens, collection_set_collection.
      rewrite (findById_replace _ u' u _ Hfind); [reflexivity |].
      rewrite Hid'. now apply findById_id in Hfind.
    + rewrite Hpw'. apply bcrypt_compare_hash.
  - intros env2 pw2. unfold resetPassword, Token.findOne.
    rewrite (find_none_all _ (tokens _)); [reflexivity |].
    intros d Hd. cbn [tokens set_tokens] in Hd.
    rewrite tokens_set_collection in Hd.
    pose proof (deleteOne_removes_digest _ td d Hid Htk Hin Hd) as Hne.
    rewrite Hdig in Hne. apply String.eqb_neq in Hne.
    cbn beta. now rewrite Hne.
Qed.

(** *** Reset tokens on the stores the repository can be in *)







End AuthProperties.

(** ** The request context left by [protect] *)

Section Protect.
Import Rbac AuthMiddleware.

(** C9. When [protect] lets a request through, the [req.user] it attached
    has exactly the members id, email, firstName, lastName and role, so
    neither permissions nor roleType; [requirePermission(p)] placed after it
    answers 403 for every [p], whatever the stored identity holds. *)
Theorem protect_context_lacks_permissions `{Crypto} (cfg : Config) (clock : Z)
    (db : Db) (authorization : option string) :
  fst (protect cfg clock db authorization) = Next ->
  exists u : gmap string value,
    snd (protect cfg clock db authorization) = Some u /\
    dom u = ({[ "id"; "email"; "firstName"; "lastName"; "role" ]} : gset string) /\
    u !! "permissions" = None /\
    u !! "roleType" = None /\
    forall p : string,
      requirePermission p (Some u)
      = NextErr (mkError ("Insufficient permissions. Required: " ++ p) 403).
Proof.
  unfold protect.
  destruct (bearer authorization) as [[| c tok] |]; cbn [fst];
    try (intros E; discriminate E).
  destruct (AuthService.verifyToken cfg clock (String c tok)) as [decoded | e | x];
    cbn [fst]; try (intros E; discriminate E).
  destruct (AuthService.findUserById db (p_id decoded) (p_role decoded))
    as [[[u m] |] | e | x]; cbn [fst]; try (intros E; discriminate E).
  intros _. eexists. split; [reflexivity |].
  assert (Hperm : forall v1 v2 v3 v4 v5 : value,
            ({[ "id" := v1; "email" := v2; "firstName" := v3;
                "lastName" := v4; "role" := v5 ]} : gmap string value)
              !! "permissions" = None).
  { intros. rewrite !lookup_insert_ne by discriminate.
    now rewrite lookup_singleton_ne by discriminate. }
  assert (Htype : forall v1 v2 v3 v4 v5 : value,
            ({[ "id" := v1; "email" := v2; "firstName" := v3;
                "lastName" := v4; "role" := v5 ]} : gmap string value)
              !! "roleType" = None).
  { intros. rewrite !lookup_insert_ne by discriminate.
    now rewrite lookup_singleton_ne by discriminate. }
  split; [| split; [apply Hperm | split; [apply Htype |]]].
  - rewrite !dom_insert_L, dom_singleton_L. set_solver.
  - intros p. unfold requirePermission, is_super_admin, field.
    rewrite Htype, Hperm. cbn [default strict_eq_str].
    rewrite andb_false_r. reflexivity.
Qed.

End Protect.

(** ** The reference instance satisfies the laws *)

Section ReferenceLaws.
Import Reference.

Lemma pad_to_length (n : nat) (s : string) : String.length (pad_to n s) = n.
Proof.
  revert s. induction n as [| n IH]; intros s; [reflexivity |].
  destruct s; cbn; now rewrite IH.
Qed.

Lemma append_length (s1 s2 : string) :
  String.length (s1 ++ s2) = (String.length s1 + String.length s2)%nat.
Proof.
  induction s1 as [| c s1 IH]; [reflexivity |].
  change (String.length (String c (s1 ++ s2))
          = S (String.length s1 + String.length s2)).
  cbn [String.length]. now rewrite IH.
Qed.

Lemma pos_of_bits_of_pos (p : positive) : pos_of_bits (bits_of_pos p) = p.
Proof. induction p as [p IH | p IH |]; cbn; now rewrite ?IH. Qed.

Lemma reference_laws : CryptoLaws crypto.
Proof.
  split; cbn [bcrypt_hash bcrypt_compare jwt_encode jwt_decode crypto].
  - intros pw sl. unfold compare, hash. apply String.eqb_refl.
  - intros pw sl. reflexivity.
  - intros pw sl. unfold hash. now rewrite append_length, pad_to_length.
  - intros [id role issued expires] secret. unfold unsign, sign.
    cbn [p_id p_role iat exp].
    rewrite pos_of_bits_of_pos, decode_encode. now rewrite String.eqb_refl.
Qed.

End ReferenceLaws.

(** ** Register, then login *)

Section RoundTrip.
Context {C : Crypto} {L : CryptoLaws C}.
Variable cfg : Config.
Import AuthService.

Lemma duplicate_same_number (m : Model) (c : list Identity.t)
    (d doc : Identity.t) :
  In d c -> Schema.same_number m d doc = true ->
  Schema.duplicate m c doc = true.
Proof.
  intros Hin Hs. unfold Schema.duplicate. apply existsb_exists.
  exists d. split; [exact Hin |]. rewrite Hs. apply orb_true_r.
Qed.

(** In the year 2026, on a store that holds the numbers ["26-9"] and
    ["26-000010"], the next number is ["26-000010"] again: as texts,
    ["26-9"] is the greatest. *)
Lemma generateStudentId_stuck (env : Env) :
  year env = 2026 ->
  Schema.generateStudentId env (students Reference.after_plain) = "26-000010".
Proof.
  intros Hy. unfold Schema.generateStudentId, Schema.yearSuffix.
  rewrite Hy. vm_compute. reflexivity.
Qed.

(** C1.  Register, then login with the same credentials.  For a role of
    the three and a registration the schema accepts, with a new email, both
    succeed when the ObjectId and the number of the new document are free,
    and [verifyToken], any time before the expiry of the session token that
    [login] returned, yields claims with the id and the role of the new
    identity.  The number is not always free: [generateStudentId] takes the
    greatest [studentId] of the year as a text.  After a registration that
    carried the [studentId] ["26-9"] the next student is numbered
    ["26-000010"], and so is every student after that one: the unique
    index on [studentId] refuses them, and a registration with valid input
    and a new email is answered 500. *)
Theorem register_login_roundtrip :
  (forall (env1 env2 : Env) (clock : Z) (db : Db) (r : Registration) (m : Model),
     In (r_role r, m) userModels_entries ->
     findUserByEmail db (r_email r) = None ->
     Schema.valid_input m (r_email r) (r_firstName r) (r_lastName r)
       (r_roleType r) (r_permissions r) = true ->
     Schema.findOne_id (collection m db) (newId env1) = None ->
     Schema.number_free m env1 db (r_studentId r) (r_employeeId r) = true ->
     clock / 1000 < now env2 / 1000 + expiresIn cfg ->
     exists (a1 : AuthData) (db' : Db) (a2 : AuthData) (claims : Payload),
       register cfg env1 db r = (Ok (Created a1), db') /\
       login cfg env2 db' (r_email r) (r_password r) = Ok a2 /\
       verifyToken cfg clock (token a2) = Ok claims /\
       p_id claims = UserView.id (user a1) /\
       p_role claims = r_role r /\
       UserView.id (user a2) = UserView.id (user a1) /\
       UserView.role (user a2) = r_role r) /\
  (forall (env : Env) (db : Db) (r : Registration) (m : Model),
     In (r_role r, m) userModels_entries ->
     findUserByEmail db (r_email r) = None ->
     Schema.valid_input m (r_email r) (r_firstName r) (r_lastName r)
       (r_roleType r) (r_permissions r) = true ->
     Schema.findOne_id (collection m db) (newId env) = None ->
     Schema.number_free m env db (r_studentId r) (r_employeeId r) = false ->
     register cfg env db r = (Crash DuplicateKey, db)) /\
  (exists a1 a2 : AuthData,
     register (H := Reference.crypto) Reference.cfg
       (Reference.env 1000 "64b000000000000000000011") Reference.empty
       Reference.student_numbered
     = (Ok (Created a1), Reference.after_numbered) /\
     register (H := Reference.crypto) Reference.cfg
       (Reference.env 2000 "64b000000000000000000012") Reference.after_numbered
       Reference.student_ab
     = (Ok (Created a2), Reference.after_plain)) /\
  List.map Identity.studentId (students Reference.after_plain)
  = [Some "26-9"; Some "26-000010"] /\
  register (H := Reference.crypto) Reference.cfg
    (Reference.env 3000 "64b000000000000000000013") Reference.after_plain
    Reference.student_cd
  = (Crash DuplicateKey, Reference.after_plain) /\
  ErrorPipeline.respond 201
    (fst (AuthController.register (H := Reference.crypto) Reference.cfg []
            (Reference.env 3000 "64b000000000000000000013") Reference.after_plain
            Reference.student_cd)) = 500 /\
  (forall (env : Env) (r : Registration) (a : AuthData),
     year env = 2026 ->
     r_role r = ROLES.STUDENT ->
     Schema.falsy (r_studentId r) = true ->
     fst (register cfg env Reference.after_plain r) <> Ok (Created a)).
Proof.
  split; [exact (register_then_login cfg) |].
  split; [exact (register_number_taken cfg) |].
  split; [eexists _, _; split; vm_compute; reflexivity |].
  split; [vm_compute; reflexivity |].
  split; [vm_compute; reflexivity |].
  split; [vm_compute; reflexivity |].
  intros env r a Hyear Hrole Hplain. unfold register.
  destruct (findUserByEmail Reference.after_plain (r_email r));
    [intros E; discriminate E |].
  rewrite Hrole.
  change (get_prop userModels ROLES.STUDENT) with (Own Student : lookup Model).
  cbv zeta. unfold Schema.create. cbv zeta.
  destruct (negb (Schema.validate Student _)); [intros E; discriminate E |].
  assert (Hex : exists d, In d (students Reference.after_plain) /\
                          Identity.studentId d = Some "26-000010").
  { vm_compute. eexists. split; [right; left; reflexivity | reflexivity]. }
  destruct Hex as (d & Hin & Hsid).
  rewrite (duplicate_same_number Student _ d);
    [intros E; discriminate E | exact Hin |].
  rewrite same_number_of, pre_save_password_number.
  cbn [Schema.pre_validate Schema.pre_save_number Identity.studentId].
  rewrite Hplain. cbn [Schema.number_of Schema.set_studentId Identity.studentId].
  rewrite (generateStudentId_stuck env Hyear), Hsid. reflexivity.
Qed.

End RoundTrip.

(** ** The properties at the sample data *)

Section Samples.
Import Reference AuthService.

#[local] Existing Instance crypto.

Lemma register_login_roundtrip_witness :
  exists (a1 : AuthData) (db' : Db) (a2 : AuthData) (claims : Payload),
    register cfg (env 1000 "64b000000000000000000009") empty student_ab
    = (Ok (Created a1), db') /\
    login cfg (env 2000 "") db' "a@x.com" "secret123" = Ok a2 /\
    verifyToken cfg 3000 (token a2) = Ok claims /\
    p_id claims = UserView.id (user a1) /\
    p_role claims = "student" /\
    UserView.id (user a2) = UserView.id (user a1) /\
    UserView.role (user a2) = "student".
Proof.
  apply (proj1 (register_login_roundtrip (L := reference_laws) cfg)
           (env 1000 "64b000000000000000000009") (env 2000 "") 3000 empty
           student_ab Student).
  - cbn. tauto.
  - reflexivity.
  - vm_compute. reflexivity.
  - reflexivity.
  - reflexivity.
  - vm_compute. reflexivity.
Defined.

Lemma login_failures_witness :
  login cfg (env 2000 "") (store false) "nouser@x.com" "anything"
  = Fail (mkError "Account not found" 404) /\
  login cfg (env 2000 "") (store false) "a@x.com" "wrongpw"
  = Fail (mkError "Incorrect password" 401).
Proof.
  split.
  - apply (login_failures cfg (env 2000 "") (store false) "nouser@x.com" "anything").
    intros m d Hin. destruct m; cbn in Hin; try tauto.
    destruct Hin as [<- | []]. vm_compute. discriminate.
  - destruct (proj1 (proj2 (login_failures cfg (env 2000 "") (store false)
                              "a@x.com" "wrongpw")) Student student1)
      as (u & role & Hf & _ & H401).
    + cbn. tauto.
    + reflexivity.
    + apply H401. vm_compute in Hf. injection Hf as <- _. reflexivity.
Defined.


(** C2, as stated, fails: a reset token that is stored and not expired is
    not enough.  After [deleteUser] has deleted its owner, which leaves the
    token, the first [resetPassword] answers 404 and keeps the token, and so
    does the second. *)
Lemma reset_token_orphan_counterexample :
  let db := snd (AdminController.deleteUser (store false)
                   "64b000000000000000000001") in
  AdminController.deleteUser (store false) "64b000000000000000000001" = (200, db) /\
  ~ (forall (env1 env2 : Env) (raw pw1 pw2 : string) (td : Token.t),
       In td (tokens db) ->
       Token.token td = sha256_hex raw ->
       Token.type td = "password-reset" ->
       Token.isValid (now env1) td = true ->
       exists db' : Db,
         resetPassword env1 db raw pw1 = (Ok "Password reset successful", db') /\
         resetPassword env2 db' raw pw2
         = (Fail (mkError "Invalid or expired reset token" 400), db')) /\
  resetPassword (env 1000 "") db "raw" "newpass1"
  = (Fail (mkError "User not found" 404), db) /\
  resetPassword (env 1500 "") db "raw" "newpass2"
  = (Fail (mkError "User not found" 404), db).
Proof.
  intros db.
  assert (E : resetPassword (env 1000 "") db "raw" "newpass1"
              = (Fail (mkError "User not found" 404), db))
    by (subst db; vm_compute; reflexivity).
  split; [subst db; vm_compute; reflexivity |].
  split; [| split; [exact E | subst db; vm_compute; reflexivity]].
  intros Hall.
  destruct (Hall (env 1000 "") (env 1500 "") "raw" "newpass1" "newpass2"
              (reset_token false)) as (db' & H1 & _).
  - subst db. vm_compute. left. reflexivity.
  - reflexivity.
  - reflexivity.
  - reflexivity.
  - rewrite E in H1. discriminate H1.
Qed.

Lemma reset_token_single_use_witness :
  exists db' : Db,
    resetPassword (env 1000 "") (store false) "raw" "newpass1"
    = (Ok "Password reset successful", db') /\
    (exists u' : Identity.t,
       findUserById db' "64b000000000000000000001" "student"
       = Ok (Some (u', Student)) /\
       bcrypt_compare "newpass1" (Identity.password u') = true) /\
    (forall (env2 : Env) (pw2 : string),
       resetPassword env2 db' "raw" pw2
       = (Fail (mkError "Invalid or expired reset token" 400), db')).
Proof.
  apply (reset_token_single_use (L := reference_laws) (env 1000 "")
           (store false) "raw" "newpass1" (reset_token false) student1 Student).
  - repeat constructor. cbn. tauto.
  - repeat constructor. cbn. tauto.
  - cbn. tauto.
  - reflexivity.
  - reflexivity.
  - reflexivity.
  - reflexivity.
  - vm_compute. reflexivity.
  - left. reflexivity.
Defined.


Lemma protect_context_lacks_permissions_witness :
  Identity.roleType root = Some "super_admin" /\
  fst (AuthMiddleware.protect cfg 20000 store_root (Some ("Bearer " ++ root_token)))
  = Rbac.Next /\
  forall p : string,
    Rbac.requirePermission p
      (snd (AuthMiddleware.protect cfg 20000 store_root
              (Some ("Bearer " ++ root_token))))
    = Rbac.NextErr (mkError ("Insufficient permissions. Required: " ++ p) 403).
Proof.
  assert (Hnext : fst (AuthMiddleware.protect cfg 20000 store_root
                         (Some ("Bearer " ++ root_token))) = Rbac.Next)
    by (vm_compute; reflexivity).
  split; [reflexivity |]. split; [exact Hnext |].
  destruct (protect_context_lacks_permissions cfg 20000 store_root
              (Some ("Bearer " ++ root_token)) Hnext)
    as (u & Hu & _ & _ & _ & Hforbidden).
  rewrite Hu. exact Hforbidden.
Defined.

End Samples.

(* ===================================================================== *)
(** * Further properties of the gates                                     *)
(* ===================================================================== *)

Section MoreGates.
Import Rbac.


(** X1. A minimum role that is none of admin, teacher, student has no rank.
    [requireMinRole] with it calls [next()] for every authenticated request
    when the minimum does not name a member of [Object.prototype] (the
    required level is [undefined]), and for every request whose role does not
    name one either (the three ranked roles among them); when both name such
    a member the gate compares their texts, and answers 403 exactly when the
    text of the role's member precedes the other. *)
Theorem requireMinRole_unranked_minimum_passes (minRole : string)
    (u : gmap string value) :
  minRole <> ROLES.ADMIN -> minRole <> ROLES.TEACHER -> minRole <> ROLES.STUDENT ->
  (~ In minRole object_prototype_keys ->
   requireMinRole minRole (Some u) = Next) /\
  (~ In (to_string (field u "role")) object_prototype_keys ->
   requireMinRole minRole (Some u) = Next) /\
  (In (to_string (field u "role")) object_prototype_keys ->
   In minRole object_prototype_keys ->
   (requireMinRole minRole (Some u) = Next <->
    String.ltb (native_to_string (to_string (field u "role")))
               (native_to_string minRole) = false)).
Proof.
  intros Ha Ht Hs. pose proof (hierarchy_other _ Ha Ht Hs) as Em.
  split; [| split].
  - intros Hn. unfold requireMinRole.
    now rewrite (hierarchy_absent _ Em Hn), less_than_absent_r.
  - intros Hn. unfold requireMinRole.
    destruct (ROLE_HIERARCHY !! to_string (field u "role")) as [x |] eqn:Er.
    + unfold get_prop at 1. rewrite Er. now rewrite (less_than_own_l _ _ Em).
    + now rewrite (hierarchy_absent _ Er Hn).
  - intros Hr Hm.
    assert (Er : ROLE_HIERARCHY !! to_string (field u "role") = None).
    { apply hierarchy_other; intros E; rewrite E in Hr; cbn in Hr;
        repeat (destruct Hr as [Hr | Hr]; [discriminate Hr |]); exact Hr. }
    rewrite (proj2 (requireMinRole_no_rank minRole u Er Em) Hr Hm).
    destruct (String.ltb _ _); split; intros H; first [reflexivity | discriminate H].
Qed.

Lemma requireMinRole_unranked_minimum_passes_witness :
  let u : gmap string value := {[ "role" := VStr "student" ]} in
  requireMinRole "Admin" (Some u) = Next /\
  requireMinRole "toString" (Some u) = Next /\
  requireMinRole "toString" (Some {[ "role" := VStr "constructor" ]}) <> Next.
Proof.
  intros u.
  destruct (requireMinRole_unranked_minimum_passes "Admin" u)
    as (H1 & _); try (vm_compute; discriminate).
  destruct (requireMinRole_unranked_minimum_passes "toString" u)
    as (_ & H2 & _); try (vm_compute; discriminate).
  destruct (requireMinRole_unranked_minimum_passes "toString"
              {[ "role" := VStr "constructor" ]})
    as (_ & _ & H3); try (vm_compute; discriminate).
  split; [| split].
  - apply H1. cbn. intros H; repeat (destruct H as [H | H]; [discriminate H |]);
      exact H.
  - apply H2. cbn. intros H; repeat (destruct H as [H | H]; [discriminate H |]);
      exact H.
  - intros E. apply H3 in E; [| cbn; tauto | cbn; tauto].
    vm_compute in E. discriminate E.
Defined.

(** X2. [requireMinRole('student')] lets every authenticated request
    through, whatever its role member holds. *)
Theorem requireMinRole_student_passes_all (u : gmap string value) :
  requireMinRole ROLES.STUDENT (Some u) = Next.
Proof.
  unfold requireMinRole. set (k := to_string (field u "role")).
  unfold ROLES.STUDENT. rewrite hierarchy_student.
  destruct (String.eqb_spec k "admin") as [-> | Ha];
    [rewrite hierarchy_admin; reflexivity |].
  destruct (String.eqb_spec k "teacher") as [-> | Ht];
    [rewrite hierarchy_teacher; reflexivity |].
  destruct (String.eqb_spec k "student") as [-> | Hs];
    [rewrite hierarchy_student; reflexivity |].
  now rewrite (less_than_not_own _ _ (hierarchy_other _ Ha Ht Hs)).
Qed.

Lemma array_includes_In (l : list value) (p : string) :
  array_includes l p = true <-> In (VStr p) l.
Proof.
  unfold array_includes. rewrite existsb_exists. split.
  - intros (x & Hx & E). destruct x; try discriminate.
    cbn in E. apply String.eqb_eq in E. now subst.
  - intros Hin. exists (VStr p). split; [exact Hin |]. cbn. apply String.eqb_refl.
Qed.

(** X3. For a context that is not a super administrator and whose
    permissions member is an array, [requirePermission(p)] calls [next()]
    exactly when the array holds the string [p], and answers 403 otherwise. *)
Theorem requirePermission_array (p : string) (u : gmap string value)
    (l : list value) :
  is_super_admin u = false ->
  u !! "permissions" = Some (VArr l) ->
  (requirePermission p (Some u) = Next <-> In (VStr p) l) /\
  (~ In (VStr p) l ->
   requirePermission p (Some u)
   = NextErr (mkError ("Insufficient permissions. Required: " ++ p) 403)).
Proof.
  intros Hs Hp. unfold requirePermission.
  rewrite Hs, (field_lookup _ _ _ Hp). cbn [optional_includes truthy].
  pose proof (array_includes_In l p) as Hin.
  destruct (array_includes l p); cbn [negb]; split.
  - split; [intros _; now apply Hin | reflexivity].
  - intros Hn. exfalso. apply Hn. now apply Hin.
  - split; [intros E; discriminate E |].
    intros Hl. apply Hin in Hl. discriminate Hl.
  - reflexivity.
Qed.

Lemma requirePermission_array_witness :
  let u : gmap string value :=
    {[ "role" := VStr "admin"; "roleType" := VStr "custom";
       "permissions" := VArr [VStr "settings"] ]} in
  requirePermission "manage_settings" (Some u)
  = NextErr (mkError "Insufficient permissions. Required: manage_settings" 403).
Proof.
  intros u.
  apply (proj2 (requirePermission_array "manage_settings" u [VStr "settings"]
                  eq_refl eq_refl)).
  cbn. intros [E | []]. discriminate E.
Defined.

Lemma some_normal {A : Type} (f : A -> completion value) (l : list A) :
  (forall x, f x <> TypeError) ->
  exists b, Js.some f l = Normal b /\
            (b = true <-> exists x v, In x l /\ f x = Normal v /\ truthy v = true).
Proof.
  intros Hf. induction l as [| a l (b & Hb & Hiff)].
  - exists false. split; [reflexivity |]. split; [discriminate |].
    intros (x & v & [] & _).
  - cbn [Js.some]. destruct (f a) as [v |] eqn:Ea; [| now apply Hf in Ea].
    destruct (truthy v) eqn:Ev.
    + exists true. split; [reflexivity |]. split; [| reflexivity].
      intros _. exists a, v. cbn. auto.
    + exists b. split; [exact Hb |]. rewrite Hiff. split.
      * intros (x & w & Hin & Hx & Hw). exists x, w. cbn. auto.
      * intros (x & w & [<- | Hin] & Hx & Hw).
        -- rewrite Ea in Hx. injection Hx as <-. congruence.
        -- exists x, w. auto.
Qed.

(** X4. When reading [permissions.includes] cannot throw (the member is
    absent, null, an array or a string), [requireAnyPermission(...ps)] calls
    [next()] exactly when the context is a super administrator or
    [requirePermission(p)] calls [next()] for some [p] of [ps]. *)
Theorem requireAnyPermission_some (ps : list string) (u : gmap string value) :
  (forall p, optional_includes (field u "permissions") p <> TypeError) ->
  (requireAnyPermission ps (Some u) = Next <->
   is_super_admin u = true \/
   exists p, In p ps /\ requirePermission p (Some u) = Next).
Proof.
  intros Hf. unfold requireAnyPermission, requirePermission.
  destruct (is_super_admin u); [split; auto |].
  destruct (some_normal (fun p => optional_includes (field u "permissions") p)
              ps Hf) as (b & Hb & Hiff).
  rewrite Hb. split.
  - intros E. right. destruct b; [| discriminate E].
    destruct (proj1 Hiff eq_refl) as (p & v & Hin & Hp & Hv).
    exists p. split; [exact Hin |]. now rewrite Hp, Hv.
  - intros [E | (p & Hin & Hp)]; [discriminate E |].
    destruct (optional_includes (field u "permissions") p) as [v |] eqn:Ep;
      [| discriminate Hp].
    destruct (truthy v) eqn:Ev; [| discriminate Hp].
    rewrite (proj2 Hiff); [reflexivity |]. exists p, v. auto.
Qed.

Lemma requireAnyPermission_some_witness :
  let u : gmap string value :=
    {[ "role" := VStr "admin"; "permissions" := VArr [VStr "manage_users"] ]} in
  requireAnyPermission ["manage_roles"; "manage_users"] (Some u) = Next.
Proof.
  intros u.
  apply (requireAnyPermission_some ["manage_roles"; "manage_users"] u).
  - intros p. vm_compute. discriminate.
  - right. exists "manage_users". split; [cbn; auto | reflexivity].
Defined.

End MoreGates.

(* ===================================================================== *)
(** * Further properties of the service                                   *)
(* ===================================================================== *)

Section Sessions.
Context {C : Crypto} {L : CryptoLaws C}.
Variable cfg : Config.
Import AuthService.

Lemma verifyToken_generateToken (t0 clock : Z) (id role : string) :
  (clock / 1000 < t0 / 1000 + expiresIn cfg ->
   verifyToken cfg clock (generateToken cfg t0 id role)
   = Ok (mkPayload id role (t0 / 1000) (t0 / 1000 + expiresIn cfg))) /\
  (t0 / 1000 + expiresIn cfg <= clock / 1000 ->
   verifyToken cfg clock (generateToken cfg t0 id role)
   = Fail (mkError "Invalid token" 401)).
Proof.
  unfold verifyToken, generateToken. rewrite jwt_decode_encode. cbn [exp].
  split; intros H;
    destruct (Z.leb_spec (t0 / 1000 + expiresIn cfg) (clock / 1000));
    try reflexivity; lia.
Qed.

(** X5. A session token issued at clock reading [t0] is accepted by
    [verifyToken] at every clock reading whose second precedes
    [t0 / 1000 + expiresIn], with the id and role it was issued for, and is
    refused with 401 from that second on. *)
Theorem session_token_window (t0 clock : Z) (id role : string) :
  (clock / 1000 < t0 / 1000 + expiresIn cfg ->
   verifyToken cfg clock (generateToken cfg t0 id role)
   = Ok (mkPayload id role (t0 / 1000) (t0 / 1000 + expiresIn cfg))) /\
  (t0 / 1000 + expiresIn cfg <= clock / 1000 ->
   verifyToken cfg clock (generateToken cfg t0 id role)
   = Fail (mkError "Invalid token" 401)).
Proof. exact (verifyToken_generateToken t0 clock id role). Qed.

Lemma findUserByEmail_member (db : Db) (email role : string) (u : Identity.t) :
  findUserByEmail db email = Some (u, role) ->
  exists m, In (role, m) userModels_entries /\ In u (collection m db) /\
            Identity.email u = Schema.cast_email email.
Proof.
  unfold findUserByEmail, userModels_entries. cbn [findUserByEmail_from].
  intros E.
  repeat match type of E with
         | match ?x with _ => _ end = _ =>
             let Ex := fresh "Ex" in
             destruct x eqn:Ex;
             [ injection E as <- <-;
               apply List.find_some in Ex as [Hin Ex];
               apply String.eqb_eq in Ex;
               eexists; split; [cbn; eauto | split; [exact Hin | exact Ex]] |]
         end.
  discriminate E.
Qed.

Lemma findById_member (c : list Identity.t) (u : Identity.t) :
  In u c -> exists u0, Schema.findOne_id c (Identity._id u) = Some u0 /\
                       Identity._id u0 = Identity._id u.
Proof.
  intros Hin. unfold Schema.findOne_id.
  destruct (List.find _ c) as [u0 |] eqn:E.
  - exists u0. split; [reflexivity |].
    apply List.find_some in E as [_ E]. now apply oid_eqb_eq in E.
  - pose proof (find_none_inv _ _ u E Hin) as Hf. cbn in Hf.
    rewrite String.eqb_refl in Hf. discriminate Hf.
Qed.

(** X6. A token that [login] returned can be refreshed until it expires;
    the new token carries the same id and role and is accepted until
    [expiresIn] seconds after the refresh. *)
Theorem login_then_refresh (env1 env2 : Env) (clock : Z) (db : Db)
    (email pw : string) (a1 : AuthData) :
  login cfg env1 db email pw = Ok a1 ->
  now env2 / 1000 < now env1 / 1000 + expiresIn cfg ->
  clock / 1000 < now env2 / 1000 + expiresIn cfg ->
  exists (a2 : AuthData) (claims : Payload),
    refreshToken cfg env2 db (token a1) = Ok a2 /\
    verifyToken cfg clock (token a2) = Ok claims /\
    p_id claims = UserView.id (user a1) /\
    p_role claims = UserView.role (user a1) /\
    exp claims = now env2 / 1000 + expiresIn cfg.
Proof.
  unfold login. intros Hlogin H2 Hc.
  destruct (findUserByEmail db email) as [[u role] |] eqn:Ef; [| discriminate].
  destruct (negb (bcrypt_compare pw (Identity.password u))); [discriminate |].
  injection Hlogin as <-. cbn [token user UserView.id UserView.role view].
  destruct (findUserByEmail_member _ _ _ _ Ef) as (m & Hrole & Hin & _).
  destruct (findById_member _ _ Hin) as (u0 & Hu0 & Hid).
  unfold refreshToken.
  rewrite (proj1 (verifyToken_generateToken (now env1) (now env2) _ _) H2).
  cbn [p_id p_role]. rewrite findUserById_hex.
  rewrite (user_model_of_role _ _ Hrole), Hu0. cbn [option_map].
  eexists _, _. split; [reflexivity |]. cbn [token]. rewrite Hid.
  rewrite (proj1 (verifyToken_generateToken (now env2) clock _ _) Hc).
  repeat split; reflexivity.
Qed.

(** X7. [refreshToken] refuses an expired token with 401.  A token that
    still verifies is refused with 404 when its id is the text of an
    ObjectId that no stored identity of the role of the token has; when its
    id is the text of no ObjectId and its role names a model, the lookup
    raises a [CastError], which the wrapped handler answers with 400. *)
Theorem refreshToken_refusals (env : Env) (db : Db) (t0 : Z) (id role : string) :
  (t0 / 1000 + expiresIn cfg <= now env / 1000 ->
   refreshToken cfg env db (generateToken cfg t0 id role)
   = Fail (mkError "Invalid token" 401)) /\
  (now env / 1000 < t0 / 1000 + expiresIn cfg ->
   (forall m, In (role, m) userModels_entries ->
              Schema.findById (collection m db) id = Ok None) ->
   ~ In role object_prototype_keys ->
   refreshToken cfg env db (generateToken cfg t0 id role)
   = Fail (mkError "User not found" 404)) /\
  (now env / 1000 < t0 / 1000 + expiresIn cfg ->
   forall m, In (role, m) userModels_entries ->
   ObjectId.cast id = None ->
   refreshToken cfg env db (generateToken cfg t0 id role) = Crash CastError /\
   ErrorPipeline.respond 200
     (refreshToken cfg env db (generateToken cfg t0 id role)) = 400).
Proof.
  split; [| split].
  - intros H. unfold refreshToken.
    now rewrite (proj2 (verifyToken_generateToken t0 (now env) id role) H).
  - intros H Hnone Hproto. unfold refreshToken.
    rewrite (proj1 (verifyToken_generateToken t0 (now env) id role) H).
    cbn [p_id p_role]. unfold findUserById, get_prop.
    destruct (userModels !! role) as [m |] eqn:Em.
    + assert (Hin : In (role, m) userModels_entries).
      { unfold userModels in Em. apply elem_of_list_to_map_2 in Em.
        now apply list_elem_of_In. }
      now rewrite (Hnone m Hin).
    + rewrite bool_decide_eq_false_2; [reflexivity |].
      now rewrite list_elem_of_In.
  - intros H m Hin Hcast.
    assert (E : refreshToken cfg env db (generateToken cfg t0 id role)
                = Crash CastError).
    { unfold refreshToken.
      rewrite (proj1 (verifyToken_generateToken t0 (now env) id role) H).
      cbn [p_id p_role]. unfold findUserById.
      rewrite (user_model_of_role _ _ Hin). unfold Schema.findById.
      now rewrite Hcast. }
    split; [exact E |]. now rewrite E.
Qed.

End Sessions.

Section PasswordReset.
Context {C : Crypto} {L : CryptoLaws C}.
Import AuthService.

Lemma token_create_ok (ts : list Token.t) (d : Token.t) :
  TokenSchema.validate d = true ->
  TokenSchema.duplicate ts (TokenSchema.pre_save true d) = false ->
  TokenSchema.create ts d
  = (Ok (TokenSchema.pre_save true d), (ts ++ [TokenSchema.pre_save true d])%list).
Proof.
  intros Hv Hd. unfold TokenSchema.create. now rewrite Hv, Hd.
Qed.

Lemma model_name_lower (role : string) (m : Model) :
  In (role, m) userModels_entries -> toLowerCase (modelName m) = role.
Proof.
  cbn [userModels_entries In].
  intros [E | [E | [E | []]]]; inversion E; subst; reflexivity.
Qed.

Lemma owner_model_name (role : string) (m : Model) :
  In (role, m) userModels_entries -> ownerModelName role = modelName m.
Proof.
  intros Hin. unfold ownerModelName. now rewrite (user_model_of_role _ _ Hin).
Qed.

Lemma fresh_not_duplicate (ts : list Token.t) (d : Token.t) :
  (forall x, In x ts -> Token._id x <> Token._id d /\ Token.token x <> Token.token d) ->
  TokenSchema.duplicate ts d = false.
Proof.
  intros Hf. apply existsb_false_all. intros x Hx.
  destruct (Hf x Hx) as [Hi Ht].
  apply oid_eqb_neq in Hi. apply String.eqb_neq in Ht. now rewrite Hi, Ht.
Qed.

(** What [forgotPassword] stores for a known email. *)
Lemma forgotPassword_known (env : Env) (db : Db)
    (email ip ua raw : string) (mailError : option string)
    (u : Identity.t) (role : string) (m : Model) :
  findUserByEmail db email = Some (u, role) ->
  In (role, m) userModels_entries ->
  raw <> "" -> ip <> "" ->
  (forall d, In d (tokens db) ->
             Token._id d <> newId env /\ Token.token d <> sha256_hex raw) ->
  forgotPassword env db email ip ua raw mailError
  = (match mailError with
     | None => Ok "Password reset email sent"
     | Some msg => Fail (mkError ("Failed to send email: " ++ msg) 500)
     end,
     set_tokens
       (tokens db ++
        [Token.mk (newId env) (Identity._id u) (modelName m) (sha256_hex raw)
           "password-reset" (now env + 60 * 60 * 1000) false ip ua])%list db).
Proof.
  intros Hf Hrole Hraw Hip Hfresh.
  unfold forgotPassword. rewrite Hf, (owner_model_name _ _ Hrole).
  rewrite token_create_ok.
  - cbn [TokenSchema.pre_save Token._id Token.user Token.userModel Token.token
         Token.type Token.expiresAt Token.used Token.ipAddress Token.userAgent].
    now destruct mailError.
  - unfold TokenSchema.validate.
    cbn [Token.userModel Token.token Token.type Token.ipAddress].
    apply String.eqb_neq in Hraw, Hip. unfold Schema.nonempty.
    rewrite Hraw, Hip. now destruct m.
  - apply fresh_not_duplicate. exact Hfresh.
Qed.

(** X8. For a known email, [forgotPassword] stores one new token holding
    the digest of the raw secret (never the secret), owned by the identity
    found, unused and expiring 60 minutes later.  It does so even when the
    mail cannot be sent, in which case it fails with 500. *)
Theorem forgotPassword_stores_digest (env : Env) (db : Db)
    (email ip ua raw : string) (mailError : option string)
    (u : Identity.t) (role : string) :
  findUserByEmail db email = Some (u, role) ->
  raw <> "" -> ip <> "" ->
  (forall d, In d (tokens db) ->
             Token._id d <> newId env /\ Token.token d <> sha256_hex raw) ->
  exists m : Model,
    In (role, m) userModels_entries /\
    forgotPassword env db email ip ua raw mailError
    = (match mailError with
       | None => Ok "Password reset email sent"
       | Some msg => Fail (mkError ("Failed to send email: " ++ msg) 500)
       end,
       set_tokens
         (tokens db ++
          [Token.mk (newId env) (Identity._id u) (modelName m) (sha256_hex raw)
             "password-reset" (now env + 60 * 60 * 1000) false ip ua])%list db).
Proof.
  intros Hf Hraw Hip Hfresh.
  destruct (findUserByEmail_member _ _ _ _ Hf) as (m & Hrole & _ & _).
  exists m. split; [exact Hrole |].
  now apply (forgotPassword_known env db email ip ua raw mailError u role m).
Qed.

Lemma resetPassword_success (env : Env) (db : Db) (raw pw : string)
    (td : Token.t) (u : Identity.t) (m : Model) :
  List.NoDup (List.map Token.token (tokens db)) ->
  In td (tokens db) ->
  Token.token td = sha256_hex raw ->
  Token.type td = "password-reset" ->
  now env < Token.expiresAt td ->
  findUserById db (Token.user td) (toLowerCase (Token.userModel td))
  = Ok (Some (u, m)) ->
  Schema.validate m u = true ->
  Schema.numbered m u = true \/
  Schema.number_free m env db (Identity.studentId u) (Identity.employeeId u)
  = true ->
  resetPassword env db raw pw
  = (Ok "Password reset successful",
     set_tokens (Token.deleteOne (tokens db) (Token._id td))
       (set_collection m
          (Schema.replace (collection m db)
             (Schema.pre_save_number m env db
                (Schema.set_password u (bcrypt_hash pw (salt env))))) db)).
Proof.
  intros Htk Hin Hdig Hty Hexp Hown Hvalid Hnum.
  assert (Hfound : Token.findOne (tokens db) (sha256_hex raw) "password-reset"
                     (now env) = Some td).
  { unfold Token.findOne. apply (find_unique Token.token); try assumption.
    - rewrite Hdig, Hty, !String.eqb_refl. cbn [andb]. now apply Z.ltb_lt.
    - intros y Hy. apply andb_prop in Hy as [Hy _]. apply andb_prop in Hy as [Hy _].
      apply String.eqb_eq in Hy. congruence. }
  unfold resetPassword. rewrite Hfound, Hown.
  rewrite (save_password_ok m env db u pw Hvalid Hnum).
  now rewrite tokens_set_collection.
Qed.

Lemma deleteOne_snoc (ts : list Token.t) (d : Token.t) :
  (forall x, In x ts -> Token._id x <> Token._id d) ->
  Token.deleteOne (ts ++ [d]) (Token._id d) = ts.
Proof.
  induction ts as [| a ts IH]; intros Hf; cbn.
  - now rewrite String.eqb_refl.
  - assert (Ha : Token._id a <> Token._id d) by (apply Hf; now left).
    apply oid_eqb_neq in Ha. rewrite Ha. f_equal. apply IH.
    intros x Hx. apply Hf. now right.
Qed.

Lemma NoDup_map_snoc {A B : Type} (f : A -> B) (l : list A) (x : A) :
  List.NoDup (List.map f l) -> (forall y, In y l -> f y <> f x) ->
  List.NoDup (List.map f (l ++ [x])).
Proof.
  intros Hnd Hf. induction l as [| a l IH]; cbn.
  - constructor; [intros [] | constructor].
  - cbn in Hnd. apply List.NoDup_cons_iff in Hnd as [Hna Hnd].
    constructor.
    + rewrite List.map_app, List.in_app_iff. intros [Hin | [E | []]].
      * now apply Hna.
      * apply (Hf a); [now left | now symmetry].
    + apply IH; [exact Hnd |]. intros y Hy. apply Hf. now right.
Qed.

Lemma findOne_email_replace (c : list Identity.t) (email : string)
    (u u' : Identity.t) :
  Schema.findOne_email c email = Some u ->
  Schema.findOne_id c (Identity._id u) = Some u ->
  Identity._id u' = Identity._id u ->
  Identity.email u' = Identity.email u ->
  Schema.findOne_email (Schema.replace c u') email = Some u'.
Proof.
  unfold Schema.findOne_email, Schema.findOne_id. intros He Hi Eid Eem.
  assert (Hu : (Identity.email u =? Schema.cast_email email)%string = true).
  { apply List.find_some in He as [_ He]. exact He. }
  induction c as [| a c IH]; [discriminate He |].
  cbn in He, Hi |- *. rewrite Eid.
  destruct (Identity._id a =? Identity._id u)%string eqn:Ea.
  - cbn. now rewrite Eem, Hu.
  - cbn. destruct (Identity.email a =? Schema.cast_email email)%string eqn:Em.
    + injection He as ->. rewrite String.eqb_refl in Ea. discriminate Ea.
    + now apply IH.
Qed.

Lemma findUserByEmail_replace (db : Db) (email role : string) (m : Model)
    (u u' : Identity.t) :
  findUserByEmail db email = Some (u, role) ->
  In (role, m) userModels_entries ->
  Schema.findOne_id (collection m db) (Identity._id u) = Some u ->
  Identity._id u' = Identity._id u ->
  Identity.email u' = Identity.email u ->
  findUserByEmail (set_collection m (Schema.replace (collection m db) u') db) email
  = Some (u', role).
Proof.
  intros Hf Hrole Hi Eid Eem.
  unfold findUserByEmail, userModels_entries in Hf |- *.
  cbn [findUserByEmail_from] in Hf |- *.
  cbn [userModels_entries In] in Hrole.
  destruct Hrole as [E | [E | [E | []]]]; inversion E; subst; clear E;
    cbn [collection set_collection admins teachers students] in Hi |- *;
    cbn [collection] in Hf.
  - destruct (Schema.findOne_email (admins db) email) as [a |] eqn:Ea.
    + injection Hf as ->. now rewrite (findOne_email_replace _ _ _ u' Ea Hi Eid Eem).
    + destruct (Schema.findOne_email (teachers db) email);
        [inversion Hf |].
      destruct (Schema.findOne_email (students db) email); inversion Hf.
  - destruct (Schema.findOne_email (admins db) email) as [a |] eqn:Ea;
      [inversion Hf |].
    destruct (Schema.findOne_email (teachers db) email) as [t |] eqn:Et.
    + injection Hf as ->. now rewrite (findOne_email_replace _ _ _ u' Et Hi Eid Eem).
    + destruct (Schema.findOne_email (students db) email); inversion Hf.
  - destruct (Schema.findOne_email (admins db) email) as [a |] eqn:Ea;
      [inversion Hf |].
    destruct (Schema.findOne_email (teachers db) email) as [t |] eqn:Et;
      [inversion Hf |].
    destruct (Schema.findOne_email (students db) email) as [st |] eqn:Es;
      [| discriminate Hf].
    injection Hf as ->. now rewrite (findOne_email_replace _ _ _ u' Es Hi Eid Eem).
Qed.

Variable cfg : Config.

(** X9. Forgot, reset, login: for a stored, schema-valid identity that has
    the number of its schema (a student its [studentId], a teacher its
    [employeeId]) or can be given the next one ([save] generates it and the
    unique index must not hold it), a request made with a fresh raw secret,
    followed within 60 minutes by [resetPassword] with that secret,
    succeeds; afterwards [login] with the new password succeeds for the same
    identity, and the token store is back to what it was. *)
Theorem forgot_reset_login (env1 env2 env3 : Env) (db : Db)
    (email ip ua raw newPw : string) (u : Identity.t) (role : string)
    (m : Model) :
  findUserByEmail db email = Some (u, role) ->
  In (role, m) userModels_entries ->
  Schema.findById (collection m db) (Identity._id u) = Ok (Some u) ->
  Schema.validate m u = true ->
  Schema.numbered m u = true \/
  Schema.number_free m env2 db (Identity.studentId u) (Identity.employeeId u)
  = true ->
  List.NoDup (List.map Token.token (tokens db)) ->
  raw <> "" -> ip <> "" ->
  (forall d, In d (tokens db) ->
             Token._id d <> newId env1 /\ Token.token d <> sha256_hex raw) ->
  now env2 < now env1 + 60 * 60 * 1000 ->
  exists (db1 db2 : Db) (a : AuthData),
    forgotPassword env1 db email ip ua raw None
    = (Ok "Password reset email sent", db1) /\
    resetPassword env2 db1 raw newPw = (Ok "Password reset successful", db2) /\
    login cfg env3 db2 email newPw = Ok a /\
    UserView.id (user a) = Identity._id u /\
    UserView.role (user a) = role /\
    tokens db2 = tokens db.
Proof.
  intros Hf Hrole Hi Hvalid Hnum Hnd Hraw Hip Hfresh Htime.
  rewrite findById_hex in Hi. injection Hi as Hi.
  set (doc := Token.mk (newId env1) (Identity._id u) (modelName m)
                (sha256_hex raw) "password-reset" (now env1 + 60 * 60 * 1000)
                false ip ua).
  set (db1 := set_tokens (tokens db ++ [doc])%list db).
  set (u' := Schema.pre_save_number m env2 db1
               (Schema.set_password u (bcrypt_hash newPw (salt env2)))).
  destruct (saved_identity m env2 db1 u (bcrypt_hash newPw (salt env2)))
    as (Hid' & Hem' & Hpw' & _). fold u' in Hid', Hem', Hpw'.
  assert (Hreset : resetPassword env2 db1 raw newPw
                   = (Ok "Password reset successful",
                      set_tokens (Token.deleteOne (tokens db1) (Token._id doc))
                        (set_collection m (Schema.replace (collection m db1) u') db1))).
  { apply (resetPassword_success env2 db1 raw newPw doc u m).
    - subst db1. cbn [tokens set_tokens]. apply NoDup_map_snoc; [exact Hnd |].
      intros y Hy. subst doc. cbn. now apply Hfresh.
    - subst db1. cbn [tokens set_tokens]. apply List.in_or_app. right. now left.
    - reflexivity.
    - reflexivity.
    - exact Htime.
    - subst doc. cbn [Token.user Token.userModel].
      rewrite (model_name_lower _ _ Hrole), findUserById_hex.
      rewrite (user_model_of_role _ _ Hrole).
      subst db1. rewrite collection_set_tokens, Hi. reflexivity.
    - exact Hvalid.
    - destruct Hnum as [Hnum | Hnum]; [now left | right].
      rewrite <- Hnum. subst db1. now destruct m. }
  eexists db1, _, _. split; [| split; [exact Hreset |]].
  - now apply (forgotPassword_known env1 db email ip ua raw None u role m).
  - assert (Hfind : findUserByEmail
                      (set_tokens (Token.deleteOne (tokens db1) (Token._id doc))
                         (set_collection m (Schema.replace (collection m db1) u') db1))
                      email = Some (u', role)).
    { subst db1. rewrite collection_set_tokens.
      rewrite <- (findUserByEmail_replace db email role m u u' Hf Hrole Hi
                    Hid' Hem').
      unfold findUserByEmail, userModels_entries.
      cbn [findUserByEmail_from]. rewrite !collection_set_tokens.
      destruct m; reflexivity. }
    unfold login. rewrite Hfind, Hpw'.
    rewrite bcrypt_compare_hash. cbn [negb].
    split; [reflexivity |]. split; [cbn; now rewrite Hid' |].
    split; [reflexivity |].
    cbn [tokens set_tokens]. subst db1 doc. cbn [tokens set_tokens].
    apply (deleteOne_snoc (tokens db)
             (Token.mk (newId env1) (Identity._id u) (modelName m)
                (sha256_hex raw) "password-reset" (now env1 + 60 * 60 * 1000)
                false ip ua)).
    intros x Hx. cbn. now apply Hfresh.
Qed.

(** X10. The token stored by [forgotPassword] is refused by
    [resetPassword] from 60 minutes after the request on, the instant of
    expiry included, with 400 and no change of the store. *)
Theorem forgot_token_expires (env1 env2 : Env) (db : Db)
    (email ip ua raw newPw : string) (u : Identity.t) (role : string) :
  findUserByEmail db email = Some (u, role) ->
  raw <> "" -> ip <> "" ->
  (forall d, In d (tokens db) ->
             Token._id d <> newId env1 /\ Token.token d <> sha256_hex raw) ->
  now env1 + 60 * 60 * 1000 <= now env2 ->
  exists db1 : Db,
    forgotPassword env1 db email ip ua raw None
    = (Ok "Password reset email sent", db1) /\
    resetPassword env2 db1 raw newPw
    = (Fail (mkError "Invalid or expired reset token" 400), db1).
Proof.
  intros Hf Hraw Hip Hfresh Htime.
  destruct (findUserByEmail_member _ _ _ _ Hf) as (m & Hrole & _ & _).
  eexists. split.
  - now apply (forgotPassword_known env1 db email ip ua raw None u role m).
  - apply resetPassword_expired. intros d Hd Hdig.
    cbn [tokens set_tokens] in Hd. apply List.in_app_or in Hd as [Hd | [<- | []]].
    + now destruct (Hfresh d Hd).
    + exact Htime.
Qed.

End PasswordReset.

Section StoreInvariants.
Context {C : Crypto}.
Import AuthService.






Lemma NoDup_insert {A : Type} (l1 l2 : list A) (x : A) :
  List.NoDup (l1 ++ l2) -> ~ In x (l1 ++ l2) -> List.NoDup (l1 ++ x :: l2).
Proof.
  intros Hnd Hx.
  apply (Permutation.Permutation_NoDup (Permutation.Permutation_middle l1 l2 x)).
  now constructor.
Qed.

Lemma created_document_email (m : Model) (env : Env) (db : Db)
    (d : Identity.t) :
  Identity.email
    (Schema.pre_save_password (hookSalt env) true
       (Schema.pre_save_number m env db (Schema.pre_validate m d)))
  = Identity.email d.
Proof.
  unfold Schema.pre_save_password. cbn [negb].
  destruct (pre_save_number_fields m env db (Schema.pre_validate m d))
    as (_ & He & _).
  destruct (_ && _); cbn [Schema.set_password Identity.email]; rewrite He;
    destruct m; reflexivity.
Qed.

(** X12. [register] keeps the emails of the three collections pairwise
    distinct: when no email is stored twice, in one collection or across
    two, none is after [register], whatever its outcome. *)
Theorem register_keeps_emails_unique (cfg : Config) (env : Env) (db : Db)
    (r : Registration) :
  List.NoDup (List.map Identity.email (admins db ++ teachers db ++ students db)) ->
  let db' := snd (register cfg env db r) in
  List.NoDup (List.map Identity.email (admins db' ++ teachers db' ++ students db')).
Proof.
  intros Hnd. unfold register.
  destruct (findUserByEmail db (r_email r)) as [found |] eqn:Hf; [exact Hnd |].
  destruct (get_prop userModels (r_role r)) as [m | k |];
    [| destruct (k =? "constructor")%string; exact Hnd | exact Hnd].
  unfold Schema.create. cbv zeta.
  destruct (negb (Schema.validate m _)); [exact Hnd |].
  destruct (Schema.duplicate _ _ _); [exact Hnd |].
  cbn [snd]. set (doc := Schema.pre_save_password _ _ _).
  assert (Hem : Identity.email doc = Schema.cast_email (r_email r)).
  { subst doc. now rewrite created_document_email. }
  assert (Hnew : ~ In (Identity.email doc)
                   (List.map Identity.email
                      (admins db ++ teachers db ++ students db))).
  { rewrite Hem, List.in_map_iff. intros (d & Hd & Hin).
    assert (exists m', In d (collection m' db)) as (m' & Hm').
    { apply List.in_app_or in Hin as [Hin | Hin]; [now exists Admin |].
      apply List.in_app_or in Hin as [Hin | Hin];
        [now exists Teacher | now exists Student]. }
    pose proof (find_none_inv _ _ d (findUserByEmail_none db _ m' Hf) Hm') as Hx.
    cbn in Hx. rewrite Hd, String.eqb_refl in Hx. discriminate Hx. }
  rewrite !List.map_app in Hnd, Hnew.
  destruct m; cbn [set_collection admins teachers students collection];
    rewrite !List.map_app; cbn [List.map].
  - rewrite <- List.app_assoc. cbn [app]. now apply NoDup_insert.
  - rewrite <- List.app_assoc. cbn [app].
    rewrite List.app_assoc. rewrite List.app_assoc in Hnd, Hnew.
    now apply NoDup_insert.
  - rewrite !List.app_assoc. rewrite !List.app_assoc in Hnd, Hnew.
    replace (Identity.email doc :: []) with (Identity.email doc :: [] ++ [])
      by reflexivity.
    apply NoDup_insert; now rewrite List.app_nil_r.
Qed.

End StoreInvariants.

(* ===================================================================== *)
(** * Further properties of the schema hooks                              *)
(* ===================================================================== *)

Section Hooks.
Import AdminModel.

Lemma looks_hashed_nonempty (s : string) :
  looks_hashed s = true -> Schema.nonempty s = true.
Proof. destruct s; [intros E; discriminate E | reflexivity]. Qed.

(** X13. The password hook of [pre('save')] leaves a document whose
    password has the form of a bcrypt hash ([$2a$], [$2b$], [$2y$]) as it
    is; it hashes any other password so that it verifies; what it returns
    has a password of that form, and it is idempotent: running it again, on
    a later save, changes nothing. *)
Theorem password_hook_idempotent {C : Crypto} {L : CryptoLaws C}
    (s1 s2 : string) (b : bool) (d : Identity.t) :
  (looks_hashed (Identity.password d) = true ->
   Schema.pre_save_password s1 b d = d) /\
  looks_hashed (Identity.password (Schema.pre_save_password s1 true d)) = true /\
  Schema.pre_save_password s2 b (Schema.pre_save_password s1 true d)
  = Schema.pre_save_password s1 true d /\
  (looks_hashed (Identity.password d) = false ->
   Schema.pre_save_password s1 true d
   = Schema.set_password d (bcrypt_hash (Identity.password d) s1) /\
   bcrypt_compare (Identity.password d)
     (Identity.password (Schema.pre_save_password s1 true d)) = true).
Proof.
  split.
  { intros El. unfold Schema.pre_save_password.
    rewrite (looks_hashed_nonempty _ El), El. now destruct b. }
  unfold Schema.pre_save_password. cbn [negb].
  destruct (Schema.nonempty (Identity.password d)
            && looks_hashed (Identity.password d)) eqn:E.
  - apply andb_prop in E as [En El]. split; [exact El |]. split.
    + destruct b; cbn [negb]; [| reflexivity]. now rewrite En, El.
    + intros Hf. congruence.
  - cbn [Schema.set_password Identity.password].
    split; [apply bcrypt_hash_format |]. split.
    + destruct b; cbn [negb]; [| reflexivity].
      now rewrite (hash_nonempty (L := L)), bcrypt_hash_format.
    + intros _. split; [reflexivity | apply bcrypt_compare_hash].
Qed.

Lemma canonical_truthy (c : string) :
  In c permission_values -> truthy (VStr c) = true.
Proof.
  cbn. intros H. repeat (destruct H as [<- | H]; [reflexivity |]). destruct H.
Qed.

Lemma canonical_lower (c : string) :
  In c permission_values -> toLowerCase c = c.
Proof.
  cbn. intros H. repeat (destruct H as [<- | H]; [reflexivity |]). destruct H.
Qed.

Lemma alias_lookup_In (key c : string) :
  PERMISSION_ALIASES !! key = Some c -> In (key, c) alias_entries.
Proof.
  unfold PERMISSION_ALIASES. intros E.
  apply elem_of_list_to_map_2 in E. now apply list_elem_of_In.
Qed.

Lemma native_fixed (k : string) :
  In k object_prototype_keys -> normalizePermission (VNative k) = VNative k.
Proof.
  cbn. intros H. repeat (destruct H as [<- | H]; [reflexivity |]). destruct H.
Qed.

Lemma native_invalid (k : string) :
  In k object_prototype_keys ->
  permission_valid (to_string (VNative k)) = false.
Proof.
  cbn [object_prototype_keys In]. intros H.
  repeat (destruct H as [<- | H]; [reflexivity |]). destruct H.
Qed.

(** The four ways [normalizePermission] can go. *)
Lemma normalizePermission_cases (v : value) :
  (normalizePermission v = v /\
   (truthy v = false \/
    (~ In (toLowerCase (to_string v)) permission_values /\
     PERMISSION_ALIASES !! toLowerCase (to_string v) = None /\
     ~ In (toLowerCase (to_string v)) object_prototype_keys))) \/
  (truthy v = true /\ In (toLowerCase (to_string v)) permission_values /\
   normalizePermission v = VStr (toLowerCase (to_string v))) \/
  (truthy v = true /\ ~ In (toLowerCase (to_string v)) permission_values /\
   exists c, In (toLowerCase (to_string v), c) alias_entries /\
             In c permission_values /\ normalizePermission v = VStr c) \/
  (truthy v = true /\ ~ In (toLowerCase (to_string v)) permission_values /\
   PERMISSION_ALIASES !! toLowerCase (to_string v) = None /\
   In (toLowerCase (to_string v)) object_prototype_keys /\
   normalizePermission v = VNative (toLowerCase (to_string v))).
Proof.
  unfold normalizePermission.
  destruct (truthy v) eqn:Ht; cbn [negb]; [| left; auto].
  set (key := toLowerCase (to_string v)).
  destruct (existsb (String.eqb key) permission_values) eqn:Ec.
  - right. left. apply existsb_eqb_In in Ec. auto.
  - assert (Hc : ~ In key permission_values).
    { intros Hin. apply existsb_eqb_In in Hin. congruence. }
    unfold get_prop. destruct (PERMISSION_ALIASES !! key) as [c |] eqn:Ea.
    + right. right. left. pose proof (alias_lookup_In _ _ Ea) as Hin.
      destruct (normalizePermission_alias _ _ Hin) as [_ Hcv].
      cbn [alias_value]. rewrite (canonical_truthy _ Hcv).
      split; [reflexivity |]. split; [exact Hc |]. exists c. auto.
    + destruct (bool_decide (key ∈ object_prototype_keys)) eqn:Ep.
      * right. right. right. apply bool_decide_eq_true_1 in Ep.
        apply list_elem_of_In in Ep. cbn [alias_value truthy]. auto 6.
      * left. apply bool_decide_eq_false_1 in Ep. rewrite list_elem_of_In in Ep.
        cbn [alias_value truthy]. auto 6.
Qed.

(** X14. [normalizePermission] is idempotent on every value: what it
    returns, it returns unchanged when applied again. *)
Theorem normalizePermission_idempotent (v : value) :
  normalizePermission (normalizePermission v) = normalizePermission v.
Proof.
  destruct (normalizePermission_cases v)
    as [[E _] | [(_ & Hc & E) | [(_ & _ & c & _ & Hc & E) | (_ & _ & _ & Hk & E)]]];
    rewrite E.
  - exact E.
  - now apply normalizePermission_canonical.
  - now apply normalizePermission_canonical.
  - now apply native_fixed.
Qed.

(** X15. Recognition ignores case: a string whose lower-case form is an
    enumerated permission is mapped to that lower-case form, and one whose
    lower-case form is an alias is mapped to the canonical value of the
    alias. *)
Theorem normalizePermission_ignores_case (s : string) :
  (In (toLowerCase s) permission_values ->
   normalizePermission (VStr s) = VStr (toLowerCase s)) /\
  (forall c, In (toLowerCase s, c) alias_entries ->
             normalizePermission (VStr s) = VStr c).
Proof.
  split.
  - intros Hin.
    destruct (normalizePermission_cases (VStr s))
      as [[_ [Ht | (Hn & _)]] | [(_ & _ & E) | [(_ & Hn & _) | (_ & Hn & _)]]];
      cbn [to_string] in *; try contradiction; [| exact E].
    cbn in Ht. apply negb_false_iff, String.eqb_eq in Ht. subst s.
    apply canonical_truthy in Hin. discriminate Hin.
  - intros c Hin.
    assert (Hs : s <> "").
    { intros ->. cbn in Hin.
      repeat (destruct Hin as [Hin | Hin]; [discriminate Hin |]). destruct Hin. }
    unfold normalizePermission. cbn [truthy to_string].
    apply String.eqb_neq in Hs. rewrite Hs. cbn [negb].
    cbn [alias_entries In] in Hin.
    repeat (destruct Hin as [Hin | Hin];
            [injection Hin as Hk Hc; rewrite <- Hk, <- Hc; reflexivity |]).
    destruct Hin.
Qed.

Lemma element_accepted (p : string) :
  forallb permission_valid
    (List.map to_string (List.filter truthy [normalizePermission (VStr p)]))
  = true <->
  (p = "" \/ In (toLowerCase p) permission_values \/
   In (toLowerCase p) (List.map fst alias_entries)).
Proof.
  destruct (normalizePermission_cases (VStr p))
    as [[E [Ht | (Hc & Ha & Hp)]]
       | [(Ht & Hc & E) | [(Ht & Hn & c & Ha & Hc & E) | (Ht & Hn & Ha & Hk & E)]]];
    cbn [to_string] in *; rewrite E; cbn [List.filter].
  - rewrite Ht. cbn. split; [intros _ | reflexivity].
    left. cbn in Ht. now apply negb_false_iff, String.eqb_eq in Ht.
  - destruct (truthy (VStr p)) eqn:Ht.
    + cbn [List.map to_string forallb]. rewrite andb_true_r. split.
      * intros Hv. apply existsb_eqb_In in Hv.
        exfalso. apply Hc. now rewrite (canonical_lower _ Hv).
      * intros [-> | [H | H]]; [discriminate Ht | contradiction |].
        exfalso. apply list_elem_of_In in H.
        now apply (not_elem_of_list_to_map_2 _ _ Ha).
    + cbn. split; [intros _ | reflexivity].
      left. cbn in Ht. now apply negb_false_iff, String.eqb_eq in Ht.
  - rewrite (canonical_truthy _ Hc). cbn [List.map to_string forallb].
    rewrite andb_true_r. split; [auto |]. intros _. now apply existsb_eqb_In.
  - rewrite (canonical_truthy _ Hc). cbn [List.map to_string forallb].
    rewrite andb_true_r. split.
    + intros _. right. right. apply List.in_map_iff. now exists (toLowerCase p, c).
    + intros _. now apply existsb_eqb_In.
  - cbn [truthy List.map forallb]. rewrite (native_invalid _ Hk). cbn [andb].
    split; [intros Hf; discriminate Hf |].
    intros [-> | [H | H]]; [discriminate Ht | contradiction |].
    exfalso. apply list_elem_of_In in H.
    now apply (not_elem_of_list_to_map_2 _ _ Ha).
Qed.

Lemma normalized_accepted_iff (perms : list string) :
  forallb permission_valid
    (List.map to_string (normalize_all (List.map VStr perms))) = true <->
  (forall p, In p perms ->
             p = "" \/ In (toLowerCase p) permission_values \/
             In (toLowerCase p) (List.map fst alias_entries)).
Proof.
  unfold normalize_all.
  induction perms as [| p perms IH].
  - cbn. split; [intros _ p [] | reflexivity].
  - change (List.map VStr (p :: perms)) with (VStr p :: List.map VStr perms).
    change (List.map normalizePermission (VStr p :: List.map VStr perms))
      with ([normalizePermission (VStr p)]
            ++ List.map normalizePermission (List.map VStr perms))%list.
    rewrite List.filter_app, List.map_app, forallb_app, andb_true_iff.
    rewrite IH, element_accepted. split.
    + intros [Hp Hall] q [<- | Hq]; [exact Hp | now apply Hall].
    + intros Hall. split; [apply Hall; now left |].
      intros q Hq. apply Hall. now right.
Qed.

(** An element that cannot be cast to the string path makes the array
    invalid, whether the assignment is refused or not. *)
Lemma not_castable_invalid (perms : list string) :
  forallb castable (normalize_all (List.map VStr perms)) = false ->
  forallb permission_valid perms = false /\
  forallb permission_valid
    (List.map to_string (normalize_all (List.map VStr perms))) = false.
Proof.
  unfold normalize_all.
  induction perms as [| p perms IH]; [intros E; discriminate E |].
  cbn [List.map List.filter forallb].
  destruct (truthy (normalizePermission (VStr p))) eqn:Ht.
  - cbn [forallb List.map].
    destruct (castable (normalizePermission (VStr p))) eqn:Ec.
    + cbn [andb]. intros H. destruct (IH H) as [H1 H2].
      rewrite H1, H2, !andb_false_r. now split.
    + intros _. destruct (normalizePermission (VStr p)) eqn:En;
        try discriminate Ec.
      cbn [castable] in Ec. apply negb_false_iff, String.eqb_eq in Ec. subst.
      split; [| reflexivity].
      destruct (permission_valid p) eqn:Ev; [| reflexivity].
      apply existsb_eqb_In in Ev.
      rewrite (normalizePermission_canonical p Ev) in En. discriminate En.
  - intros H. destruct (IH H) as [H1 H2]. rewrite H1, andb_false_r. now split.
Qed.

(** X16. On the create path an array of permissions passes the [enum]
    validation, after the [pre('validate')] hook, exactly when each of its
    elements is the empty string (which the hook drops) or has a lower-case
    form that is an enumerated permission or an alias. *)
Theorem permissions_accepted_iff (perms : list string) :
  forallb permission_valid (pre_validate_permissions perms) = true <->
  (forall p, In p perms ->
             p = "" \/ In (toLowerCase p) permission_values \/
             In (toLowerCase p) (List.map fst alias_entries)).
Proof.
  rewrite <- normalized_accepted_iff. unfold pre_validate_permissions.
  destruct (forallb castable (normalize_all (List.map VStr perms))) eqn:Ec;
    [reflexivity |].
  destruct (not_castable_invalid perms Ec) as [H1 H2]. now rewrite H1, H2.
Qed.

End Hooks.

(* ===================================================================== *)
(** * Further properties of [protect]                                     *)
(* ===================================================================== *)

Section MoreProtect.
Import Rbac AuthMiddleware.

Lemma append_cons (c : ascii) (s t : string) :
  (String c s ++ t)%string = String c (s ++ t)%string.
Proof. reflexivity. Qed.

Lemma append_nil (t : string) : (EmptyString ++ t)%string = t.
Proof. reflexivity. Qed.

Lemma not_space_char (c : ascii) : is_space c = false -> Ascii.eqb c " " = false.
Proof.
  intros H. destruct (Ascii.eqb_spec c " ") as [-> | _]; [discriminate H | reflexivity].
Qed.

Lemma split_space_word (tok : string) :
  Schema.no_space tok = true -> split_space tok = [tok].
Proof.
  induction tok as [| c tok IH]; [reflexivity |].
  cbn [Schema.no_space split_space]. intros H. apply andb_prop in H as [Hc Ht].
  apply negb_true_iff in Hc. rewrite (not_space_char _ Hc), (IH Ht). reflexivity.
Qed.

Lemma split_space_word_rest (tok rest : string) :
  Schema.no_space tok = true ->
  split_space (tok ++ String " " rest) = tok :: split_space rest.
Proof.
  induction tok as [| c tok IH]; intros H.
  - reflexivity.
  - cbn [Schema.no_space] in H. apply andb_prop in H as [Hc Ht].
    apply negb_true_iff in Hc. rewrite append_cons. cbn [split_space].
    rewrite (not_space_char _ Hc), (IH Ht). reflexivity.
Qed.

(** X17. The bearer token of a header: ["Bearer <token>"] gives the token,
    also when more words follow; no header, a header that does not start
    with ["Bearer"] (the test is case-sensitive), and ["Bearer"] with
    nothing after it give none. *)
Theorem bearer_extraction :
  (forall tok, Schema.no_space tok = true ->
               bearer (Some ("Bearer " ++ tok)) = Some tok) /\
  (forall tok rest, Schema.no_space tok = true ->
                    bearer (Some ("Bearer " ++ tok ++ String " " rest)) = Some tok) /\
  bearer None = None /\
  (forall h, String.prefix "Bearer" h = false -> bearer (Some h) = None) /\
  bearer (Some "Bearer") = None /\
  bearer (Some "bearer abc") = None.
Proof.
  repeat split; try reflexivity.
  - intros tok H. unfold bearer.
    rewrite !append_cons, append_nil. cbn [Schema.nonempty String.eqb negb andb].
    change (String.prefix "Bearer" (String "B" (String "e" (String "a"
              (String "r" (String "e" (String "r" (String " " tok))))))))
      with true.
    cbn [Ascii.eqb Bool.eqb andb].
    change (split_space (String "B" (String "e" (String "a" (String "r"
              (String "e" (String "r" (String " " tok))))))))
      with ("Bearer" :: split_space tok).
    now rewrite (split_space_word _ H).
  - intros tok rest H. unfold bearer.
    rewrite !append_cons, append_nil. cbn [Schema.nonempty String.eqb negb andb].
    change (String.prefix "Bearer" (String "B" (String "e" (String "a"
              (String "r" (String "e" (String "r"
                 (String " " (tok ++ String " " rest)))))))))
      with true.
    cbn [Ascii.eqb Bool.eqb andb].
    change (split_space (String "B" (String "e" (String "a" (String "r"
              (String "e" (String "r" (String " " (tok ++ String " " rest)))))))))
      with ("Bearer" :: split_space (tok ++ String " " rest)).
    now rewrite (split_space_word_rest _ _ H).
  - intros h H. unfold bearer. rewrite H. now rewrite andb_false_r.
Qed.

Lemma bearer_of_token (tok : string) :
  Schema.no_space tok = true -> bearer (Some ("Bearer " ++ tok)) = Some tok.
Proof.
  intros H. unfold bearer.
  rewrite !append_cons, append_nil. cbn [Schema.nonempty String.eqb negb andb].
  change (String.prefix "Bearer" (String "B" (String "e" (String "a"
            (String "r" (String "e" (String "r" (String " " tok))))))))
    with true.
  cbn [Ascii.eqb Bool.eqb andb].
  change (split_space (String "B" (String "e" (String "a" (String "r"
            (String "e" (String "r" (String " " tok))))))))
    with ("Bearer" :: split_space tok).
  now rewrite (split_space_word _ H).
Qed.

(** X18. [protect] lets a request through only with a bearer token that
    [verifyToken] accepts and whose id is the text of the ObjectId of an
    identity stored in the collection of the role of the token; the context
    it attaches carries that ObjectId, the email of that identity and the
    role of the token. *)
Theorem protect_sound `{Crypto} (cfg : Config) (clock : Z) (db : Db)
    (authorization : option string) (u : gmap string value) :
  protect cfg clock db authorization = (Next, Some u) ->
  exists (tok : string) (decoded : Payload) (doc : Identity.t) (m : Model),
    bearer authorization = Some tok /\
    AuthService.verifyToken cfg clock tok = Ok decoded /\
    In (p_role decoded, m) AuthService.userModels_entries /\
    In doc (collection m db) /\
    ObjectId.cast (p_id decoded) = Some (Identity._id doc) /\
    u !! "id" = Some (VId (Identity._id doc)) /\
    u !! "email" = Some (VStr (Identity.email doc)) /\
    u !! "role" = Some (VStr (p_role decoded)).
Proof.
  unfold protect.
  destruct (bearer authorization) as [[| c tok] |] eqn:Hb;
    try (intros E; discriminate E).
  destruct (AuthService.verifyToken cfg clock (String c tok)) as [decoded | e | x]
    eqn:Hv; try (intros E; discriminate E).
  destruct (AuthService.findUserById db (p_id decoded) (p_role decoded))
    as [[[doc m] |] | e | x] eqn:Hown; try (intros E; discriminate E).
  intros E. injection E as <-.
  unfold AuthService.findUserById, get_prop in Hown.
  destruct (AuthService.userModels !! p_role decoded) as [m' |] eqn:Em;
    [| destruct (bool_decide _); discriminate Hown].
  destruct (Schema.findById (collection m' db) (p_id decoded))
    as [[d |] | e | x] eqn:Ef; cbn in Hown; try discriminate Hown.
  injection Hown as -> ->.
  exists (String c tok), decoded, doc, m.
  split; [reflexivity |]. split; [exact Hv |].
  split.
  { unfold AuthService.userModels in Em. apply elem_of_list_to_map_2 in Em.
    now apply list_elem_of_In. }
  destruct (findById_found _ _ _ Ef) as [Hin Hid].
  split; [exact Hin |].
  split; [exact Hid |].
  split; [apply lookup_insert_eq |].
  split.
  - rewrite lookup_insert_ne by discriminate. apply lookup_insert_eq.
  - rewrite !lookup_insert_ne by discriminate. apply lookup_singleton_eq.
Qed.

(** X19. Login, then [protect]: the token that [login] returned, sent as
    ["Bearer <token>"] before it expires, passes [protect]; the context
    carries the id and role that [login] reported, and [authorize(...roles)]
    after it calls [next()] exactly when that role is one of [roles]. *)
Theorem login_then_protect {C : Crypto} {L : CryptoLaws C} (cfg : Config)
    (env : Env) (clock : Z) (db : Db) (email pw : string) (a : AuthData) :
  AuthService.login cfg env db email pw = Ok a ->
  Schema.no_space (token a) = true ->
  token a <> "" ->
  clock / 1000 < now env / 1000 + AuthService.expiresIn cfg ->
  exists u : gmap string value,
    protect cfg clock db (Some ("Bearer " ++ token a)) = (Next, Some u) /\
    u !! "id" = Some (VId (UserView.id (user a))) /\
    u !! "role" = Some (VStr (UserView.role (user a))) /\
    forall roles : list string,
      authorize roles (Some u) = Next <-> In (UserView.role (user a)) roles.
Proof.
  unfold AuthService.login. intros Hlogin Hsp Hne Hc.
  destruct (AuthService.findUserByEmail db email) as [[d role] |] eqn:Ef;
    [| discriminate].
  destruct (negb (bcrypt_compare pw (Identity.password d))); [discriminate |].
  injection Hlogin as <-.
  cbn [token user UserView.id UserView.role AuthService.view] in *.
  destruct (findUserByEmail_member _ _ _ _ Ef) as (m & Hrole & Hin & _).
  destruct (findById_member _ _ Hin) as (d0 & Hd0 & Hid).
  unfold protect. rewrite (bearer_of_token _ Hsp).
  destruct (AuthService.generateToken cfg (now env) (Identity._id d) role)
    as [| c tok] eqn:Etok; [now contradiction Hne |].
  rewrite <- Etok.
  rewrite (proj1 (verifyToken_generateToken cfg (now env) clock _ _) Hc).
  cbn [p_id p_role]. rewrite findUserById_hex.
  rewrite (user_model_of_role _ _ Hrole), Hd0. cbn [option_map].
  eexists. split; [reflexivity |]. rewrite Hid.
  split; [apply lookup_insert_eq |].
  assert (Hr : forall v1 v2 v3 v4 v5 : value,
            ({[ "id" := v1; "email" := v2; "firstName" := v3;
                "lastName" := v4; "role" := v5 ]} : gmap string value)
              !! "role" = Some v5).
  { intros. rewrite !lookup_insert_ne by discriminate. apply lookup_singleton_eq. }
  split; [apply Hr |].
  intros roles. unfold authorize, field. rewrite Hr.
  change (default VUndefined (Some (VStr role))) with (VStr role).
  change (strict_eq_str (VStr role)) with (String.eqb role).
  rewrite <- existsb_eqb_In.
  destruct (existsb (String.eqb role) roles); cbn [negb]; split;
    first [intros _; reflexivity | intros E; discriminate E].
Qed.

End MoreProtect.

(* ===================================================================== *)
(** * Properties of the controller and of the error pipeline              *)
(* ===================================================================== *)

Section Controller.
Context {C : Crypto}.
Variable cfg : Config.
Import ErrorPipeline.

Lemma own_admin_role (role : string) :
  get_prop AuthService.userModels role = Own Admin -> role = ROLES.ADMIN.
Proof.
  unfold get_prop.
  destruct (AuthService.userModels !! role) as [m |] eqn:Em;
    [| destruct (bool_decide _); intros E; discriminate E].
  intros E. injection E as ->.
  unfold AuthService.userModels in Em. apply elem_of_list_to_map_2 in Em.
  apply list_elem_of_In in Em. cbn in Em.
  destruct Em as [E | [E | [E | []]]]; inversion E. reflexivity.
Qed.

(** What [AuthService.register] does to the admins: nothing, or one more
    when the role is admin. *)
Lemma register_admins (env : Env) (db : Db) (r : Registration) :
  admins (snd (AuthService.register cfg env db r)) = admins db \/
  (r_role r = ROLES.ADMIN /\
   exists doc, admins (snd (AuthService.register cfg env db r))
               = (admins db ++ [doc])%list).
Proof.
  unfold AuthService.register.
  destruct (AuthService.findUserByEmail db (r_email r)); [now left |].
  destruct (get_prop AuthService.userModels (r_role r)) as [m | k |] eqn:Em;
    [| destruct (k =? "constructor")%string; now left | now left].
  unfold Schema.create. cbv zeta.
  destruct (negb (Schema.validate m _)); [now left |].
  destruct (Schema.duplicate _ _ _); [now left |].
  cbn [snd]. destruct m; [| now left | now left].
  right. split; [now apply own_admin_role |]. eexists. reflexivity.
Qed.

(** X20. The registration endpoint never stores a third administrator:
    with two or more administrators stored, a registration with role admin
    is answered 403 and stores nothing, and a store with at most two
    administrators has at most two after any registration. *)
Theorem register_admin_cap (errors : list string) (env : Env) (db : Db)
    (r : Registration) :
  (length (admins db) <= 2)%nat ->
  (length (admins (snd (AuthController.register cfg errors env db r))) <= 2)%nat /\
  (errors = [] -> r_role r = ROLES.ADMIN -> length (admins db) = 2%nat ->
   AuthController.register cfg errors env db r
   = (Fail (mkError
              "Admin registration limit reached. Only two admins are allowed."
              403), db)).
Proof.
  intros Hcap. split.
  - unfold AuthController.register.
    destruct errors; [| exact Hcap].
    destruct (negb (existsb _ AuthController.ALLOWED_ROLES)); [exact Hcap |].
    destruct (String.eqb_spec (r_role r) ROLES.ADMIN) as [Ha | Hna].
    + destruct (Nat.leb_spec 2 (length (admins db))) as [Hge | Hlt];
        cbn [andb]; [exact Hcap |].
      destruct (register_admins env db r) as [-> | (_ & doc & ->)]; [exact Hcap |].
      rewrite List.length_app. cbn [length]. lia.
    + cbn [andb].
      destruct (register_admins env db r) as [-> | (Ha & _)];
        [exact Hcap | contradiction].
  - intros -> Ha Hlen. unfold AuthController.register.
    rewrite Ha, Hlen. reflexivity.
Qed.

Lemma service_register_failure (env : Env) (db : Db) (r : Registration)
    (e : ErrorResponse) :
  fst (AuthService.register cfg env db r) = Fail e -> statusCode e = 400.
Proof.
  unfold AuthService.register.
  destruct (AuthService.findUserByEmail db (r_email r));
    [intros E; now injection E as <- |].
  destruct (get_prop AuthService.userModels (r_role r)) as [m | k |];
    [| destruct (k =? "constructor")%string; intros E; discriminate E
     | intros E; now injection E as <-].
  unfold Schema.create. cbv zeta.
  destruct (negb (Schema.validate m _)); [intros E; discriminate E |].
  destruct (Schema.duplicate _ _ _); intros E; discriminate E.
Qed.

(** X21. The registration endpoint answers 201, 400, 403 or 500 and
    nothing else; in particular a duplicate email is never answered 409:
    found by the service it is a 400, raised by the unique index it is a
    500. *)
Theorem register_http_status (errors : list string) (env : Env) (db : Db)
    (r : Registration) :
  In (respond 201 (fst (AuthController.register cfg errors env db r)))
     [201; 400; 403; 500] /\
  (forall found, errors = [] -> In (r_role r) AuthController.ALLOWED_ROLES ->
     (r_role r = ROLES.ADMIN -> (length (admins db) < 2)%nat) ->
     AuthService.findUserByEmail db (r_email r) = Some found ->
     respond 201 (fst (AuthController.register cfg errors env db r)) = 400) /\
  respond 201 (Crash DuplicateKey : result AuthData) = 500.
Proof.
  split; [| split; [| reflexivity]].
  - unfold AuthController.register.
    destruct errors; [| cbn; auto].
    destruct (negb (existsb _ AuthController.ALLOWED_ROLES)); [cbn; auto |].
    destruct (_ && _); [cbn; auto |].
    destruct (fst (AuthService.register cfg env db r)) as [a | e | x] eqn:E.
    + cbn. auto.
    + apply service_register_failure in E.
      unfold respond, asyncHandler, errorHandler. rewrite E. cbn. auto.
    + destruct x; cbn; auto.
  - intros found -> Hrole Hcap Hf. unfold AuthController.register.
    apply existsb_eqb_In in Hrole. rewrite Hrole. cbn [negb].
    assert (Hc : (String.eqb (r_role r) ROLES.ADMIN
                  && (2 <=? length (admins db))%nat) = false).
    { destruct (String.eqb_spec (r_role r) ROLES.ADMIN) as [Ha | _]; [| reflexivity].
      specialize (Hcap Ha). cbn [andb]. apply Nat.leb_gt. exact Hcap. }
    rewrite Hc. unfold AuthService.register. now rewrite Hf.
Qed.

(** X22. Behind [asyncHandler] the branches of [errorHandler] for the
    exceptions of the database are out of reach.  An exception that is no
    [ErrorResponse] is made one before [errorHandler] sees it: 400 for a
    Mongoose [ValidationError] or [CastError], 401 for the two errors of
    jsonwebtoken, 500 for any other, whatever [statusCode] it carries; so
    the answer is never the 404 (cast), 409 (duplicate key) or 422
    (validation) that [errorHandler] has for the exception itself. *)
Theorem wrapped_handler_statuses (x : exception) :
  errorHandler (Operational (asyncHandler (Raw x)))
  = match x with
    | MongooseValidation | MongooseCast => 400
    | JsonWebTokenError | TokenExpiredError => 401
    | DuplicateKeyError | CelebrateError | MongoError | OtherError _ => 500
    end /\
  In (errorHandler (Operational (asyncHandler (Raw x)))) [400; 401; 500] /\
  (forall f : failure, In (respond 200 (Crash f : result unit)) [400; 500]) /\
  errorHandler (Raw DuplicateKeyError) = 409 /\
  errorHandler (Operational (asyncHandler (Raw DuplicateKeyError))) = 500 /\
  errorHandler (Raw MongooseValidation) = 422 /\
  errorHandler (Operational (asyncHandler (Raw MongooseValidation))) = 400 /\
  errorHandler (Raw MongooseCast) = 404 /\
  errorHandler (Operational (asyncHandler (Raw MongooseCast))) = 400 /\
  errorHandler (Raw (OtherError (Some 418))) = 418 /\
  errorHandler (Operational (asyncHandler (Raw (OtherError (Some 418))))) = 500.
Proof.
  split; [now destruct x |]. split; [destruct x; cbn; auto |].
  split; [intros f; destruct f; cbn; auto |]. repeat split; reflexivity.
Qed.

Lemma find_weaker {A : Type} (P Q : A -> bool) (l : list A) (x : A) :
  List.find P l = Some x -> (forall y, P y = true -> Q y = true) ->
  exists z, List.find Q l = Some z.
Proof.
  intros E Himp. apply List.find_some in E as [Hin Hx].
  destruct (List.find Q l) as [z |] eqn:Ez; [now exists z |].
  pose proof (find_none_inv _ _ x Ez Hin) as Hq.
  rewrite (Himp x Hx) in Hq. discriminate Hq.
Qed.

(** X23. A reset link that [verifyResetToken] reports valid is, at the same
    clock reading, not refused by [resetPassword] as invalid or expired. *)
Theorem verified_link_not_refused (env : Env) (db : Db) (tok pw : string)
    (email : option string) :
  AuthController.verifyResetToken (now env) db tok
  = AuthController.ValidToken email ->
  fst (AuthService.resetPassword env db tok pw)
  <> Fail (mkError "Invalid or expired reset token" 400).
Proof.
  unfold AuthController.verifyResetToken.
  destruct (negb (Schema.nonempty tok)); [intros E; discriminate E |].
  destruct (Token.findOne_unused _ _ _ _) as [td |] eqn:Ef;
    [| intros E; discriminate E].
  intros _. unfold Token.findOne_unused in Ef.
  destruct (find_weaker _
              (fun d => (Token.token d =? sha256_hex tok)%string
                        && (Token.type d =? "password-reset")%string
                        && (now env <? Token.expiresAt d)) _ _ Ef)
    as (z & Hz).
  { intros y Hy. apply andb_prop in Hy as [Hy Hexp].
    apply andb_prop in Hy as [Hy _]. now rewrite Hy, Hexp. }
  unfold AuthService.resetPassword, Token.findOne. rewrite Hz.
  rewrite findUserById_hex.
  destruct (get_prop AuthService.userModels _) as [m | k |];
    [| cbn [fst]; intros E; discriminate E | cbn [fst]; intros E; discriminate E].
  destruct (Schema.findOne_id (collection m db) (Token.user z)) as [u |];
    cbn [option_map]; [| cbn [fst]; intros E; discriminate E].
  unfold Schema.save. cbv zeta.
  destruct (negb (Schema.validate m _)); [cbn [fst]; intros E; discriminate E |].
  destruct (_ && _); cbn [fst]; intros E; discriminate E.
Qed.

(** X24. Lookup by email takes the first match in the order admin, teacher,
    student: when the admins hold the email, [login] answers for that
    administrator alone, whatever the other collections hold. *)
Theorem login_prefers_admin (env : Env) (db : Db) (email pw : string)
    (a : Identity.t) :
  Schema.findOne_email (admins db) email = Some a ->
  AuthService.login cfg env db email pw
  = if bcrypt_compare pw (Identity.password a)
    then Ok (mkAuthData (AuthService.view a ROLES.ADMIN)
               (AuthService.generateToken cfg (now env) (Identity._id a)
                  ROLES.ADMIN))
    else Fail (mkError "Incorrect password" 401).
Proof.
  intros Ha. unfold AuthService.login, AuthService.findUserByEmail,
    AuthService.userModels_entries.
  cbn [AuthService.findUserByEmail_from collection]. rewrite Ha.
  now destruct (bcrypt_compare pw (Identity.password a)).
Qed.

End Controller.

(* ===================================================================== *)
(** * Properties of the route table                                       *)
(* ===================================================================== *)

Section Routes.
Import Rbac RouteProtection.

(** X25. A context of role student is granted only the two public routes
    and the paths that start with [/api/student/courses] or
    [/api/student/grades]. *)
Theorem student_route_access (path : string) (u : gmap string value) :
  u !! "role" = Some (VStr "student") ->
  hasRouteAccess path u = Normal true ->
  In path publicRoutes \/
  String.prefix "/api/student/courses" path = true \/
  String.prefix "/api/student/grades" path = true.
Proof.
  intros Hrole. unfold hasRouteAccess.
  destruct (existsb (String.eqb path) publicRoutes) eqn:Hpub.
  - intros _. left. now apply existsb_eqb_In.
  - unfold route_of, ROUTE_PERMISSIONS. rewrite (field_lookup _ _ _ Hrole).
    cbn [List.find fst].
    repeat match goal with
           | |- context [String.prefix ?r path] =>
               let E := fresh "E" in
               destruct (String.prefix r path) eqn:E;
               [ cbn; first [ intros H; discriminate H | intros _; auto ] |]
           end.
    cbn. intros H. discriminate H.
Qed.

Lemma every_array (l : list value) (ps : list string) :
  every (fun p => optional_includes (VArr l) p) ps
  = Normal (forallb (array_includes l) ps).
Proof.
  induction ps as [| p ps IH]; [reflexivity |].
  cbn [every optional_includes truthy forallb].
  destruct (array_includes l p); [exact IH | reflexivity].
Qed.

(** X26. The permissions of a route bind administrators only: a context
    whose role is listed for the route and is not admin is granted the
    route whatever permissions it has, while an administrator who is not a
    super administrator and lacks one of the permissions is refused. *)
Theorem route_permissions_bind_admins_only (path : string) (cfg : routeConfig)
    (u : gmap string value) :
  ~ In path publicRoutes ->
  route_of path = Some cfg ->
  (forall r, u !! "role" = Some (VStr r) -> r <> "admin" -> In r (roles cfg) ->
             hasRouteAccess path u = Normal true) /\
  (forall l perm,
     u !! "role" = Some (VStr "admin") -> In "admin" (roles cfg) ->
     strict_eq_str (field u "roleType") "super_admin" = false ->
     u !! "permissions" = Some (VArr l) ->
     In perm (permissions cfg) -> ~ In (VStr perm) l ->
     hasRouteAccess path u = Normal false).
Proof.
  intros Hpub Hroute.
  assert (Hp : existsb (String.eqb path) publicRoutes = false)
    by now apply existsb_eqb_not_In.
  split.
  - intros r Hrole Hna Hin. unfold hasRouteAccess.
    rewrite Hp, Hroute, (field_lookup _ _ _ Hrole).
    change (strict_eq_str (VStr r)) with (String.eqb r).
    apply existsb_eqb_In in Hin. rewrite Hin. cbn [negb strict_eq_str].
    apply String.eqb_neq in Hna. now rewrite Hna.
  - intros l perm Hrole Hin Hsuper Hperms Hperm Hlack. unfold hasRouteAccess.
    rewrite Hp, Hroute, (field_lookup _ _ _ Hrole), Hsuper,
      (field_lookup _ _ _ Hperms).
    change (strict_eq_str (VStr "admin")) with (String.eqb "admin").
    apply existsb_eqb_In in Hin. rewrite Hin. cbn [negb String.eqb andb].
    replace (0 <? length (permissions cfg))%nat with true.
    2:{ symmetry. apply Nat.ltb_lt. destruct (permissions cfg); [destruct Hperm |].
        cbn. lia. }
    cbn [Ascii.eqb Bool.eqb andb]. rewrite every_array. f_equal.
    destruct (forallb (array_includes l) (permissions cfg)) eqn:E; [| reflexivity].
    rewrite forallb_forall in E. specialize (E perm Hperm).
    apply array_includes_In in E. contradiction.
Qed.

End Routes.

(* ===================================================================== *)
(** * The further properties at the sample data                           *)
(* ===================================================================== *)

Section MoreSamples.
Import Reference AuthService.

#[local] Existing Instance crypto.

Lemma session_token_window_witness :
  verifyToken cfg 20000 (generateToken cfg 10000 "64a000000000000000000001" "admin")
  = Ok (mkPayload "64a000000000000000000001" "admin" 10 604810) /\
  verifyToken cfg 604810000 (generateToken cfg 10000 "64a000000000000000000001" "admin")
  = Fail (mkError "Invalid token" 401).
Proof.
  split.
  - apply (proj1 (session_token_window (L := reference_laws) cfg 10000 20000
                    "64a000000000000000000001" "admin")).
    vm_compute. reflexivity.
  - apply (proj2 (session_token_window (L := reference_laws) cfg 10000 604810000
                    "64a000000000000000000001" "admin")).
    vm_compute. intros E. discriminate E.
Defined.

Lemma login_then_refresh_witness :
  exists (a1 a2 : AuthData) (claims : Payload),
    login cfg (env 2000 "") (store false) "a@x.com" "secret123" = Ok a1 /\
    refreshToken cfg (env 500000 "") (store false) (token a1) = Ok a2 /\
    verifyToken cfg 900000 (token a2) = Ok claims /\
    p_id claims = UserView.id (user a1) /\
    p_role claims = UserView.role (user a1) /\
    exp claims = 500 + 604800.
Proof.
  assert (Hl : login cfg (env 2000 "") (store false) "a@x.com" "secret123"
               = Ok (mkAuthData (view student1 "student")
                       (generateToken cfg 2000 "64b000000000000000000001" "student")))
    by (vm_compute; reflexivity).
  destruct (login_then_refresh (L := reference_laws) cfg (env 2000 "")
              (env 500000 "") 900000 (store false) "a@x.com" "secret123" _ Hl)
    as (a2 & claims & H).
  - vm_compute. reflexivity.
  - vm_compute. reflexivity.
  - eexists _, a2, claims. split; [exact Hl | exact H].
Defined.

Lemma refreshToken_refusals_witness :
  refreshToken cfg (env 604810000 "") (store false)
    (generateToken cfg 10000 "64b000000000000000000001" "student")
  = Fail (mkError "Invalid token" 401) /\
  refreshToken cfg (env 20000 "") empty
    (generateToken cfg 10000 "64b000000000000000000001" "student")
  = Fail (mkError "User not found" 404) /\
  refreshToken cfg (env 20000 "") (store false)
    (generateToken cfg 10000 "1" "student")
  = Crash CastError /\
  ErrorPipeline.respond 200
    (refreshToken cfg (env 20000 "") (store false)
       (generateToken cfg 10000 "1" "student")) = 400.
Proof.
  split; [| split].
  - apply (proj1 (refreshToken_refusals (L := reference_laws) cfg
                    (env 604810000 "") (store false) 10000
                    "64b000000000000000000001" "student")).
    vm_compute. intros E. discriminate E.
  - apply (proj1 (proj2 (refreshToken_refusals (L := reference_laws) cfg
                           (env 20000 "") empty 10000
                           "64b000000000000000000001" "student"))).
    + vm_compute. reflexivity.
    + intros m _. destruct m; reflexivity.
    + cbn. intuition discriminate.
  - apply (proj2 (proj2 (refreshToken_refusals (L := reference_laws) cfg
                           (env 20000 "") (store false) 10000 "1" "student"))
             eq_refl Student).
    + cbn. tauto.
    + reflexivity.
Defined.

Lemma forgotPassword_stores_digest_witness :
  exists m : Model,
    In ("student", m) userModels_entries /\
    forgotPassword (env 1000 "64c000000000000000000002") (store false)
      "A@X.com" "10.0.0.1" "agent" "fresh" (Some "SMTP down")
    = (Fail (mkError ("Failed to send email: " ++ "SMTP down") 500),
       set_tokens
         [reset_token false;
          Token.mk (oid "64c000000000000000000002")
            (oid "64b000000000000000000001")
            (modelName m) (digest "fresh") "password-reset" 3601000 false
            "10.0.0.1" "agent"] (store false)).
Proof.
  refine (forgotPassword_stores_digest
            (env 1000 "64c000000000000000000002") (store false)
            "A@X.com" "10.0.0.1" "agent" "fresh" (Some "SMTP down")
            student1 "student" _ _ _ _).
  - vm_compute. reflexivity.
  - discriminate.
  - discriminate.
  - intros d [<- | []]. split; intros E; vm_compute in E; discriminate E.
Defined.

Lemma forgot_reset_login_witness :
  exists (db1 db2 : Db) (a : AuthData),
    forgotPassword (env 1000 "64c000000000000000000002") (store false)
      "a@x.com" "10.0.0.1" "agent" "fresh" None
    = (Ok "Password reset email sent", db1) /\
    resetPassword (env 5000 "") db1 "fresh" "newpass1"
    = (Ok "Password reset successful", db2) /\
    login cfg (env 9000 "") db2 "a@x.com" "newpass1" = Ok a /\
    UserView.id (user a) = "64b000000000000000000001" /\
    UserView.role (user a) = "student" /\
    tokens db2 = [reset_token false].
Proof.
  apply (forgot_reset_login (L := reference_laws) cfg
           (env 1000 "64c000000000000000000002") (env 5000 "") (env 9000 "")
           (store false) "a@x.com" "10.0.0.1" "agent" "fresh" "newpass1"
           student1 "student" Student).
  - vm_compute. reflexivity.
  - cbn. tauto.
  - reflexivity.
  - vm_compute. reflexivity.
  - left. reflexivity.
  - repeat constructor. cbn. tauto.
  - discriminate.
  - discriminate.
  - intros d [<- | []]. split; intros E; vm_compute in E; discriminate E.
  - vm_compute. reflexivity.
Defined.

Lemma forgot_token_expires_witness :
  exists db1 : Db,
    forgotPassword (env 1000 "64c000000000000000000002") (store false)
      "a@x.com" "10.0.0.1" "agent" "fresh" None
    = (Ok "Password reset email sent", db1) /\
    resetPassword (env 3601000 "") db1 "fresh" "newpass1"
    = (Fail (mkError "Invalid or expired reset token" 400), db1).
Proof.
  apply (forgot_token_expires
           (env 1000 "64c000000000000000000002") (env 3601000 "")
           (store false) "a@x.com" "10.0.0.1" "agent" "fresh" "newpass1"
           student1 "student").
  - vm_compute. reflexivity.
  - discriminate.
  - discriminate.
  - intros d [<- | []]. split; intros E; vm_compute in E; discriminate E.
  - vm_compute. intros E. discriminate E.
Defined.

Lemma register_keeps_emails_unique_witness :
  List.NoDup
    (List.map Identity.email
       (admins (snd (register cfg (env 1000 "64b000000000000000000009")
                       store_root student_ab)) ++
        teachers (snd (register cfg (env 1000 "64b000000000000000000009")
                         store_root student_ab)) ++
        students (snd (register cfg (env 1000 "64b000000000000000000009")
                         store_root student_ab)))).
Proof.
  apply (register_keeps_emails_unique cfg (env 1000 "64b000000000000000000009")
           store_root student_ab).
  repeat constructor. cbn. tauto.
Defined.

Lemma password_hook_idempotent_witness :
  Schema.pre_save_password "salt1" true student1 = student1 /\
  Schema.pre_save_password "salt1" true unsaved
  = Schema.set_password unsaved (bcrypt_hash "secret123" "salt1") /\
  bcrypt_compare "secret123"
    (Identity.password (Schema.pre_save_password "salt1" true unsaved)) = true.
Proof.
  split.
  - apply (proj1 (password_hook_idempotent (L := reference_laws)
                    "salt1" "salt2" true student1)).
    reflexivity.
  - apply (proj2 (proj2 (proj2 (password_hook_idempotent (L := reference_laws)
                                  "salt1" "salt2" true unsaved)))).
    reflexivity.
Defined.

Lemma normalizePermission_ignores_case_witness :
  AdminModel.normalizePermission (VStr "Manage_Users") = VStr "manage_users" /\
  AdminModel.normalizePermission (VStr "SETTINGS") = VStr "manage_settings".
Proof.
  split.
  - apply (proj1 (normalizePermission_ignores_case "Manage_Users")).
    vm_compute. tauto.
  - apply (proj2 (normalizePermission_ignores_case "SETTINGS")).
    vm_compute. tauto.
Defined.

Lemma permissions_accepted_iff_witness :
  forallb AdminModel.permission_valid
    (AdminModel.pre_validate_permissions ["Settings"; ""; "manage_users"]) = true.
Proof.
  apply (proj2 (permissions_accepted_iff ["Settings"; ""; "manage_users"])).
  intros p [<- | [<- | [<- | []]]]; vm_compute; tauto.
Defined.

Lemma bearer_extraction_witness :
  AuthMiddleware.bearer (Some ("Bearer " ++ "abc.def")) = Some "abc.def" /\
  AuthMiddleware.bearer (Some ("Bearer " ++ "abc.def" ++ String " " "more"))
  = Some "abc.def" /\
  AuthMiddleware.bearer (Some "Basic abc") = None.
Proof.
  destruct bearer_extraction as (H1 & H2 & _ & H3 & _).
  split; [| split].
  - apply H1. reflexivity.
  - apply H2. reflexivity.
  - apply H3. reflexivity.
Defined.

Lemma protect_sound_witness :
  exists (u : gmap string value) (tok : string) (decoded : Payload)
         (doc : Identity.t) (m : Model),
    AuthMiddleware.protect cfg 20000 store_root (Some ("Bearer " ++ root_token))
    = (Rbac.Next, Some u) /\
    AuthMiddleware.bearer (Some ("Bearer " ++ root_token)) = Some tok /\
    verifyToken cfg 20000 tok = Ok decoded /\
    In (p_role decoded, m) userModels_entries /\
    In doc (collection m store_root) /\
    ObjectId.cast (p_id decoded) = Some (Identity._id doc) /\
    u !! "id" = Some (VId (Identity._id doc)) /\
    u !! "email" = Some (VStr (Identity.email doc)) /\
    u !! "role" = Some (VStr (p_role decoded)).
Proof.
  assert (E : exists u, AuthMiddleware.protect cfg 20000 store_root
                          (Some ("Bearer " ++ root_token)) = (Rbac.Next, Some u))
    by (eexists; vm_compute; reflexivity).
  destruct E as [u E]. exists u.
  destruct (protect_sound cfg 20000 store_root (Some ("Bearer " ++ root_token)) u E)
    as (tok & decoded & doc & m & H).
  exists tok, decoded, doc, m. split; [exact E | exact H].
Defined.

Lemma login_then_protect_witness :
  exists (a : AuthData) (u : gmap string value),
    login cfg (env 2000 "") (store false) "a@x.com" "secret123" = Ok a /\
    AuthMiddleware.protect cfg 3000 (store false) (Some ("Bearer " ++ token a))
    = (Rbac.Next, Some u) /\
    u !! "id" = Some (VId (UserView.id (user a))) /\
    u !! "role" = Some (VStr (UserView.role (user a))) /\
    forall roles : list string,
      AuthMiddleware.authorize roles (Some u) = Rbac.Next
      <-> In (UserView.role (user a)) roles.
Proof.
  assert (Hl : login cfg (env 2000 "") (store false) "a@x.com" "secret123"
               = Ok (mkAuthData (view student1 "student")
                       (generateToken cfg 2000 "64b000000000000000000001" "student")))
    by (vm_compute; reflexivity).
  destruct (login_then_protect (L := reference_laws) cfg (env 2000 "") 3000
              (store false) "a@x.com" "secret123" _ Hl)
    as (u & H).
  - vm_compute. reflexivity.
  - intros E. vm_compute in E. discriminate E.
  - vm_compute. reflexivity.
  - eexists _, u. split; [exact Hl | exact H].
Defined.

Lemma register_admin_cap_witness :
  AuthController.register cfg [] (env 1000 "64a000000000000000000003")
    store_two_roots admin_settings
  = (Fail (mkError
             "Admin registration limit reached. Only two admins are allowed."
             403), store_two_roots).
Proof.
  apply (proj2 (register_admin_cap cfg [] (env 1000 "64a000000000000000000003")
                  store_two_roots admin_settings (le_n 2))); reflexivity.
Defined.

Lemma register_http_status_witness :
  ErrorPipeline.respond 201
    (fst (AuthController.register cfg [] (env 2000 "64b00000000000000000000a")
            (store false) student_ab)) = 400.
Proof.
  apply (proj1 (proj2 (register_http_status cfg [] (env 2000 "64b00000000000000000000a")
                         (store false) student_ab)) (student1, "student")).
  - reflexivity.
  - cbn. tauto.
  - intros E. vm_compute in E. discriminate E.
  - vm_compute. reflexivity.
Defined.

Lemma verified_link_not_refused_witness :
  fst (resetPassword (env 1000 "") (store false) "raw" "newpass1")
  <> Fail (mkError "Invalid or expired reset token" 400).
Proof.
  apply (verified_link_not_refused (env 1000 "") (store false) "raw" "newpass1"
           (Some "a@x.com")).
  vm_compute. reflexivity.
Defined.

Lemma login_prefers_admin_witness :
  login cfg (env 2000 "") store_shared "root@x.com" "other456"
  = Fail (mkError "Incorrect password" 401).
Proof.
  refine (login_prefers_admin cfg (env 2000 "") store_shared "root@x.com"
            "other456" root _).
  reflexivity.
Defined.

Lemma student_route_access_witness :
  In "/api/student/grades/7" RouteProtection.publicRoutes \/
  String.prefix "/api/student/courses" "/api/student/grades/7" = true \/
  String.prefix "/api/student/grades" "/api/student/grades/7" = true.
Proof.
  apply (student_route_access "/api/student/grades/7"
           {[ "role" := VStr "student" ]}).
  - reflexivity.
  - vm_compute. reflexivity.
Defined.

Lemma route_permissions_bind_admins_only_witness :
  RouteProtection.hasRouteAccess "/api/admin/courses/42"
    {[ "role" := VStr "teacher" ]} = Normal true /\
  RouteProtection.hasRouteAccess "/api/admin/courses/42"
    {[ "role" := VStr "admin"; "roleType" := VStr "admin";
       "permissions" := VArr [VStr "manage_users"] ]} = Normal false.
Proof.
  assert (Hpub : ~ In "/api/admin/courses/42" RouteProtection.publicRoutes).
  { cbn. intros [E | [E | []]]; discriminate E. }
  split.
  - apply (proj1 (route_permissions_bind_admins_only "/api/admin/courses/42"
                    (RouteProtection.mkRoute ["admin"; "teacher"] ["manage_courses"])
                    {[ "role" := VStr "teacher" ]} Hpub eq_refl) "teacher").
    + reflexivity.
    + discriminate.
    + cbn. tauto.
  - apply (proj2 (route_permissions_bind_admins_only "/api/admin/courses/42"
                    (RouteProtection.mkRoute ["admin"; "teacher"] ["manage_courses"])
                    {[ "role" := VStr "admin"; "roleType" := VStr "admin";
                       "permissions" := VArr [VStr "manage_users"] ]} Hpub eq_refl)
             [VStr "manage_users"] "manage_courses").
    + reflexivity.
    + cbn. tauto.
    + reflexivity.
    + reflexivity.
    + cbn. tauto.
    + cbn. intros [E | []]. discriminate E.
Defined.

End MoreSamples.
